(** * Political reasoner: error classification, retry, cleaning and structuring

    A shallow embedding of [app/utils.py], [app/reasoner.py] and
    [app/routes.py], followed by the properties proved about it.

    Conventions of the embedding:
    - a Python [str] is a list of Unicode code points ([Py.str]);
    - a raised exception is a value of [exn]; a call that may raise returns
      an [outcome];
    - Python numbers that are only multiplied, added and compared (delays,
      scores, timestamps) are rationals, so rounding of floats is not
      modelled;
    - the remote completion service, the random generator and the clock are
      a state [W] threaded through the calls. *)

From Stdlib Require Import List NArith ZArith QArith Bool String Ascii Lia Lqa.
From Stdlib Require Import Numbers.DecimalString.
Import ListNotations.

Local Close Scope Q_scope.
Local Open Scope bool_scope.
Local Open Scope list_scope.

(* ================================================================== *)
(** * Part I: the embedding *)
(* ================================================================== *)

(** ** Python strings *)

Module Py.

Definition char := N.
Bind Scope N_scope with char.
Definition str := list char.

(** An ASCII literal of the source, as code points. *)
Definition lit (s : string) : str := map N_of_ascii (list_ascii_of_string s).
Arguments lit s%_string.

Fixpoint str_eqb (a b : str) : bool :=
  match a, b with
  | [], [] => true
  | x :: a', y :: b' => N.eqb x y && str_eqb a' b'
  | _, _ => false
  end.

Definition in_range (lo hi c : N) : bool := N.leb lo c && N.leb c hi.

(** [str.isspace] on one code point: the code points [str.split()] and
    [str.strip()] treat as white space. *)
Definition isspace (c : char) : bool :=
  in_range 0x09 0x0D c || in_range 0x1C 0x20 c || N.eqb c 0x85
  || N.eqb c 0xA0 || N.eqb c 0x1680 || in_range 0x2000 0x200A c
  || N.eqb c 0x2028 || N.eqb c 0x2029 || N.eqb c 0x202F
  || N.eqb c 0x205F || N.eqb c 0x3000.

(** [str.lower] on one code point.  ASCII capitals move down by 32.  Outside
    ASCII exactly two code points lowercase to text with an ASCII letter in
    it: U+0130 (to [i] and U+0307) and U+212A, the Kelvin sign (to [k]).
    Every other code point outside ASCII lowercases to code points outside
    ASCII; the model keeps it as it is, which changes no test of the
    lowercased text against an ASCII keyword, the only use the program makes
    of lowercased text. *)
Definition lower_char (c : char) : str :=
  if in_range 0x41 0x5A c then [(c + 32)%N]
  else if N.eqb c 0x130 then [0x69%N; 0x307%N]
  else if N.eqb c 0x212A then [0x6B%N]
  else [c].

Definition lower (s : str) : str := flat_map lower_char s.

(** [s.startswith(p)] *)
Fixpoint startswith (p s : str) : bool :=
  match p, s with
  | [], _ => true
  | _ :: _, [] => false
  | a :: p', b :: s' => N.eqb a b && startswith p' s'
  end.

(** [p in s] for two strings. *)
Fixpoint contains (p s : str) : bool :=
  startswith p s ||
  match s with
  | [] => false
  | _ :: s' => contains p s'
  end.

Fixpoint lstrip (s : str) : str :=
  match s with
  | [] => []
  | c :: s' => if isspace c then lstrip s' else s
  end.

(** [s.strip()] *)
Definition strip (s : str) : str := rev (lstrip (rev (lstrip s))).

(** [s.split()]: the maximal runs of code points that are not white space.
    [w] is the run being read, last code point first. *)
Fixpoint split_from (w : str) (s : str) : list str :=
  match s with
  | [] => match w with [] => [] | _ :: _ => [rev w] end
  | c :: s' =>
      if isspace c
      then match w with
           | [] => split_from [] s'
           | _ :: _ => rev w :: split_from [] s'
           end
      else split_from (c :: w) s'
  end.

Definition split (s : str) : list str := split_from [] s.

(** [s.split(sep)] for a separator of one code point: empty pieces are kept. *)
Fixpoint split_on_from (sep : char) (w : str) (s : str) : list str :=
  match s with
  | [] => [rev w]
  | c :: s' =>
      if N.eqb c sep then rev w :: split_on_from sep [] s'
      else split_on_from sep (c :: w) s'
  end.

Definition split_on (sep : char) (s : str) : list str := split_on_from sep [] s.

(** [sep.join(l)] *)
Fixpoint join (sep : str) (l : list str) : str :=
  match l with
  | [] => []
  | [x] => x
  | x :: l' => x ++ sep ++ join sep l'
  end.

(** [str(n)] for an integer. *)
Definition str_of_Z (n : Z) : str := lit (NilEmpty.string_of_int (Z.to_int n)).

Definition len (s : str) : Z := Z.of_nat (List.length s).

(** [s[:n]] for [n >= 0]. *)
Definition prefix (n : Z) (s : str) : str := firstn (Z.to_nat n) s.

End Py.

Import Py.

(** ** Python values, exceptions and outcomes *)

(** The values that cross the JSON boundary. *)
#[local] Set Warnings "-register-all".
Inductive value : Type :=
| VNone
| VBool (b : bool)
| VNum (q : Q)
| VStr (s : str)
| VList (l : list value)
| VDict (d : list (str * value)).

Definition dict := list (str * value).

(** [d.get(k)]; [None] of the option stands for an absent key. *)
Fixpoint dict_get (k : str) (d : dict) : option value :=
  match d with
  | [] => None
  | (k', v) :: d' => if str_eqb k' k then Some v else dict_get k d'
  end.

(** [d.get(k, default)] *)
Definition dict_get_default (k : str) (default : value) (d : dict) : value :=
  match dict_get k d with
  | Some v => v
  | None => default
  end.

(** [k in d] *)
Definition dict_mem (k : str) (d : dict) : bool :=
  match dict_get k d with
  | Some _ => true
  | None => false
  end.

(** [d[k] = v]: a present key keeps its place. *)
Fixpoint dict_set (k : str) (v : value) (d : dict) : dict :=
  match d with
  | [] => [(k, v)]
  | (k', v') :: d' =>
      if str_eqb k' k then (k', v) :: d' else (k', v') :: dict_set k v d'
  end.

(** Truth value of a value ([bool(v)], [if v], [not v]). *)
Definition truthy (v : value) : bool :=
  match v with
  | VNone => false
  | VBool b => b
  | VNum q => negb (Qeq_bool q 0)
  | VStr s => match s with [] => false | _ :: _ => true end
  | VList l => match l with [] => false | _ :: _ => true end
  | VDict d => match d with [] => false | _ :: _ => true end
  end.

(** [UserFriendlyError] of utils.py, and any other [Exception], which the
    program only ever reads through [str(e)]. *)
Inductive exn : Type :=
| UserFriendly (user_message technical_message : str)
| OtherException (message : str).

(** [UserFriendlyError(user_message, technical_message)]: the constructor
    stores [technical_message or user_message]. *)
Definition UserFriendlyError (user_message technical_message : str) : exn :=
  UserFriendly user_message
    (match technical_message with
     | [] => user_message
     | _ :: _ => technical_message
     end).

(** [UserFriendlyError(user_message)] *)
Definition UserFriendlyError1 (user_message : str) : exn :=
  UserFriendly user_message user_message.

(** [str(e)]: [super().__init__(self.technical_message)]. *)
Definition str_of_exn (e : exn) : str :=
  match e with
  | UserFriendly _ technical_message => technical_message
  | OtherException message => message
  end.

Inductive outcome (A : Type) : Type :=
| Returned (a : A)
| Raised (e : exn).

Arguments Returned {A} a.
Arguments Raised {A} e.

(** ** app/utils.py *)

Module Utils.

(** A literal that starts with a pictograph: the code point, then ASCII text. *)
Definition pict (c : char) (s : string) : str := c :: lit s.
Arguments pict c%_N s%_string.

(** *** parse_openai_error *)

Definition insufficient_quota_info : str * str :=
  (pict 0x1F6AB " Kuota API OpenAI telah habis. Silakan hubungi administrator untuk mengisi ulang kuota.",
   lit "Coba lagi dalam beberapa saat atau hubungi tim teknis.").

Definition rate_limit_info : str * str :=
  (pict 0x23F3 " Terlalu banyak permintaan dalam waktu singkat. Mohon tunggu sebentar.",
   lit "Silakan coba lagi dalam 1-2 menit.").

Definition invalid_api_key_info : str * str :=
  (pict 0x1F511 " Konfigurasi API tidak valid. Silakan hubungi administrator.",
   lit "Tim teknis perlu memeriksa pengaturan API.").

Definition model_not_found_info : str * str :=
  (pict 0x1F916 " Model AI tidak tersedia saat ini.",
   lit "Coba lagi nanti atau hubungi support.").

Definition context_length_exceeded_info : str * str :=
  (pict 0x1F4DD " Teks yang dianalisis terlalu panjang.",
   lit "Coba dengan teks yang lebih pendek (maksimal 5000 karakter).").

Definition server_error_info : str * str :=
  (pict 0x1F527 " Server OpenAI mengalami gangguan sementara.",
   lit "Silakan coba lagi dalam beberapa menit.").

Definition timeout_info : str * str :=
  (0x23F1%N :: pict 0xFE0F " Waktu analisis habis. Koneksi mungkin lambat.",
   lit "Periksa koneksi internet dan coba lagi.").

Definition network_error_info : str * str :=
  (pict 0x1F310 " Masalah koneksi internet terdeteksi.",
   lit "Periksa koneksi internet Anda dan coba lagi.").

(** The dictionary [error_patterns], in the order it is written, which is
    the order its items are visited in: (pattern, (message, suggestion)). *)
Definition error_patterns : list (str * (str * str)) :=
  [ (lit "insufficient_quota", insufficient_quota_info);
    (lit "rate_limit", rate_limit_info);
    (lit "invalid_api_key", invalid_api_key_info);
    (lit "model_not_found", model_not_found_info);
    (lit "context_length_exceeded", context_length_exceeded_info);
    (lit "server_error", server_error_info);
    (lit "timeout", timeout_info);
    (lit "network_error", network_error_info) ].

Definition fallback_info : str * str :=
  (pict 0x1F916 " Sistem AI mengalami kendala teknis sementara.",
   lit "Silakan coba lagi dalam beberapa menit atau hubungi support jika masalah berlanjut.").

(** The loop over [error_patterns.items()]: the first pattern found in the
    lowercased text returns. *)
Fixpoint scan_patterns (error_lower : str) (table : list (str * (str * str)))
  : option (str * str) :=
  match table with
  | [] => None
  | (pattern, info) :: table' =>
      if contains pattern error_lower || contains pattern error_lower
      then Some info
      else scan_patterns error_lower table'
  end.

Definition parse_openai_error (error_str : str) : str * str :=
  let error_lower := lower error_str in
  match scan_patterns error_lower error_patterns with
  | Some info => info
  | None =>
      if contains (lit "429") error_str then rate_limit_info
      else if contains (lit "500") error_str || contains (lit "502") error_str
              || contains (lit "503") error_str then server_error_info
      else if contains (lit "401") error_str || contains (lit "403") error_str
      then invalid_api_key_info
      else fallback_info
  end.

(** *** retry_with_exponential_backoff *)

Definition retryable_errors : list str :=
  map lit ["rate_limit"; "429"; "quota"; "server_error"; "500"; "502"; "503";
           "timeout"]%string.

(** [any(err in error_msg for err in retryable_errors)] *)
Definition is_retryable (error_msg : str) : bool :=
  existsb (fun err => contains err error_msg) retryable_errors.

(** What the wrapper does that can be seen from outside. *)
Inductive event : Type :=
| Called                 (* one invocation of the wrapped function *)
| Slept (seconds : Q).   (* one [time.sleep(seconds)] *)

Section Retry.

(** The world the wrapped call, the random generator and the clock act
    on, and the type of a result. *)
Variables W A : Type.

(** The wrapped function applied to its arguments. *)
Variable func : W -> outcome A * W.
(** [random.random()], a number in [0, 1). *)
Variable random : W -> Q * W.
(** The effect of [time.sleep(seconds)] on the world. *)
Variable sleep : Q -> W -> W.

Variable max_retries : Z.
Variable initial_delay : Q.
Variable exponential_base : Q.
Variable jitter : bool.

(** The world together with the record of calls and sleeps so far, the
    latest first. *)
Record run : Type := { world : W; trace : list event }.

(** [random.uniform(a, b)] is [a + (b - a) * random()]. *)
Definition uniform (a b : Q) (w : W) : Q * W :=
  let (r, w') := random w in ((a + (b - a) * r)%Q, w').

(** [str(last_exception)]; it is [None] before the first failure. *)
Definition str_of_last (last_exception : option exn) : str :=
  match last_exception with
  | Some e => str_of_exn e
  | None => lit "None"
  end.

(** The [for attempt in range(max_retries)] loop with [n] iterations left,
    followed by the statements after the loop. *)
Fixpoint attempts (n : nat) (attempt : Z) (delay : Q)
    (last_exception : option exn) (st : run) : outcome A * run :=
  match n with
  | O =>
      let (user_msg, suggestion) :=
        parse_openai_error (str_of_last last_exception) in
      (Raised (UserFriendlyError
                 (user_msg ++ lit " Sudah dicoba " ++ str_of_Z max_retries
                           ++ lit " kali.")
                 (str_of_last last_exception)), st)
  | S n' =>
      let (r, w1) := func (world st) in
      let st1 := {| world := w1; trace := Called :: trace st |} in
      match r with
      | Returned a => (Returned a, st1)
      | Raised e =>
          let error_msg := lower (str_of_exn e) in
          let (user_msg, suggestion) := parse_openai_error (str_of_exn e) in
          if is_retryable error_msg && (attempt <? max_retries - 1)%Z
          then
            let (sleep_time, w2) :=
              if jitter
              then let (j, w) := uniform 0 (delay * (1 # 10)) w1 in
                   ((delay + j)%Q, w)
              else (delay, w1) in
            let st2 := {| world := sleep sleep_time w2;
                          trace := Slept sleep_time :: trace st1 |} in
            attempts n' (attempt + 1)%Z (delay * exponential_base)%Q
                     (Some e) st2
          else (Raised (UserFriendlyError user_msg (str_of_exn e)), st1)
      end
  end.

Definition wrapper (st : run) : outcome A * run :=
  attempts (Z.to_nat max_retries) 0%Z initial_delay None st.

End Retry.

Arguments world {W} r.
Arguments trace {W} r.
Arguments Build_run {W} world trace.

(** Number of invocations and the sleeps, oldest first, of a trace. *)
Definition calls (t : list event) : nat :=
  List.length (filter (fun e => match e with Called => true | _ => false end) t).

Definition sleeps (t : list event) : list Q :=
  flat_map (fun e => match e with Slept s => [s] | Called => [] end) (rev t).

(** *** validate_openai_response *)

Record completion_message : Type := { content : option str }.
Record choice : Type := { message : option completion_message }.
(** A response object; [choices = None] is an object with no such attribute. *)
Record completion : Type := { choices : option (list choice) }.

(** [response] is [None] (or false in another way) or a response object. *)
Definition validate_openai_response (response : option completion)
  : outcome str :=
  match response with
  | None =>
      Raised (UserFriendlyError
                (pict 0x1F916 " AI tidak memberikan respons. Silakan coba lagi.")
                (lit "Empty response from OpenAI"))
  | Some r =>
      match choices r with
      | None | Some [] =>
          Raised (UserFriendlyError
                    (pict 0x1F916 " Format respons AI tidak valid. Silakan coba lagi.")
                    (lit "No choices in OpenAI response"))
      | Some (c :: _) =>
          match message c with
          | None =>
              Raised (UserFriendlyError
                        (pict 0x1F916 " Pesan dari AI kosong. Silakan coba lagi.")
                        (lit "No message in OpenAI response"))
          | Some m =>
              match content m with
              | None | Some [] =>
                  Raised (UserFriendlyError
                            (pict 0x1F916 " AI memberikan respons kosong. Silakan coba lagi dengan teks yang berbeda.")
                            (lit "Empty content in OpenAI response"))
              | Some c =>
                  match strip c with
                  | [] =>
                      Raised (UserFriendlyError
                                (pict 0x1F916 " AI memberikan respons kosong. Silakan coba lagi dengan teks yang berbeda.")
                                (lit "Empty content in OpenAI response"))
                  | _ :: _ => Returned c
                  end
              end
          end
      end
  end.

(** *** clean_text *)

Definition too_short_message : str :=
  pict 0x1F4DD " Teks terlalu pendek. Minimal 10 karakter untuk analisis yang akurat.".

Definition clean_text (text : str) : outcome str :=
  match text with
  | [] =>
      Raised (UserFriendlyError
                (pict 0x1F4DD " Teks tidak boleh kosong. Silakan masukkan teks untuk dianalisis.")
                (lit "Empty text input"))
  | _ :: _ =>
      let text := join (lit " ") (split text) in
      if (len text <? 10)%Z
      then Raised (UserFriendlyError too_short_message
                     (lit "Text too short: " ++ str_of_Z (len text)
                          ++ lit " characters"))
      else
        let text := if (len text >? 10000)%Z
                    then prefix 10000 text ++ lit "..."
                    else text in
        Returned (strip text)
  end.

(** *** format_analysis_response *)

Definition default_sentiment : value :=
  VDict [(lit "label", VStr (lit "netral")); (lit "score", VNum (1 # 2))].

(** [now] is what [time.time()] returns during the call.  A value that is
    not a dictionary has no [get]: the [AttributeError] is caught by the
    function's own handler. *)
Definition format_analysis_response (now : Q) (analysis_data : value) : dict :=
  if negb (truthy analysis_data)
  then [ (lit "sentiment", default_sentiment);
         (lit "topics", VList []);
         (lit "entities", VList []);
         (lit "key_issues", VList []);
         (lit "bias_detected", VBool false);
         (lit "public_impact", VStr (lit "medium"));
         (lit "timestamp", VNum now);
         (lit "status", VStr (lit "success")) ]
  else
    match analysis_data with
    | VDict d =>
        [ (lit "sentiment", dict_get_default (lit "sentiment") default_sentiment d);
          (lit "topics", dict_get_default (lit "topics") (VList []) d);
          (lit "entities", dict_get_default (lit "entities") (VList []) d);
          (lit "key_issues", dict_get_default (lit "key_issues") (VList []) d);
          (lit "bias_detected", dict_get_default (lit "bias_detected") (VBool false) d);
          (lit "public_impact", dict_get_default (lit "public_impact") (VStr (lit "medium")) d);
          (lit "timestamp", dict_get_default (lit "timestamp") (VNum now) d);
          (lit "status", VStr (lit "success")) ]
    | _ =>
        [ (lit "error", VStr (lit "Gagal memformat hasil analisis"));
          (lit "status", VStr (lit "error"));
          (lit "timestamp", VNum now) ]
    end.

(** *** validate_input_data *)

Definition field_names : list (str * str) :=
  [ (lit "text", lit "Teks untuk analisis");
    (lit "question", lit "Pertanyaan");
    (lit "context", lit "Konteks");
    (lit "issue", lit "Isu politik") ].

Fixpoint field_name (field : str) (table : list (str * str)) : str :=
  match table with
  | [] => field
  | (k, v) :: table' => if str_eqb k field then v else field_name field table'
  end.

(** [repr] of a list of field names (names without quotes or escapes). *)
Definition repr_fields (fields : list str) : str :=
  lit "[" ++ join (lit ", ") (map (fun f => lit "'" ++ f ++ lit "'") fields)
      ++ lit "]".

Definition is_missing (data : dict) (field : str) : bool :=
  match dict_get field data with
  | None => true
  | Some v => negb (truthy v)
  end.

Definition validate_input_data (data : dict) (required_fields : list str)
  : outcome bool :=
  match data with
  | [] =>
      Raised (UserFriendlyError
                (pict 0x1F4CB " Data input kosong. Silakan isi form dengan lengkap.")
                (lit "Empty input data"))
  | _ :: _ =>
      let missing_fields := filter (is_missing data) required_fields in
      match missing_fields with
      | _ :: _ =>
          let missing_names :=
            map (fun field => field_name field field_names) missing_fields in
          Raised (UserFriendlyError
                    (pict 0x1F4CB " Field berikut harus diisi: "
                          ++ join (lit ", ") missing_names)
                    (lit "Missing required fields: "
                         ++ repr_fields missing_fields))
      | [] => Returned true
      end
  end.

End Utils.

(** ** app/reasoner.py *)

Module Reasoner.

Import Utils.

(** *** The extraction heuristics of _structure_response *)

(** The dictionary [political_keywords], in the order it is written. *)
Definition political_keywords : list (str * list str) :=
  [ (lit "ekonomi", map lit ["ekonomi"; "keuangan"; "investasi"; "bisnis";
                             "perdagangan"; "inflasi"; "pajak"]%string);
    (lit "politik", map lit ["politik"; "partai"; "pemilu"; "demokrasi";
                             "kekuasaan"; "pemerintah"]%string);
    (lit "sosial", map lit ["sosial"; "masyarakat"; "rakyat"; "warga";
                            "komunitas"; "budaya"]%string);
    (lit "hukum", map lit ["hukum"; "regulasi"; "kebijakan"; "peraturan";
                           "undang-undang"; "yuridis"]%string);
    (lit "teknologi", map lit ["digital"; "teknologi"; "internet"; "sistem";
                               "platform"; "cyber"]%string);
    (lit "pendidikan", map lit ["pendidikan"; "sekolah"; "universitas";
                                "mahasiswa"; "guru"; "kurikulum"]%string);
    (lit "kesehatan", map lit ["kesehatan"; "rumah sakit"; "dokter"; "obat";
                               "vaksin"; "medis"]%string);
    (lit "lingkungan", map lit ["lingkungan"; "iklim"; "polusi"; "hutan";
                                "energi"; "sampah"]%string) ].

(** [any(keyword in text_lower for keyword in keywords)] *)
Definition any_keyword (keywords : list str) (text_lower : str) : bool :=
  existsb (fun keyword => contains keyword text_lower) keywords.

(** The loop that fills [found_topics]. *)
Fixpoint found_in (text_lower : str) (table : list (str * list str))
  : list str :=
  match table with
  | [] => []
  | (topic, keywords) :: table' =>
      if any_keyword keywords text_lower
      then topic :: found_in text_lower table'
      else found_in text_lower table'
  end.

Definition _extract_topics_from_text (text : str) : list str :=
  let text_lower := lower text in
  let found_topics := found_in text_lower political_keywords in
  match found_topics with
  | [] => [lit "umum"]
  | _ :: _ => firstn 5 found_topics
  end.

Definition issue_keywords : list str :=
  map lit ["masalah"; "tantangan"; "kendala"; "hambatan"; "isu"; "persoalan";
           "kesulitan"; "problem"; "krisis"; "konflik"]%string.

Definition nonempty (s : str) : bool :=
  match s with [] => false | _ :: _ => true end.

Definition _extract_issues_from_text (text : str) : list str :=
  let sentences :=
    map strip (filter (fun s => nonempty (strip s)) (split_on 0x2E text)) in
  let issues :=
    filter (fun sentence =>
              any_keyword issue_keywords (lower sentence)
              && (len sentence >? 20)%Z) sentences in
  firstn 5 issues.

Definition skip_words : list str :=
  map lit ["Dalam"; "Untuk"; "Dengan"; "Dari"; "Pada"; "Yang"; "Akan";
           "Telah"]%string.

Section Entities.

(** [c.isupper()] for one code point, a property of the Unicode tables. *)
Variable isupper : char -> bool.
(** [list(set(l))]: the elements of [l] once each, in the order the
    interpreter's set yields them. *)
Variable list_of_set : list str -> list str.

Definition first_isupper (word : str) : bool :=
  match word with [] => false | c :: _ => isupper c end.

(** The loop over [enumerate(words)]; the word after the current one is
    the head of [rest]. *)
Fixpoint scan_entities (words : list str) : list str :=
  match words with
  | [] => []
  | word :: rest =>
      let here :=
        if (len word >? 2)%Z && first_isupper word
           && negb (existsb (str_eqb word) skip_words)
        then match rest with
             | next :: _ =>
                 if first_isupper next
                 then [word ++ lit " " ++ next]
                 else [word]
             | [] => [word]
             end
        else [] in
      here ++ scan_entities rest
  end.

Definition _extract_entities_from_text (text : str) : list str :=
  let entities := scan_entities (split text) in
  match entities with
  | [] => []
  | _ :: _ => firstn 10 (list_of_set entities)
  end.

(** [now] is what [time.time()] returns during the call. *)
Definition _structure_response (now : Q) (response : str) : dict :=
  match strip response with
  | [] =>
      [ (lit "error", VStr (pict 0x1F916 " AI memberikan respons kosong. Silakan coba dengan teks yang berbeda."));
        (lit "status", VStr (lit "error")) ]
  | _ :: _ =>
      [ (lit "sentiment", default_sentiment);
        (lit "topics", VList (map VStr (_extract_topics_from_text response)));
        (lit "entities", VList (map VStr (_extract_entities_from_text response)));
        (lit "key_issues", VList (map VStr (_extract_issues_from_text response)));
        (lit "bias_detected", VBool false);
        (lit "public_impact", VStr (lit "medium"));
        (lit "raw_analysis", VStr response);
        (lit "timestamp", VNum now) ]
  end.

End Entities.

(** *** The operations of PoliticalReasoner *)

(** A [TypeError] of the interpreter, whose wording is not modelled. *)
Definition type_error : exn := OtherException (lit "TypeError").

(** [v[:n]] *)
Definition slice_to (n : nat) (v : value) : outcome value :=
  match v with
  | VList l => Returned (VList (firstn n l))
  | VStr s => Returned (VStr (firstn n s))
  | _ => Raised type_error
  end.

(** One entry of the message sequence sent to the completion service. *)
Definition chat_message (role content : str) : dict :=
  [(lit "role", VStr role); (lit "content", VStr content)].

Section Operations.

Variable W : Type.

(** [self.openai.client.chat.completions.create(model, messages,
    temperature, max_tokens)]: the remote call. *)
Variable create : list dict -> Q -> Z -> W -> outcome (option completion) * W.
Variable random : W -> Q * W.
Variable sleep : Q -> W -> W.
(** [time.time()] *)
Variable clock : W -> Q.
(** [json.loads]; [None] stands for a [JSONDecodeError]. *)
Variable json_loads : str -> option value.
(** [json.dumps(v, ensure_ascii=False)] *)
Variable json_dumps : value -> str.
(** The three templates of prompts.py, which build one string each. *)
Variable get_political_analysis_prompt : str -> str.
Variable get_narrative_generation_prompt : dict -> str.
Variable get_policy_recommendation_prompt : str -> str -> str.
Variable isupper : char -> bool.
Variable list_of_set : list str -> list str.

(** Statements that read and change the run and may raise. *)
Definition M (A : Type) : Type := run W -> outcome A * run W.

Definition ret {A : Type} (a : A) : M A := fun st => (Returned a, st).

Definition lift {A : Type} (o : outcome A) : M A := fun st => (o, st).

Definition bind {A B : Type} (m : M A) (k : A -> M B) : M B :=
  fun st =>
    match m st with
    | (Returned a, st') => k a st'
    | (Raised e, st') => (Raised e, st')
    end.

Definition time_time : M Q := fun st => (Returned (clock (world st)), st).

(** [try: body / except UserFriendlyError as e: ... / except Exception as
    e: ...] where both handlers return. *)
Definition try_except {A : Type} (body : M A)
    (on_user_friendly : str -> A) (on_exception : str -> A)
  : run W -> A * run W :=
  fun st =>
    match body st with
    | (Returned a, st') => (a, st')
    | (Raised (UserFriendly user_message _), st') =>
        (on_user_friendly user_message, st')
    | (Raised (OtherException message), st') => (on_exception message, st')
    end.

Notation "x <- m ;; k" := (bind m (fun x => k))
  (at level 61, m at next level, right associativity).

(** The two handlers of [_make_openai_request]: a [UserFriendlyError]
    passes, any other exception is classified. *)
Definition classify (e : exn) : exn :=
  match e with
  | UserFriendly _ _ => e
  | OtherException message =>
      let (user_msg, suggestion) := parse_openai_error message in
      UserFriendlyError user_msg message
  end.

(** The function under the decorator. *)
Definition request (messages : list dict) (temperature : Q) (max_tokens : Z)
    (w : W) : outcome str * W :=
  match messages with
  | [] =>
      (Raised (UserFriendlyError (pict 0x1F916 " Format permintaan tidak valid.")
                                 (lit "Invalid messages format")), w)
  | _ :: _ =>
      let (r, w') := create messages temperature max_tokens w in
      match r with
      | Raised e => (Raised (classify e), w')
      | Returned response =>
          match validate_openai_response response with
          | Raised e => (Raised (classify e), w')
          | Returned content => (Returned content, w')
          end
      end
  end.

(** [@retry_with_exponential_backoff(max_retries=3, initial_delay=1)] *)
Definition _make_openai_request (messages : list dict) (temperature : Q)
    (max_tokens : Z) : M str :=
  wrapper W str (request messages temperature max_tokens) random sleep
          3 1 2 true.

Definition error_result (message : str) : dict :=
  [(lit "error", VStr message); (lit "status", VStr (lit "error"))].

(** The [try] block of [analyze_political_text]. *)
Definition analyze_political_text_try (text : str) : M dict :=
  _ <- lift (validate_input_data [(lit "text", VStr text)] [lit "text"]) ;;
  text <- lift (clean_text text) ;;
  let prompt := get_political_analysis_prompt text in
  let messages :=
    [ chat_message (lit "system")
        (lit "Anda adalah analis politik Indonesia yang ahli dan objektif.");
      chat_message (lit "user") prompt ] in
  response <- _make_openai_request messages (7 # 10) 1500 ;;
  now <- time_time ;;
  if startswith (lit "{") (strip response)
  then match json_loads response with
       | Some parsed_response =>
           ret (format_analysis_response now parsed_response)
       | None => ret (_structure_response isupper list_of_set now response)
       end
  else ret (_structure_response isupper list_of_set now response).

Definition analyze_political_text (text : str) : run W -> dict * run W :=
  try_except (analyze_political_text_try text)
    (fun user_message =>
       [ (lit "error", VStr user_message);
         (lit "status", VStr (lit "error"));
         (lit "error_type", VStr (lit "user_friendly")) ])
    (fun message =>
       [ (lit "error", VStr (pict 0x1F916 " Terjadi kesalahan tak terduga saat menganalisis teks. Silakan coba lagi."));
         (lit "status", VStr (lit "error"));
         (lit "error_type", VStr (lit "unexpected"));
         (lit "technical_error", VStr message) ]).

(** The [try] block of [extract_key_insights]. *)
Definition extract_key_insights_try (analysis : dict) : M dict :=
  match dict_get (lit "error") analysis with
  | Some e => ret (A := dict) [(lit "error", e); (lit "status", VStr (lit "error"))]
  | None =>
      now <- time_time ;;
      main_topics <-
        lift (slice_to 3 (dict_get_default (lit "topics") (VList []) analysis)) ;;
      political_entities <-
        lift (slice_to 5 (dict_get_default (lit "entities") (VList []) analysis)) ;;
      critical_issues <-
        lift (slice_to 3 (dict_get_default (lit "key_issues") (VList []) analysis)) ;;
      ret [ (lit "sentiment_summary",
             dict_get_default (lit "sentiment") default_sentiment analysis);
            (lit "main_topics", main_topics);
            (lit "political_entities", political_entities);
            (lit "critical_issues", critical_issues);
            (lit "impact_level",
             dict_get_default (lit "public_impact") (VStr (lit "medium")) analysis);
            (lit "bias_detected",
             dict_get_default (lit "bias_detected") (VBool false) analysis);
            (lit "timestamp",
             dict_get_default (lit "timestamp") (VNum now) analysis);
            (lit "status", VStr (lit "success")) ]
  end.

Definition extract_key_insights (analysis : dict) : run W -> dict * run W :=
  try_except (extract_key_insights_try analysis)
    (fun _ => error_result (pict 0x1F50D " Gagal mengekstrak insight dari hasil analisis."))
    (fun _ => error_result (pict 0x1F50D " Gagal mengekstrak insight dari hasil analisis.")).

(** The [try] block of [generate_narrative]. *)
Definition generate_narrative_try (analysis_data : dict) : M dict :=
  match dict_get (lit "error") analysis_data with
  | Some e => ret (A := dict) [(lit "error", e); (lit "status", VStr (lit "error"))]
  | None =>
      let prompt := get_narrative_generation_prompt analysis_data in
      let messages :=
        [ chat_message (lit "system")
            (lit "Anda adalah jurnalis politik yang objektif dan berpengalaman.");
          chat_message (lit "user") prompt ] in
      response <- _make_openai_request messages (8 # 10) 800 ;;
      if negb (nonempty response) || (len (strip response) <? 50)%Z
      then ret (error_result (pict 0x1F4DD " Narasi yang dihasilkan terlalu pendek atau kosong. Silakan coba lagi."))
      else ret [ (lit "narrative", VStr response);
                 (lit "status", VStr (lit "success")) ]
  end.

Definition generate_narrative (analysis_data : dict) : run W -> dict * run W :=
  try_except (generate_narrative_try analysis_data)
    error_result
    (fun _ => error_result (pict 0x1F4DD " Gagal menghasilkan narasi analisis. Silakan coba lagi.")).

(** [parsed["status"] = "success"]: item assignment needs a dictionary. *)
Definition set_status_success (parsed : value) : outcome dict :=
  match parsed with
  | VDict d => Returned (dict_set (lit "status") (VStr (lit "success")) d)
  | _ => Raised type_error
  end.

Definition fallback_recommendations (response : str) : dict :=
  [ (lit "recommendations",
     VList [VStr (if nonempty response then response
                  else lit "Tidak ada rekomendasi yang dapat dihasilkan")]);
    (lit "implementation_timeline",
     VDict [ (lit "phase_1", VStr (lit "1-3 bulan"));
             (lit "phase_2", VStr (lit "3-6 bulan"));
             (lit "phase_3", VStr (lit "6-12 bulan")) ]);
    (lit "stakeholders",
     VList (map (fun s => VStr (lit s))
                ["Pemerintah"; "DPR"; "Masyarakat"; "Swasta"]%string));
    (lit "potential_challenges",
     VList (map (fun s => VStr (lit s))
                ["Anggaran"; "Koordinasi"; "Implementasi"; "Regulasi"]%string));
    (lit "status", VStr (lit "success")) ].

(** The [try] block of [generate_policy_recommendations]. *)
Definition generate_policy_recommendations_try (context issue : str) : M dict :=
  _ <- lift (validate_input_data
               [(lit "context", VStr context); (lit "issue", VStr issue)]
               [lit "context"; lit "issue"]) ;;
  context <- lift (clean_text context) ;;
  issue <- lift (clean_text issue) ;;
  let prompt := get_policy_recommendation_prompt context issue in
  let messages :=
    [ chat_message (lit "system")
        (lit "Anda adalah konsultan kebijakan publik yang berpengalaman di Indonesia.");
      chat_message (lit "user") prompt ] in
  response <- _make_openai_request messages (7 # 10) 1200 ;;
  if startswith (lit "{") (strip response)
  then match json_loads response with
       | Some parsed => lift (set_status_success parsed)
       | None => ret (fallback_recommendations response)
       end
  else ret (fallback_recommendations response).

Definition generate_policy_recommendations (context issue : str)
  : run W -> dict * run W :=
  try_except (generate_policy_recommendations_try context issue)
    error_result
    (fun _ => error_result (pict 0x1F4A1 " Gagal menghasilkan rekomendasi kebijakan. Silakan coba lagi dengan konteks yang lebih jelas.")).

(** The [try] block of [chat_response]; [context] is [None] or a
    dictionary. *)
Definition chat_response_try (question : str) (context : option dict) : M dict :=
  _ <- lift (validate_input_data [(lit "question", VStr question)]
                                 [lit "question"]) ;;
  question <- lift (clean_text question) ;;
  let system_msg :=
    lit "Anda adalah asisten AI ahli politik Indonesia yang membantu menganalisis dan menjelaskan isu politik dengan objektif dan mudah dipahami." in
  let messages := [chat_message (lit "system") system_msg] in
  let messages :=
    match context with
    | Some ((_ :: _) as c) =>
        if negb (truthy (dict_get_default (lit "error") VNone c))
        then messages ++
             [chat_message (lit "user")
                (lit "Konteks analisis sebelumnya: " ++ json_dumps (VDict c))]
        else messages
    | _ => messages
    end in
  let messages := messages ++ [chat_message (lit "user") question] in
  response <- _make_openai_request messages (7 # 10) 1000 ;;
  if negb (nonempty response) || (len (strip response) <? 10)%Z
  then ret (error_result (pict 0x1F916 " Respons AI terlalu pendek atau kosong. Silakan ajukan pertanyaan yang lebih spesifik."))
  else ret [ (lit "response", VStr response);
             (lit "status", VStr (lit "success")) ].

Definition chat_response (question : str) (context : option dict)
  : run W -> dict * run W :=
  try_except (chat_response_try question context)
    error_result
    (fun _ => error_result (pict 0x1F4AC " Gagal memproses pertanyaan Anda. Silakan coba dengan pertanyaan yang lebih sederhana.")).

End Operations.

End Reasoner.

(** ** app/routes.py: the composite pipeline *)

Module Routes.

(** The operations of the reasoner a handler can invoke. *)
Inductive operation : Type :=
| AnalyzePoliticalText
| ExtractKeyInsights
| GenerateNarrative
| GeneratePolicyRecommendations.

(** The reasoner as the handlers see it: four operations that return a
    dictionary each. *)
Record reasoner (W : Type) : Type := {
  analyze_political_text : value -> W -> dict * W;
  extract_key_insights : dict -> W -> dict * W;
  generate_narrative : dict -> W -> dict * W;
  generate_policy_recommendations : value -> value -> W -> dict * W
}.

Arguments analyze_political_text {W} r.
Arguments extract_key_insights {W} r.
Arguments generate_narrative {W} r.
Arguments generate_policy_recommendations {W} r.

(** [jsonify(body), status_code] *)
Record http_response : Type := { body : dict; status_code : Z }.

(** Errors of the interpreter, whose wording is not modelled. *)
Definition attribute_error : exn := OtherException (lit "AttributeError").
Definition type_error : exn := OtherException (lit "TypeError").
Definition index_error : exn := OtherException (lit "IndexError").
Definition key_error : exn := OtherException (lit "KeyError").

(** [v.get(k)] *)
Definition py_get (k : str) (v : value) : outcome value :=
  match v with
  | VDict d => Returned (dict_get_default k VNone d)
  | _ => Raised attribute_error
  end.

(** [len(v)] *)
Definition py_len (v : value) : outcome Z :=
  match v with
  | VStr s => Returned (Z.of_nat (List.length s))
  | VList l => Returned (Z.of_nat (List.length l))
  | VDict d => Returned (Z.of_nat (List.length d))
  | _ => Raised type_error
  end.

(** [v[0]]; the keys of a dictionary are strings, so [0] is none of them. *)
Definition py_first (v : value) : outcome value :=
  match v with
  | VList (x :: _) => Returned x
  | VStr (c :: _) => Returned (VStr [c])
  | VList [] | VStr [] => Raised index_error
  | VDict _ => Raised key_error
  | _ => Raised type_error
  end.

Section Complete.

Variable W : Type.
Variable the_reasoner : reasoner W.
(** [str(v)] as an f-string formats a value that is not a string. *)
Variable str_of_value : value -> str.

Definition format_value (v : value) : str :=
  match v with
  | VStr s => s
  | _ => str_of_value v
  end.

(** The world and the operations invoked so far, the latest first. *)
Record state : Type := { rworld : W; invoked : list operation }.

Definition R (A : Type) : Type := state -> outcome A * state.

Definition ret {A : Type} (a : A) : R A := fun st => (Returned a, st).

Definition lift {A : Type} (o : outcome A) : R A := fun st => (o, st).

Definition bind {A B : Type} (m : R A) (k : A -> R B) : R B :=
  fun st =>
    match m st with
    | (Returned a, st') => k a st'
    | (Raised e, st') => (Raised e, st')
    end.

(** One invocation of an operation of the reasoner. *)
Definition call (op : operation) (f : W -> dict * W) : R dict :=
  fun st =>
    let (d, w') := f (rworld st) in
    (Returned d, {| rworld := w'; invoked := op :: invoked st |}).

Notation "x <- m ;; k" := (bind m (fun x => k))
  (at level 61, m at next level, right associativity).

Definition error_response (code : Z) (message : str) : http_response :=
  {| body := [(lit "error", VStr message)]; status_code := code |}.

(** The optional stage: [None], the recommendations, or their error. *)
Definition recommend (policy_context : value) (insights : dict) : R value :=
  if truthy policy_context
  then
    let critical_issues :=
      dict_get_default (lit "critical_issues") VNone insights in
    if truthy critical_issues
    then
      n <- lift (py_len critical_issues) ;;
      if (n >? 0)%Z
      then
        first <- lift (py_first critical_issues) ;;
        let main_issue :=
          if truthy first then first
          else VStr (lit "General policy issue") in
        recommendations <-
          call GeneratePolicyRecommendations
               (generate_policy_recommendations the_reasoner
                  policy_context main_issue) ;;
        match dict_get (lit "error") recommendations with
        | Some e => ret (VDict [(lit "error", e)])
        | None => ret (VDict recommendations)
        end
      else ret VNone
    else ret VNone
  else ret VNone.

(** The body of the [try] of [complete]; [data] is [request.get_json()]. *)
Definition complete_body (data : value) : R http_response :=
  text <- lift (py_get (lit "text") data) ;;
  policy_context <- lift (py_get (lit "policy_context") data) ;;
  if negb (truthy text)
  then ret (error_response 400 (lit "Text is required"))
  else
    analysis <- call AnalyzePoliticalText
                     (analyze_political_text the_reasoner text) ;;
    match dict_get (lit "error") analysis with
    | Some e =>
        ret (error_response 500 (lit "Analysis failed: " ++ format_value e))
    | None =>
        insights <- call ExtractKeyInsights
                         (extract_key_insights the_reasoner analysis) ;;
        match dict_get (lit "error") insights with
        | Some e =>
            ret (error_response 500
                   (lit "Insights extraction failed: " ++ format_value e))
        | None =>
            narrative <- call GenerateNarrative
                              (generate_narrative the_reasoner analysis) ;;
            match dict_get (lit "error") narrative with
            | Some e =>
                ret (error_response 500
                       (lit "Narrative generation failed: " ++ format_value e))
            | None =>
                recommendations <- recommend policy_context insights ;;
                ret {| body :=
                         [ (lit "complete_analysis",
                            VDict [ (lit "basic_analysis", VDict analysis);
                                    (lit "key_insights", VDict insights);
                                    (lit "narrative", VDict narrative);
                                    (lit "policy_recommendations",
                                     recommendations) ]);
                           (lit "status", VStr (lit "success")) ];
                       status_code := 200 |}
            end
        end
    end.

(** [complete]: any exception of the body becomes a 500 response. *)
Definition complete (data : value) (st : state) : http_response * state :=
  match complete_body data st with
  | (Returned response, st') => (response, st')
  | (Raised e, st') =>
      (error_response 500 (lit "Internal server error: " ++ str_of_exn e),
       st')
  end.

End Complete.

Arguments rworld {W} s.
Arguments invoked {W} s.
Arguments Build_state {W} rworld invoked.

End Routes.

(** ** app/routes.py: the handlers of one operation *)

Module Handlers.

Import Routes.

(** [v.get(k, default)] *)
Definition py_get_default (k : str) (default : value) (v : value)
  : outcome value :=
  match v with
  | VDict d => Returned (dict_get_default k default d)
  | _ => Raised attribute_error
  end.

Section Handlers.

Variable W : Type.
Variable the_reasoner : reasoner W.

Notation "x <- m ;; k" := (bind W m (fun x => k))
  (at level 61, m at next level, right associativity).

(** [try: ... except Exception as e: return jsonify({"error":
    f"Internal server error: {str(e)}"}), 500] *)
Definition guarded (handler : R W http_response) (st : state W)
  : http_response * state W :=
  match handler st with
  | (Returned response, st') => (response, st')
  | (Raised e, st') =>
      (error_response 500 (lit "Internal server error: " ++ str_of_exn e), st')
  end.

(** [jsonify({"error": e}), 500]: the error as the operation gave it. *)
Definition failed (e : value) : http_response :=
  {| body := [(lit "error", e)]; status_code := 500 |}.

(** The [try] block of [analyze]; [data] is [request.get_json()]. *)
Definition analyze_body (data : value) : R W http_response :=
  text <- lift W (py_get (lit "text") data) ;;
  if negb (truthy text)
  then ret W (error_response 400 (lit "Text is required"))
  else
    analysis <- call W AnalyzePoliticalText
                     (analyze_political_text the_reasoner text) ;;
    match dict_get (lit "error") analysis with
    | Some e => ret W (failed e)
    | None =>
        insights <- call W ExtractKeyInsights
                         (extract_key_insights the_reasoner analysis) ;;
        match dict_get (lit "error") insights with
        | Some e => ret W (failed e)
        | None =>
            ret W {| body := [ (lit "analysis", VDict analysis);
                               (lit "key_insights", VDict insights);
                               (lit "status", VStr (lit "success")) ];
                     status_code := 200 |}
        end
    end.

Definition analyze (data : value) : state W -> http_response * state W :=
  guarded (analyze_body data).

(** The [try] block of [policy]. *)
Definition policy_body (data : value) : R W http_response :=
  context <- lift W (py_get_default (lit "context") (VStr []) data) ;;
  issue <- lift W (py_get_default (lit "issue") (VStr []) data) ;;
  if negb (truthy context) || negb (truthy issue)
  then ret W (error_response 400 (lit "Context and issue are required"))
  else
    result <- call W GeneratePolicyRecommendations
                   (generate_policy_recommendations the_reasoner context issue) ;;
    match dict_get (lit "error") result with
    | Some e => ret W (failed e)
    | None =>
        ret W {| body := [(lit "recommendations", VDict result)];
                 status_code := 200 |}
    end.

Definition policy (data : value) : state W -> http_response * state W :=
  guarded (policy_body data).

End Handlers.

End Handlers.

(* ================================================================== *)
(** * Part II: the vocabulary of the properties *)
(* ================================================================== *)

(** The notions the statements are written with, and the concrete inputs
    the properties are tried on. *)

Module Vocabulary.

Import Utils Reasoner Routes.

(** ** Strings *)

(** Text that [lower] leaves as it is, code point by code point. *)
Definition stable (p : str) : bool :=
  forallb (fun c => str_eqb (lower_char c) [c]) p.

(** ** The error classifier *)

(** The keywords of [error_patterns] and the status codes of the second
    pass. *)
Definition keyword_patterns : list str := map fst error_patterns.

Definition status_substrings : list str :=
  map lit ["429"; "500"; "502"; "503"; "401"; "403"]%string.

(** A quota error as the service words it: status 429 and the type
    [insufficient_quota]. *)
Definition quota_error : str :=
  lit "Error code: 429 - You exceeded your current quota (insufficient_quota)".

(** A text none of the keywords and status codes occur in. *)
Definition odd_error : str := lit "connection reset by peer".

(** ** Topic extraction *)

(** The topics of the table, in its order. *)
Definition topic_names : list str :=
  map lit ["ekonomi"; "politik"; "sosial"; "hukum"; "teknologi"; "pendidikan";
           "kesehatan"; "lingkungan"]%string.

(** The text mentions a topic: one of the keywords the table lists for the
    topic occurs in the lowercased text. *)
Definition mentions (text topic : str) : Prop :=
  exists keywords keyword,
    In (topic, keywords) political_keywords
    /\ In keyword keywords
    /\ contains keyword (lower text) = true.

Definition mentionsb (text topic : str) : bool :=
  existsb (fun entry => str_eqb (fst entry) topic
                        && any_keyword (snd entry) (lower text))
          political_keywords.

(** The topics that the text mentions, in the order of the table. *)
Definition matched_topics (text : str) : list str :=
  filter (mentionsb text) topic_names.

(** A text whose keywords come in another order than their topics. *)
Definition election_text : str :=
  lit "Menjelang PEMILU, guru menolak kenaikan pajak".

(** [a] is [b] with some elements left out, the order kept. *)
Inductive subseq {A : Type} : list A -> list A -> Prop :=
| subseq_nil : subseq [] []
| subseq_skip (a b : list A) (x : A) : subseq a b -> subseq a (x :: b)
| subseq_take (a b : list A) (x : A) : subseq a b -> subseq (x :: a) (x :: b).

(** ** Cleaning of the input text *)

Definition collapse (text : str) : str := join (lit " ") (split text).

Definition no_space (s : str) : bool := forallb (fun c => negb (isspace c)) s.

(** The words [split] yields are not empty and start with a code point
    that is not white space. *)
Definition word_like (w : str) : Prop :=
  exists c rest, w = c :: rest /\ isspace c = false.

(** Eleven thousand spaces. *)
Definition blank_text : str := repeat 0x20%N (Z.to_nat 11000).

(** Nine letters, and eleven thousand letters. *)
Definition short_text : str := lit "Indonesia".
Definition long_text : str := repeat 0x61%N (Z.to_nat 11000).

(** ** Formatting of a parsed analysis *)



(** ** The retry wrapper *)

(** The delays of [n] successive retries that start at [delay]. *)
Fixpoint backoff (delay base : Q) (n : nat) : list Q :=
  match n with
  | O => []
  | S n' => delay :: backoff (delay * base)%Q base n'
  end.

(** What a run of always failing calls leaves in the trace, oldest first:
    a call and a sleep per retry, and the last call. *)
Definition script (ss : list Q) : list event :=
  flat_map (fun s => [Called; Slept s]) ss ++ [Called].

(** A sleep is near a delay when it is the delay, or with jitter the
    delay and at most a tenth of it more. *)
Definition near (jitter : bool) (s d : Q) : Prop :=
  (d <= s)%Q /\ (s <= d + d * (1 # 10))%Q /\ (jitter = false -> s = d).

(** The run of the wrapper from a world [w] with nothing recorded yet. *)
Definition result (W A : Type) (func : W -> outcome A * W)
    (random : W -> Q * W) (sleep : Q -> W -> W) (max_retries : Z)
    (initial_delay exponential_base : Q) (jitter : bool) (w : W)
  : outcome A * run W :=
  wrapper W A func random sleep max_retries initial_delay exponential_base
          jitter {| world := w; trace := [] |}.

(** A call that fails with a rate-limit error whatever the world is; the
    world counts the draws of the random generator. *)
Definition rate_limited (w : nat) : outcome str * nat :=
  (Raised (OtherException (lit "rate_limit exceeded")), w).

(** A generator whose first draw is 1/2 and whose later draws are 0. *)
Definition uneven_random (w : nat) : Q * nat :=
  (match w with O => (1 # 2)%Q | S _ => 0%Q end, S w).

Definition no_effect (seconds : Q) (w : nat) : nat := w.

(** Three attempts from a delay of one second, doubling, with jitter. *)
Definition jittered_run : outcome str * run nat :=
  result nat str rate_limited uneven_random no_effect 3 1 2 true 0%nat.

(** ** The composite pipeline *)

(** What [complete] reads from the body of a request. *)
Definition request_text (data : dict) : value :=
  dict_get_default (lit "text") VNone data.

Definition request_policy_context (data : dict) : value :=
  dict_get_default (lit "policy_context") VNone data.

(** The issue handed to the optional stage. *)
Definition main_issue (first : value) : value :=
  if truthy first then first else VStr (lit "General policy issue").

(** The handler starts with no operation invoked. *)
Definition fresh {W : Type} (w : W) : state W := {| rworld := w; invoked := [] |}.

(** A reasoner whose narrative stage fails and whose policy stage would
    succeed; the world counts the operations that ran. *)
Definition failing_narrative : reasoner nat :=
  {| analyze_political_text := fun _ w =>
       ([(lit "key_issues", VList [VStr (lit "harga beras")])], S w);
     extract_key_insights := fun _ w =>
       ([(lit "critical_issues", VList [VStr (lit "harga beras")])], S w);
     generate_narrative := fun _ w =>
       ([(lit "error", VStr (lit "narasi gagal")); (lit "status", VStr (lit "error"))],
        S w);
     generate_policy_recommendations := fun _ _ w =>
       ([(lit "status", VStr (lit "success"))], S w) |}.

(** A reasoner whose three stages succeed and whose policy stage fails. *)
Definition failing_policy : reasoner nat :=
  {| analyze_political_text := fun _ w =>
       ([(lit "key_issues", VList [VStr (lit "harga beras")])], S w);
     extract_key_insights := fun _ w =>
       ([(lit "critical_issues", VList [VStr (lit "harga beras")])], S w);
     generate_narrative := fun _ w =>
       ([(lit "narrative", VStr (lit "Harga beras menjadi isu utama."));
         (lit "status", VStr (lit "success"))], S w);
     generate_policy_recommendations := fun _ _ w =>
       ([(lit "error", VStr (lit "rekomendasi gagal"));
         (lit "status", VStr (lit "error"))], S w) |}.

Definition sample_request : dict :=
  [ (lit "text", VStr (lit "Harga beras naik menjelang pemilu"));
    (lit "policy_context", VStr (lit "Ketahanan pangan nasional")) ].

(** ** The operations of the reasoner *)

(** A dictionary that reports a failure: a message under [error] and
    [status] equal to [error]. *)
Definition reports_error (d : dict) : Prop :=
  (exists message, dict_get (lit "error") d = Some (VStr message))
  /\ dict_get (lit "status") d = Some (VStr (lit "error")).

(** A dictionary whose [error] key, when it has one, comes with [status]
    equal to [error]. *)
Definition error_means_failure (d : dict) : Prop :=
  dict_mem (lit "error") d = true ->
  dict_get (lit "status") d = Some (VStr (lit "error")).

(** What every [return] of a block satisfies. *)
Definition returns {W A : Type} (P : A -> Prop) (m : M W A) : Prop :=
  forall st, match fst (m st) with
             | Returned a => P a
             | Raised _ => True
             end.

(** An answer that reports a failure, the run being left at [st]. *)
Definition fails_at {W : Type} (st : run W) (answer : dict * run W) : Prop :=
  reports_error (fst answer) /\ snd answer = st.

(** The messages of the four requests: the persona of the system, then what
    the user sends. *)
Definition analysis_messages (prompt : str) : list dict :=
  [ chat_message (lit "system")
      (lit "Anda adalah analis politik Indonesia yang ahli dan objektif.");
    chat_message (lit "user") prompt ].

Definition narrative_messages (prompt : str) : list dict :=
  [ chat_message (lit "system")
      (lit "Anda adalah jurnalis politik yang objektif dan berpengalaman.");
    chat_message (lit "user") prompt ].

Definition policy_messages (prompt : str) : list dict :=
  [ chat_message (lit "system")
      (lit "Anda adalah konsultan kebijakan publik yang berpengalaman di Indonesia.");
    chat_message (lit "user") prompt ].

(** The earlier analysis is sent along with a question when it is a
    dictionary that is not empty and has no true value under [error]. *)
Definition context_messages (json_dumps : value -> str)
    (context : option dict) : list dict :=
  match context with
  | None | Some [] => []
  | Some c =>
      if truthy (dict_get_default (lit "error") VNone c)
      then []
      else [chat_message (lit "user")
              (lit "Konteks analisis sebelumnya: " ++ json_dumps (VDict c))]
  end.

Definition chat_messages (json_dumps : value -> str) (question : str)
    (context : option dict) : list dict :=
  chat_message (lit "system")
    (lit "Anda adalah asisten AI ahli politik Indonesia yang membantu menganalisis dan menjelaskan isu politik dengan objektif dan mudah dipahami.")
  :: context_messages json_dumps context
  ++ [chat_message (lit "user") question].

(** A completion service that is down: every call times out. *)
Definition service_down (messages : list dict) (temperature : Q)
    (max_tokens : Z) (w : unit) : outcome (option completion) * unit :=
  (Raised (OtherException (lit "Request timeout")), w).

Definition steady_random (w : unit) : Q * unit := (0%Q, w).

Definition start : run unit := {| world := tt; trace := [] |}.

(** The analysis of a text while the service is down. *)
Definition analysis_while_down : dict * run unit :=
  Reasoner.analyze_political_text unit service_down steady_random
    (fun _ w => w) (fun _ => 0%Q) (fun _ => None) (fun text => text)
    (fun _ => false) (fun l => l)
    (lit "Harga beras naik menjelang pemilu") start.

(** A completion service that answers every request with a few words. *)
Definition terse_service (messages : list dict) (temperature : Q)
    (max_tokens : Z) (w : unit) : outcome (option completion) * unit :=
  (Returned
     (Some {| choices :=
                Some [{| message :=
                           Some {| content := Some (lit "Harga naik.") |} |}] |}),
   w).

(** The narrative of an analysis when the service answers in a few
    words. *)
Definition terse_narrative : dict * run unit :=
  Reasoner.generate_narrative unit terse_service steady_random
    (fun _ w => w) (fun _ => [])
    [(lit "topics", VList [VStr (lit "ekonomi")])] start.

(** A JSON object in which the model itself reports an error. *)
Definition quoted (s : str) : str := 0x22%N :: s ++ [0x22%N].

Definition refusal_text : str :=
  lit "{" ++ quoted (lit "error") ++ lit ": "
      ++ quoted (lit "Konteks tidak memadai") ++ lit "}".

(** [json.loads] on that text; other texts are not needed. *)
Definition loads_refusal (s : str) : option value :=
  if str_eqb s refusal_text
  then Some (VDict [(lit "error", VStr (lit "Konteks tidak memadai"))])
  else None.

(** A completion service whose answer is that object. *)
Definition refusing_service (messages : list dict) (temperature : Q)
    (max_tokens : Z) (w : unit) : outcome (option completion) * unit :=
  (Returned
     (Some {| choices :=
                Some [{| message :=
                           Some {| content := Some refusal_text |} |}] |}),
   w).

Definition refused_policy (context issue : str)
  : run unit -> dict * run unit :=
  Reasoner.generate_policy_recommendations unit refusing_service
    steady_random (fun _ w => w) loads_refusal
    (fun context issue => context ++ lit " / " ++ issue) context issue.

(** The recommendations for a context and an issue of the required
    length. *)
Definition refused_recommendations : dict * run unit :=
  refused_policy (lit "Ketahanan pangan nasional") (lit "Harga beras naik")
                 start.

(** A reasoner with that operation, and a request to the policy handler. *)
Definition refused_reasoner : reasoner (run unit) :=
  {| analyze_political_text := fun _ st => ([], st);
     extract_key_insights := fun _ st => ([], st);
     generate_narrative := fun _ st => ([], st);
     generate_policy_recommendations := fun context issue st =>
       match context, issue with
       | VStr context, VStr issue => refused_policy context issue st
       | _, _ => ([], st)
       end |}.

Definition policy_request : value :=
  VDict [ (lit "context", VStr (lit "Ketahanan pangan nasional"));
          (lit "issue", VStr (lit "Harga beras naik")) ].

End Vocabulary.

Import Vocabulary.

(** The notions of the further properties, and the inputs they are tried
    on. *)

Module Notions.

Import Utils Reasoner Routes.

(** ** Responses of the completion service *)

(** The content of the message of the first choice of a response, when
    there is one. *)
Definition first_content (response : option completion) : option str :=
  match response with
  | Some r =>
      match choices r with
      | Some (c :: _) =>
          match message c with
          | Some m => content m
          | None => None
          end
      | _ => None
      end
  | None => None
  end.

(** A response with one choice whose message holds [text]. *)
Definition response_with (text : str) : option completion :=
  Some {| choices := Some [{| message := Some {| content := Some text |} |}] |}.

(** ** Input data *)

(** A field that is present with a true value. *)
Definition filled (data : dict) (field : str) : Prop :=
  exists v, dict_get field data = Some v /\ truthy v = true.

(** ** Classes of errors *)

(** The answers of the classifier for the errors that pass with time. *)
Definition transient_infos : list (str * str) :=
  [insufficient_quota_info; rate_limit_info; server_error_info; timeout_info].

(** ** Runs of the retry wrapper *)

(** A call that fails because the key is refused. *)
Definition bad_key (w : nat) : outcome str * nat :=
  (Raised (OtherException (lit "Incorrect API key provided: invalid_api_key")),
   S w).

(** A call that fails with a server error first and returns afterwards;
    the world counts the sleeps. *)
Definition recovering (w : nat) : outcome str * nat :=
  match w with
  | O => (Raised (OtherException (lit "HTTP 503 Service Unavailable")), w)
  | S _ => (Returned (lit "baik"), S w)
  end.

(** ** Cleaned text and extraction *)

(** A word as [split] yields them: not empty and without white space. *)
Definition solid (w : str) : Prop := w <> [] /\ no_space w = true.

(** A text with runs of white space. *)
Definition spaced_text : str :=
  lit "  Harga   beras naik	menjelang  pemilu ".

(** What makes a sentence an issue. *)
Definition issue_like (sentence : str) : Prop :=
  (len sentence > 20)%Z
  /\ any_keyword issue_keywords (lower sentence) = true
  /\ ~ In 0x2E%N sentence.

(** What makes a word the start of an entity, given the test for capitals. *)
Definition entity_head (isupper : char -> bool) (word : str) : Prop :=
  (len word > 2)%Z
  /\ first_isupper isupper word = true
  /\ ~ In word skip_words.

(** The test for capitals on ASCII. *)
Definition ascii_isupper (c : char) : bool := in_range 0x41 0x5A c.

(** ** Insights and answers *)

(** A value [v[:n]] is defined for: a list or a string. *)
Definition sliceable (v : value) : bool :=
  match v with
  | VList _ | VStr _ => true
  | _ => false
  end.

(** [v[:n]] where it is defined. *)
Definition sliced (n : nat) (v : value) : value :=
  match v with
  | VList l => VList (firstn n l)
  | VStr s => VStr (firstn n s)
  | _ => v
  end.

(** The three fields of an analysis that the insights slice. *)
Definition topics_of (analysis : dict) : value :=
  dict_get_default (lit "topics") (VList []) analysis.

Definition entities_of (analysis : dict) : value :=
  dict_get_default (lit "entities") (VList []) analysis.

Definition key_issues_of (analysis : dict) : value :=
  dict_get_default (lit "key_issues") (VList []) analysis.

(** The message of a failed extraction of insights. *)
Definition insights_failed : dict :=
  error_result (pict 0x1F50D " Gagal mengekstrak insight dari hasil analisis.").

(** The errors [validate_openai_response] raises. *)
Definition rejections : list exn :=
  [ UserFriendly (pict 0x1F916 " AI tidak memberikan respons. Silakan coba lagi.")
                 (lit "Empty response from OpenAI");
    UserFriendly (pict 0x1F916 " Format respons AI tidak valid. Silakan coba lagi.")
                 (lit "No choices in OpenAI response");
    UserFriendly (pict 0x1F916 " Pesan dari AI kosong. Silakan coba lagi.")
                 (lit "No message in OpenAI response");
    UserFriendly (pict 0x1F916 " AI memberikan respons kosong. Silakan coba lagi dengan teks yang berbeda.")
                 (lit "Empty content in OpenAI response") ].

(** A service that answers every request with a blank text. *)
Definition blank_service (messages : list dict) (temperature : Q)
    (max_tokens : Z) (w : unit) : outcome (option completion) * unit :=
  (Returned (response_with (lit "   ")), w).

(** A parsed analysis whose topics are a number. *)
Definition odd_analysis : dict := [(lit "topics", VNum 3)].

(** A status that is [success] or [error]. *)
Definition has_status (d : dict) : Prop :=
  dict_get (lit "status") d = Some (VStr (lit "success"))
  \/ dict_get (lit "status") d = Some (VStr (lit "error")).

(** An answer that the callers take for a failure: it has an [error] key,
    and its [status] is [error]. *)
Definition error_answer (d : dict) : Prop :=
  dict_mem (lit "error") d = true
  /\ dict_get (lit "status") d = Some (VStr (lit "error")).

(** ** Handlers *)

(** A reasoner that refuses every text. *)
Definition refusing : reasoner nat :=
  {| analyze_political_text := fun _ w =>
       ([(lit "error", VStr (lit "teks ditolak"))], S w);
     extract_key_insights := fun _ w => ([], S w);
     generate_narrative := fun _ w => ([], S w);
     generate_policy_recommendations := fun _ _ w => ([], S w) |}.

End Notions.

Import Notions.

(* ================================================================== *)
(** * Part III: properties *)
(* ================================================================== *)

(** ** Strings *)

Module PyFacts.

Lemma str_eqb_eq (a b : str) : str_eqb a b = true <-> a = b.
Proof.
  revert b; induction a as [|x a IH]; intros [|y b]; simpl;
    try (split; [discriminate | congruence]); try tauto.
  rewrite andb_true_iff, N.eqb_eq, IH.
  split; [intros [-> ->]; reflexivity | intros H; inversion H; auto].
Qed.

Lemma str_eqb_refl (a : str) : str_eqb a a = true.
Proof. apply str_eqb_eq; reflexivity. Qed.

Lemma startswith_spec (p s : str) :
  startswith p s = true <-> exists v, s = p ++ v.
Proof.
  revert s; induction p as [|a p IH]; intros s; simpl.
  - split; [intros _; exists s; reflexivity | reflexivity].
  - destruct s as [|b s].
    + split; [discriminate | intros [v H]; discriminate].
    + rewrite andb_true_iff, N.eqb_eq, IH. split.
      * intros [-> [v ->]]. exists v; reflexivity.
      * intros [v H]. inversion H; subst. split; [reflexivity | exists v; reflexivity].
Qed.

(** [p in s] holds exactly when [s] is [u ++ p ++ v]. *)
Lemma contains_spec (p s : str) :
  contains p s = true <-> exists u v, s = u ++ p ++ v.
Proof.
  induction s as [|c s IH].
  - simpl. rewrite orb_false_r, startswith_spec. split.
    + intros [v H]. exists [], v. exact H.
    + intros [u [v H]]. destruct u as [|x u]; [|discriminate].
      exists v. exact H.
  - cbn [contains]. rewrite orb_true_iff, startswith_spec, IH. split.
    + intros [[v H] | [u [v H]]].
      * exists [], v. exact H.
      * exists (c :: u), v. rewrite H. reflexivity.
    + intros [[|x u] [v H]].
      * left. exists v. exact H.
      * right. inversion H; subst. exists u, v. reflexivity.
Qed.

Lemma contains_app_l (p s t : str) :
  contains p s = true -> contains p (s ++ t) = true.
Proof.
  rewrite !contains_spec. intros [u [v ->]].
  exists u, (v ++ t). rewrite <- !app_assoc. reflexivity.
Qed.

Lemma contains_app_r (p s t : str) :
  contains p t = true -> contains p (s ++ t) = true.
Proof.
  rewrite !contains_spec. intros [u [v ->]].
  exists (s ++ u), v. rewrite <- !app_assoc. reflexivity.
Qed.

Lemma lower_app (a b : str) : lower (a ++ b) = lower a ++ lower b.
Proof. apply flat_map_app. Qed.

Lemma lower_stable (p : str) : stable p = true -> lower p = p.
Proof.
  induction p as [|c p IH]; simpl; [reflexivity|].
  rewrite andb_true_iff, str_eqb_eq. intros [-> H].
  simpl. rewrite IH by exact H. reflexivity.
Qed.

(** A keyword without capitals that occurs in a text occurs in the
    lowercased text. *)
Lemma contains_lower (p s : str) :
  stable p = true -> contains p s = true -> contains p (lower s) = true.
Proof.
  intros Hp. rewrite !contains_spec. intros [u [v ->]].
  exists (lower u), (lower v).
  rewrite !lower_app, (lower_stable p Hp). reflexivity.
Qed.

Lemma length_join_space (l : list str) (sep : str) :
  List.length (join sep l)
  = (list_sum (map (@List.length char) l)
     + List.length sep * Nat.pred (List.length l))%nat.
Proof.
  induction l as [|x l IH]; [simpl; lia|].
  destruct l as [|y l].
  - simpl. lia.
  - change (join sep (x :: y :: l)) with (x ++ sep ++ join sep (y :: l)).
    rewrite !length_app, IH. simpl. lia.
Qed.

(** What [split] reads: the words have together, with one separator each,
    no more code points than the text and the run in progress. *)
Lemma split_from_size (s w : str) :
  (list_sum (map (@List.length char) (split_from w s))
   + List.length (split_from w s)
   <= List.length s + List.length w + 1)%nat.
Proof.
  revert w; induction s as [|c s IH]; intros w.
  - destruct w; simpl; rewrite ?length_app, ?length_rev; simpl; lia.
  - simpl. destruct (isspace c).
    + destruct w as [|x w].
      * specialize (IH []). simpl in *. lia.
      * specialize (IH []). cbn [map list_sum List.length] in *.
        rewrite length_rev. simpl. lia.
    + specialize (IH (c :: w)). simpl in *. lia.
Qed.

(** Collapsing white space never makes a text longer. *)
Lemma length_collapse (s : str) :
  (List.length (join (lit " ") (split s)) <= List.length s)%nat.
Proof.
  rewrite length_join_space. unfold split.
  pose proof (split_from_size s []) as H. simpl in *.
  destruct (split_from [] s); simpl in *; lia.
Qed.

End PyFacts.

(** ** The error classifier *)

Module Classifier.

Import Utils PyFacts.

Lemma scan_patterns_none (error_lower : str) (table : list (str * (str * str))) :
  (forall p, In p (map fst table) -> contains p error_lower = false) ->
  scan_patterns error_lower table = None.
Proof.
  induction table as [|[p info] table IH]; intros H; [reflexivity|].
  cbn [scan_patterns]. rewrite (H p) by (left; reflexivity).
  cbn [orb]. apply IH. intros q Hq. apply H. right. exact Hq.
Qed.

Lemma scan_patterns_rate_limit (error_lower : str) :
  contains (lit "insufficient_quota") error_lower = false ->
  contains (lit "rate_limit") error_lower = true ->
  scan_patterns error_lower error_patterns = Some rate_limit_info.
Proof.
  intros Hq Hr. unfold error_patterns. cbn [scan_patterns].
  rewrite Hq, Hr. reflexivity.
Qed.

(** An error text with 429 or rate_limit in it is retried. *)
Lemma retryable_rate_limit (error_str : str) :
  contains (lit "429") error_str = true
  \/ contains (lit "rate_limit") error_str = true ->
  is_retryable (lower error_str) = true.
Proof.
  intros H. unfold is_retryable, retryable_errors. cbn [map existsb].
  destruct H as [H | H]; apply contains_lower in H; try reflexivity;
    rewrite H; rewrite ?orb_true_r; reflexivity.
Qed.

(** C3, as stated, fails: a text with 429 in it that also names
    [insufficient_quota] gets the quota message, because the keyword table
    is scanned first and in its order. *)
Lemma rate_limit_counterexample :
  contains (lit "429") quota_error = true
  /\ parse_openai_error quota_error = insufficient_quota_info
  /\ parse_openai_error quota_error <> rate_limit_info.
Proof.
  split; [reflexivity|]. split; [reflexivity|].
  vm_compute. discriminate.
Qed.

(** C3, amended: every error text with 429 or rate_limit in it is
    retryable for the wrapper; the classifier returns the rate-limit message
    and suggestion for a text with rate_limit in it unless its lowercased
    form has insufficient_quota in it, and for a text with 429 in it unless
    its lowercased form has one of the other seven keywords in it. *)
Theorem rate_limit_classified (error_str : str) :
  contains (lit "429") error_str = true
  \/ contains (lit "rate_limit") error_str = true ->
  is_retryable (lower error_str) = true
  /\ (contains (lit "rate_limit") error_str = true ->
      contains (lit "insufficient_quota") (lower error_str) = false ->
      parse_openai_error error_str = rate_limit_info)
  /\ ((forall p, In p keyword_patterns -> p <> lit "rate_limit" ->
                 contains p (lower error_str) = false) ->
      parse_openai_error error_str = rate_limit_info).
Proof.
  intros H. split; [apply retryable_rate_limit; exact H|]. split.
  - intros Hr Hq. unfold parse_openai_error.
    rewrite scan_patterns_rate_limit; auto.
    apply contains_lower; [reflexivity | exact Hr].
  - intros Hp. unfold parse_openai_error.
    destruct (contains (lit "rate_limit") (lower error_str)) eqn:Hr.
    + rewrite scan_patterns_rate_limit; auto.
      apply Hp; [left; reflexivity | vm_compute; discriminate].
    + rewrite scan_patterns_none.
      * destruct H as [H | H].
        -- rewrite H. reflexivity.
        -- apply contains_lower in H; [congruence | reflexivity].
      * intros p Hin.
        destruct (str_eqb p (lit "rate_limit")) eqn:E.
        -- apply str_eqb_eq in E. subst p. exact Hr.
        -- apply Hp; [exact Hin|]. intros ->.
           rewrite str_eqb_refl in E. discriminate.
Qed.

Lemma rate_limit_classified_witness :
  is_retryable (lower (lit "HTTP 429 Too Many Requests")) = true
  /\ parse_openai_error (lit "HTTP 429 Too Many Requests") = rate_limit_info.
Proof.
  destruct (rate_limit_classified (lit "HTTP 429 Too Many Requests"))
    as [Hretry [_ Hmsg]].
  - left. reflexivity.
  - split; [exact Hretry|]. apply Hmsg.
    intros p Hin _. cbv [keyword_patterns error_patterns map fst] in Hin.
    repeat (destruct Hin as [<- | Hin]; [reflexivity|]). destruct Hin.
Defined.

(** C7: an error text in which none of the eight keywords is recognised,
    that is, whose lowercased form has none of them in it, and which has
    none of the six status codes in it, gets the general message and
    suggestion. *)
Theorem fallback_when_nothing_matches (error_str : str) :
  (forall p, In p keyword_patterns -> contains p (lower error_str) = false) ->
  (forall c, In c status_substrings -> contains c error_str = false) ->
  parse_openai_error error_str = fallback_info.
Proof.
  intros Hp Hc. unfold parse_openai_error.
  rewrite scan_patterns_none by exact Hp.
  unfold status_substrings in Hc. cbn [map] in Hc.
  rewrite !Hc by (simpl; tauto). reflexivity.
Qed.

Lemma fallback_when_nothing_matches_witness :
  parse_openai_error odd_error = fallback_info.
Proof.
  apply fallback_when_nothing_matches.
  - intros p Hin. cbv [keyword_patterns error_patterns map fst] in Hin.
    repeat (destruct Hin as [<- | Hin]; [reflexivity|]). destruct Hin.
  - intros c Hin. cbv [status_substrings map] in Hin.
    repeat (destruct Hin as [<- | Hin]; [reflexivity|]). destruct Hin.
Defined.

End Classifier.

(** ** Topic extraction *)

Module Topics.

Import Reasoner PyFacts.

Lemma topic_names_table : map fst political_keywords = topic_names.
Proof. reflexivity. Qed.

Lemma subseq_refl {A : Type} (l : list A) : subseq l l.
Proof. induction l; constructor; assumption. Qed.

Lemma subseq_nil_l {A : Type} (l : list A) : subseq [] l.
Proof. induction l; constructor; assumption. Qed.

Lemma subseq_In {A : Type} (a b : list A) (x : A) :
  subseq a b -> In x a -> In x b.
Proof.
  induction 1 as [|a b y _ IH|a b y _ IH]; simpl; intros Hin; auto.
  destruct Hin as [-> | Hin]; auto.
Qed.

Lemma subseq_NoDup {A : Type} (a b : list A) :
  subseq a b -> NoDup b -> NoDup a.
Proof.
  induction 1 as [|a b y Hs IH|a b y Hs IH]; intros Hb.
  - constructor.
  - inversion Hb; auto.
  - inversion Hb as [|? ? Hnotin Hb']; subst. constructor; auto.
    intros Hin. apply Hnotin. eapply subseq_In; eauto.
Qed.

Lemma subseq_trans {A : Type} (a b c : list A) :
  subseq a b -> subseq b c -> subseq a c.
Proof.
  intros Hab Hbc. revert a Hab.
  induction Hbc as [|b c y _ IH|b c y _ IH]; intros a Hab.
  - exact Hab.
  - constructor. apply IH. exact Hab.
  - inversion Hab; subst.
    + constructor. apply IH. assumption.
    + apply subseq_take. apply IH. assumption.
Qed.

Lemma subseq_firstn {A : Type} (n : nat) (l : list A) : subseq (firstn n l) l.
Proof.
  revert n; induction l as [|x l IH]; intros [|n]; simpl.
  - constructor.
  - constructor.
  - apply subseq_nil_l.
  - apply subseq_take. apply IH.
Qed.

(** The topics found are topics of the table, in its order, once each. *)
Lemma found_in_subseq (text_lower : str) (table : list (str * list str)) :
  subseq (found_in text_lower table) (map fst table).
Proof.
  induction table as [|[topic keywords] table IH]; simpl.
  - constructor.
  - destruct (any_keyword keywords text_lower); constructor; exact IH.
Qed.

Lemma found_in_nothing (text_lower : str) (table : list (str * list str)) :
  (forall topic keywords keyword,
      In (topic, keywords) table -> In keyword keywords ->
      contains keyword text_lower = false) ->
  found_in text_lower table = [].
Proof.
  induction table as [|[topic keywords] table IH]; intros H; [reflexivity|].
  simpl. replace (any_keyword keywords text_lower) with false.
  - apply IH. intros t ks k Hin Hk.
    apply (H t ks k); [right; exact Hin | exact Hk].
  - symmetry. unfold any_keyword.
    destruct (existsb (fun keyword => contains keyword text_lower) keywords) eqn:E;
      [|reflexivity].
    apply existsb_exists in E. destruct E as [k [Hk Hc]].
    rewrite (H topic keywords k) in Hc; [discriminate | left; reflexivity | exact Hk].
Qed.

Lemma topic_names_NoDup : NoDup topic_names.
Proof.
  unfold topic_names. cbn [map].
  repeat (constructor; [simpl; intuition discriminate|]). constructor.
Qed.

Lemma umum_not_a_topic : ~ In (lit "umum") topic_names.
Proof. simpl. intuition discriminate. Qed.

(** C8: a text whose lowercased form has ekonomi and pajak in it yields
    topics that include ekonomi and are at most five; a text whose
    lowercased form has no keyword of the table in it yields exactly
    [umum]. *)
Theorem topics_of_keywords (text : str) :
  (contains (lit "ekonomi") (lower text) = true ->
   contains (lit "pajak") (lower text) = true ->
   In (lit "ekonomi") (_extract_topics_from_text text)
   /\ (List.length (_extract_topics_from_text text) <= 5)%nat)
  /\ ((forall topic keywords keyword,
          In (topic, keywords) political_keywords -> In keyword keywords ->
          contains keyword (lower text) = false) ->
      _extract_topics_from_text text = [lit "umum"]).
Proof.
  split.
  - intros He _. unfold _extract_topics_from_text.
    assert (E : found_in (lower text) political_keywords
                = lit "ekonomi" :: found_in (lower text) (tl political_keywords)).
    { unfold political_keywords. cbn [found_in tl].
      unfold any_keyword at 1. cbn [map existsb]. rewrite He. reflexivity. }
    rewrite E. cbv beta iota. split.
    + cbn [firstn In]. left. reflexivity.
    + apply firstn_le_length.
  - intros H. unfold _extract_topics_from_text.
    rewrite found_in_nothing by exact H. reflexivity.
Qed.

Lemma topics_of_keywords_witness :
  (In (lit "ekonomi")
      (_extract_topics_from_text (lit "Kenaikan PAJAK menekan Ekonomi daerah"))
   /\ (List.length
         (_extract_topics_from_text (lit "Kenaikan PAJAK menekan Ekonomi daerah"))
       <= 5)%nat)
  /\ _extract_topics_from_text (lit "Halo, apa kabar?") = [lit "umum"].
Proof.
  split.
  - apply (topics_of_keywords (lit "Kenaikan PAJAK menekan Ekonomi daerah"));
      reflexivity.
  - apply (topics_of_keywords (lit "Halo, apa kabar?")).
    intros topic keywords keyword Hin Hk.
    cbv [political_keywords map] in Hin.
    repeat (destruct Hin as [Hin | Hin];
            [ injection Hin as <- <-; cbv [In] in Hk;
              repeat (destruct Hk as [<- | Hk]; [reflexivity|]); destruct Hk
            | ]).
    destruct Hin.
Defined.

Lemma str_eqb_neq (a b : str) : a <> b -> str_eqb a b = false.
Proof.
  intros H. destruct (str_eqb a b) eqn:E; [|reflexivity].
  apply str_eqb_eq in E. contradiction.
Qed.

(** A topic that is not a key of the table has no entry in it. *)
Lemma no_entry_of (text_lower topic : str) (table : list (str * list str)) :
  ~ In topic (map fst table) ->
  existsb (fun entry => str_eqb (fst entry) topic
                        && any_keyword (snd entry) text_lower) table
  = false.
Proof.
  induction table as [|[t ks] table IH]; intros Hnotin; [reflexivity|].
  cbn [existsb fst snd]. cbn [map fst In] in Hnotin.
  rewrite str_eqb_neq by tauto. rewrite IH by tauto. reflexivity.
Qed.

(** The loop over the table keeps, in the order of the table, the keys one
    of whose keywords occurs in the text. *)
Lemma found_in_filter (text_lower : str) (table : list (str * list str)) :
  NoDup (map fst table) ->
  found_in text_lower table
  = filter (fun topic =>
              existsb (fun entry => str_eqb (fst entry) topic
                                    && any_keyword (snd entry) text_lower)
                      table)
           (map fst table).
Proof.
  induction table as [|[t ks] table IH]; intros Hnd; [reflexivity|].
  cbn [map fst] in Hnd. inversion Hnd as [|? ? Hnotin Hnd']; subst.
  cbn [found_in map fst filter existsb snd].
  rewrite str_eqb_refl, (no_entry_of text_lower t table Hnotin), orb_false_r.
  cbn [andb].
  assert (Hrest :
    filter (fun topic =>
              str_eqb t topic && any_keyword ks text_lower
              || existsb (fun entry => str_eqb (fst entry) topic
                                       && any_keyword (snd entry) text_lower)
                         table)
           (map fst table)
    = found_in text_lower table).
  { rewrite IH by exact Hnd'. apply filter_ext_in. intros x Hx.
    rewrite str_eqb_neq; [reflexivity|]. intros ->. contradiction. }
  rewrite Hrest. destruct (any_keyword ks text_lower); reflexivity.
Qed.

Lemma found_in_matched (text : str) :
  found_in (lower text) political_keywords = matched_topics text.
Proof.
  unfold matched_topics, mentionsb. rewrite <- topic_names_table.
  apply found_in_filter. rewrite topic_names_table. apply topic_names_NoDup.
Qed.

Lemma matched_topics_mentions (text topic : str) :
  In topic (matched_topics text) <-> mentions text topic.
Proof.
  unfold matched_topics, mentions, mentionsb. rewrite filter_In. split.
  - intros [_ H]. apply existsb_exists in H.
    destruct H as [[t ks] [Hin H]]. cbn [fst snd] in H.
    apply andb_true_iff in H. destruct H as [Ht Hk].
    apply str_eqb_eq in Ht. subst t.
    apply existsb_exists in Hk. destruct Hk as [k [Hk Hc]].
    exists ks, k. auto.
  - intros [ks [k [Hin [Hk Hc]]]]. split.
    + rewrite <- topic_names_table.
      apply (in_map fst political_keywords (topic, ks)). exact Hin.
    + apply existsb_exists. exists (topic, ks). split; [exact Hin|].
      cbn [fst snd]. rewrite str_eqb_refl. cbn [andb].
      apply existsb_exists. exists k. auto.
Qed.

(** C10: for every text the topics are a non-empty list of at most five
    strings, each one of the eight topics of the table or [umum], pairwise
    distinct, and what was matched stands in the order of the table: the
    result is [umum] alone or the table's topics with some left out.  Which
    ones are left out is fixed by the text: the topics the text mentions,
    by one of their keywords in its lowercased form, are taken in the order
    of the table, wherever their keywords stand in the text, and the result
    is the first five of them, or [umum] alone when the text mentions no
    topic. *)
Theorem topics_shape (text : str) :
  _extract_topics_from_text text <> []
  /\ (List.length (_extract_topics_from_text text) <= 5)%nat
  /\ Forall (fun topic => In topic topic_names \/ topic = lit "umum")
            (_extract_topics_from_text text)
  /\ NoDup (_extract_topics_from_text text)
  /\ (_extract_topics_from_text text = [lit "umum"]
      \/ subseq (_extract_topics_from_text text) topic_names)
  /\ (forall topic, In topic (matched_topics text) <-> mentions text topic)
  /\ subseq (matched_topics text) topic_names
  /\ _extract_topics_from_text text
     = match matched_topics text with
       | [] => [lit "umum"]
       | _ :: _ => firstn 5 (matched_topics text)
       end.
Proof.
  assert (Hshape :
    _extract_topics_from_text text <> []
    /\ (List.length (_extract_topics_from_text text) <= 5)%nat
    /\ Forall (fun topic => In topic topic_names \/ topic = lit "umum")
              (_extract_topics_from_text text)
    /\ NoDup (_extract_topics_from_text text)
    /\ (_extract_topics_from_text text = [lit "umum"]
        \/ subseq (_extract_topics_from_text text) topic_names)).
  { unfold _extract_topics_from_text.
    pose proof (found_in_subseq (lower text) political_keywords) as Hsub.
    rewrite topic_names_table in Hsub.
    destruct (found_in (lower text) political_keywords) as [|t found] eqn:E.
    - repeat split.
      + discriminate.
      + simpl. lia.
      + constructor; [right; reflexivity | constructor].
      + constructor; [simpl; tauto | constructor].
      + left. reflexivity.
    - assert (Hfirst : subseq (firstn 5 (t :: found)) topic_names)
        by (eapply subseq_trans; [apply subseq_firstn | exact Hsub]).
      repeat split.
      + simpl. discriminate.
      + apply firstn_le_length.
      + apply Forall_forall. intros x Hx. left.
        eapply subseq_In; eauto.
      + eapply subseq_NoDup; [exact Hfirst | apply topic_names_NoDup].
      + right. exact Hfirst. }
  destruct Hshape as [H1 [H2 [H3 [H4 H5]]]].
  repeat (split; [assumption|]).
  split; [apply matched_topics_mentions|]. split.
  - rewrite <- found_in_matched, <- topic_names_table. apply found_in_subseq.
  - unfold _extract_topics_from_text. rewrite found_in_matched. reflexivity.
Qed.

(** In [election_text] the keyword of [politik] comes first, then the one
    of [pendidikan], then the one of [ekonomi]; the topics come in the
    order of the table. *)
Lemma topics_shape_witness :
  _extract_topics_from_text election_text
  = map lit ["ekonomi"; "politik"; "pendidikan"]%string.
Proof.
  destruct (topics_shape election_text) as [_ [_ [_ [_ [_ [_ [_ H]]]]]]].
  exact H.
Defined.

End Topics.

(** ** Cleaning of the input text *)

Module Cleaning.

Import Utils PyFacts.

Lemma lstrip_no_space (c : char) (s : str) :
  isspace c = false -> lstrip (c :: s) = c :: s.
Proof. intros H. simpl. rewrite H. reflexivity. Qed.

(** A text that neither starts nor ends with white space is its own strip. *)
Lemma strip_framed (c d : char) (s : str) :
  isspace c = false -> isspace d = false ->
  strip (c :: s ++ [d]) = c :: s ++ [d].
Proof.
  intros Hc Hd. unfold strip. rewrite lstrip_no_space by exact Hc.
  replace (rev (c :: s ++ [d])) with (d :: rev s ++ [c])
    by (simpl; rewrite rev_app_distr; reflexivity).
  rewrite lstrip_no_space by exact Hd.
  replace (d :: rev s ++ [c]) with (rev (c :: s ++ [d]))
    by (simpl; rewrite rev_app_distr; reflexivity).
  apply rev_involutive.
Qed.

Lemma rev_word_like (c : char) (w : str) :
  no_space (c :: w) = true -> word_like (rev (c :: w)).
Proof.
  intros H. unfold no_space in H. rewrite forallb_forall in H.
  destruct (rev (c :: w)) as [|x r] eqn:E.
  - apply (f_equal (@List.length char)) in E.
    rewrite length_rev in E. discriminate.
  - exists x, r. split; [reflexivity|].
    assert (Hin : In x (c :: w))
      by (apply in_rev; rewrite E; left; reflexivity).
    apply H in Hin. destruct (isspace x); [discriminate | reflexivity].
Qed.

Lemma split_from_word_like (s w : str) :
  no_space w = true -> Forall word_like (split_from w s).
Proof.
  revert w; induction s as [|c s IH]; intros w Hw.
  - destruct w as [|x w]; simpl; [constructor|].
    constructor; [apply (rev_word_like x w Hw) | constructor].
  - simpl. destruct (isspace c) eqn:Hc.
    + destruct w as [|x w]; [apply IH; reflexivity|].
      constructor; [apply (rev_word_like x w Hw) | apply IH; reflexivity].
    + apply IH. simpl. rewrite Hc. exact Hw.
Qed.

(** A collapsed text that is not empty starts with a code point that is
    not white space. *)
Lemma collapse_head (text : str) (c : char) (rest : str) :
  collapse text = c :: rest -> isspace c = false.
Proof.
  unfold collapse, split. intros H.
  pose proof (split_from_word_like text [] eq_refl) as Hw.
  destruct (split_from [] text) as [|w ws]; [discriminate|].
  inversion Hw as [|? ? [x [r [-> Hx]]] _]; subst.
  destruct ws; simpl in H; inversion H; subst; exact Hx.
Qed.

Lemma split_from_no_space (s w : str) :
  no_space s = true -> w ++ s <> [] -> split_from w s = [rev w ++ s].
Proof.
  revert w; induction s as [|c s IH]; intros w Hs Hne.
  - rewrite app_nil_r in *. destruct w; [congruence | reflexivity].
  - simpl in Hs. apply andb_true_iff in Hs. destruct Hs as [Hc Hs].
    simpl. destruct (isspace c); [discriminate|].
    rewrite IH; [|exact Hs|discriminate].
    simpl. rewrite <- app_assoc. reflexivity.
Qed.

Lemma collapse_no_space (text : str) :
  no_space text = true -> collapse text = text.
Proof.
  intros H. destruct text as [|c text]; [reflexivity|].
  unfold collapse, split. rewrite split_from_no_space; auto.
  discriminate.
Qed.

(** The result of [clean_text] on a text longer than the cap once
    collapsed. *)
Lemma clean_text_truncates (text : str) :
  (len (collapse text) > 10000)%Z ->
  clean_text text = Returned (prefix 10000 (collapse text) ++ lit "...").
Proof.
  intros Hlen. unfold clean_text. fold (collapse text).
  destruct text as [|c0 text0] eqn:Etext.
  - exfalso. unfold len in Hlen. simpl in Hlen. lia.
  - rewrite <- Etext in *.
    replace (len (collapse text) <? 10)%Z with false
      by (symmetry; apply Z.ltb_ge; lia).
    replace (len (collapse text) >? 10000)%Z with true
      by (symmetry; apply Z.gtb_lt; lia).
    f_equal.
    destruct (collapse text) as [|h t] eqn:E.
    + exfalso. unfold len in Hlen. simpl in Hlen. lia.
    + unfold prefix.
      destruct (Z.to_nat 10000) as [|n] eqn:En; [lia|].
      cbn [firstn].
      change (lit "...") with ([0x2E; 0x2E]%N ++ [0x2E%N]).
      change ((h :: firstn n t) ++ [0x2E; 0x2E]%N ++ [0x2E%N])
        with (h :: firstn n t ++ [0x2E; 0x2E]%N ++ [0x2E%N]).
      rewrite app_assoc. apply strip_framed; [|reflexivity].
      apply (collapse_head text h t E).
Qed.

(** C6, as stated, fails in its second half: white space is collapsed
    before the length is looked at, so a text of 11000 spaces is refused as
    too short. *)
Lemma truncation_counterexample :
  len blank_text = 11000%Z
  /\ clean_text blank_text
     = Raised (UserFriendly too_short_message (lit "Text too short: 0 characters"))
  /\ clean_text blank_text
     <> Returned (prefix 10000 blank_text ++ lit "...").
Proof.
  split; [vm_compute; reflexivity|].
  assert (E : clean_text blank_text
              = Raised (UserFriendly too_short_message
                          (lit "Text too short: 0 characters")))
    by (vm_compute; reflexivity).
  split; [exact E|]. rewrite E. discriminate.
Qed.

(** C6, amended: every text of 9 code points is refused with the error
    whose message names the minimum of 10 characters; every text of 11000
    code points whose collapsed form (runs of white space replaced by one
    space, none at the ends) is longer than 10000 yields the first 10000
    code points of the collapsed form followed by three dots, and no error;
    for a text without white space that is the first 10000 code points of
    the text itself. *)
Theorem clean_text_bounds (text : str) :
  (len text = 9%Z ->
   clean_text text
   = Raised (UserFriendly too_short_message
               (lit "Text too short: " ++ str_of_Z (len (collapse text))
                    ++ lit " characters")))
  /\ (len text = 11000%Z -> (len (collapse text) > 10000)%Z ->
      clean_text text = Returned (prefix 10000 (collapse text) ++ lit "..."))
  /\ (len text = 11000%Z -> no_space text = true ->
      clean_text text = Returned (prefix 10000 text ++ lit "...")).
Proof.
  split; [|split].
  - intros Hlen. unfold clean_text. fold (collapse text).
    destruct text as [|c0 text0] eqn:Etext; [discriminate|].
    rewrite <- Etext in *.
    pose proof (length_collapse text) as Hle. fold (collapse text) in Hle.
    unfold len in *.
    replace (Z.of_nat (List.length (collapse text)) <? 10)%Z with true
      by (symmetry; apply Z.ltb_lt; lia).
    reflexivity.
  - intros _ Hlen. apply clean_text_truncates. exact Hlen.
  - intros Hlen Hns.
    rewrite <- (collapse_no_space text Hns) at 2.
    apply clean_text_truncates. rewrite collapse_no_space by exact Hns. lia.
Qed.

Lemma clean_text_bounds_witness :
  clean_text short_text
  = Raised (UserFriendly too_short_message (lit "Text too short: 9 characters"))
  /\ clean_text long_text = Returned (prefix 10000 long_text ++ lit "...").
Proof.
  split.
  - apply (proj1 (clean_text_bounds short_text)). reflexivity.
  - apply (proj2 (proj2 (clean_text_bounds long_text)));
      vm_compute; reflexivity.
Defined.

End Cleaning.

(** ** Formatting of a parsed analysis *)

Module Formatting.

Import Utils PyFacts.



End Formatting.

(** ** The retry wrapper *)

Module Retry.

Import Utils PyFacts.

Lemma calls_app (t u : list event) : calls (t ++ u) = (calls t + calls u)%nat.
Proof. unfold calls. rewrite filter_app, length_app. reflexivity. Qed.

Lemma calls_rev (t : list event) : calls (rev t) = calls t.
Proof.
  induction t as [|e t IH]; [reflexivity|].
  simpl rev. rewrite calls_app, IH. destruct e; unfold calls; simpl; lia.
Qed.

Lemma calls_script (ss : list Q) : calls (script ss) = S (List.length ss).
Proof.
  unfold script. rewrite calls_app.
  induction ss as [|s ss IH]; [reflexivity|].
  cbn [flat_map List.length]. rewrite calls_app. unfold calls in *. simpl in *. lia.
Qed.

Lemma sleeps_script (ss : list Q) (t : list event) :
  sleeps (rev (script ss) ++ t) = sleeps t ++ ss.
Proof.
  unfold sleeps. rewrite rev_app_distr, rev_involutive, flat_map_app.
  f_equal. unfold script. rewrite flat_map_app. simpl. rewrite app_nil_r.
  induction ss as [|s ss IH]; [reflexivity|].
  simpl. rewrite IH. reflexivity.
Qed.

Lemma backoff_length (delay base : Q) (n : nat) :
  List.length (backoff delay base n) = n.
Proof. revert delay; induction n; intros; simpl; auto. Qed.

(** Consecutive delays have the ratio [base], and grow when the first is
    positive and [base] is above one. *)
Lemma backoff_step (delay base : Q) (n k : nat) (d1 d2 : Q) :
  (0 < delay)%Q -> (1 < base)%Q ->
  nth_error (backoff delay base n) k = Some d1 ->
  nth_error (backoff delay base n) (S k) = Some d2 ->
  (d2 == d1 * base)%Q /\ (d1 < d2)%Q.
Proof.
  intros Hd Hb. revert delay n Hd.
  induction k as [|k IH]; intros delay n Hd H1 H2.
  - destruct n as [|[|n]]; simpl in *; try discriminate.
    inversion H1; inversion H2; subst. split; [reflexivity | nra].
  - destruct n as [|n]; simpl in *; try discriminate.
    apply (IH (delay * base)%Q n); auto. nra.
Qed.

Section Wrapper.

Variables W A : Type.
Variable func : W -> outcome A * W.
Variable random : W -> Q * W.
Variable sleep : Q -> W -> W.
Variable max_retries : Z.
Variable initial_delay : Q.
Variable exponential_base : Q.
Variable jitter : bool.

Local Abbreviation attempts :=
  (attempts W A func random sleep max_retries exponential_base jitter).
Local Abbreviation wrapper :=
  (wrapper W A func random sleep max_retries initial_delay exponential_base
           jitter).
Local Abbreviation result :=
  (result W A func random sleep max_retries initial_delay exponential_base
          jitter).

(** Each turn of the loop invokes the function once. *)
Lemma attempts_calls (n : nat) :
  forall attempt delay last_exception st,
    (calls (trace (snd (attempts n attempt delay last_exception st)))
     <= calls (trace st) + n)%nat.
Proof.
  induction n as [|n IH]; intros attempt delay last_exception st.
  - simpl. destruct (parse_openai_error _). simpl. lia.
  - cbn [Utils.attempts]. destruct (func (world st)) as [[a|e] w1].
    + simpl. unfold calls. simpl. lia.
    + destruct (parse_openai_error (str_of_exn e)) as [user_msg suggestion].
      destruct (is_retryable (lower (str_of_exn e))
                && (attempt <? max_retries - 1)%Z).
      * destruct jitter.
        -- destruct (uniform W random 0 (delay * (1 # 10)) w1) as [j w2].
           etransitivity; [apply IH|]. unfold calls. simpl. lia.
        -- etransitivity; [apply IH|]. unfold calls. simpl. lia.
      * unfold calls. simpl. lia.
Qed.

Section AlwaysFailing.

Hypothesis base_above_one : (1 < exponential_base)%Q.
Hypothesis random_unit : forall w, (0 <= fst (random w) <= 1)%Q.
Hypothesis always_retryable :
  forall w, exists e w',
    func w = (Raised e, w')
    /\ is_retryable (lower (str_of_exn e)) = true.

(** With [S n] turns left and every call failing with a retryable
    error, the loop sleeps [n] times and raises from its last turn. *)
Lemma attempts_exhaust (n : nat) :
  forall attempt delay last_exception st,
    Z.of_nat (S n) = (max_retries - attempt)%Z ->
    (0 < delay)%Q ->
    exists e ss st',
      attempts (S n) attempt delay last_exception st
      = (Raised (UserFriendlyError
                   (fst (parse_openai_error (str_of_exn e)))
                   (str_of_exn e)), st')
      /\ is_retryable (lower (str_of_exn e)) = true
      /\ trace st' = rev (script ss) ++ trace st
      /\ Forall2 (near jitter) ss (backoff delay exponential_base n).
Proof.
  induction n as [|n IH]; intros attempt delay last_exception st Hn Hd.
  - destruct (always_retryable (world st)) as [e [w1 [Hf Hr]]].
    exists e, [], {| world := w1; trace := Called :: trace st |}.
    cbn [Utils.attempts]. rewrite Hf, Hr.
    replace (attempt <? max_retries - 1)%Z with false
      by (symmetry; apply Z.ltb_ge; lia).
    destruct (parse_openai_error (str_of_exn e)) as [user_msg suggestion].
    repeat split; auto.
  - destruct (always_retryable (world st)) as [e [w1 [Hf Hr]]].
    remember (S n) as m eqn:Em.
    cbn [Utils.attempts]. rewrite Hf, Hr.
    replace (attempt <? max_retries - 1)%Z with true
      by (symmetry; apply Z.ltb_lt; lia).
    destruct (parse_openai_error (str_of_exn e)) as [user_msg suggestion].
    cbn [andb].
    assert (Hd' : (0 < delay * exponential_base)%Q) by nra.
    assert (Hn' : Z.of_nat m = (max_retries - (attempt + 1))%Z) by lia.
    subst m.
    destruct jitter eqn:Ej.
    + unfold uniform. pose proof (random_unit w1) as Hu.
      destruct (random w1) as [r w2]. simpl in Hu.
      set (s := (delay + (0 + (delay * (1 # 10) - 0) * r))%Q).
      destruct (IH (attempt + 1)%Z (delay * exponential_base)%Q (Some e)
                   {| world := sleep s w2;
                      trace := Slept s :: Called :: trace st |} Hn' Hd')
        as [e' [ss [st' [Hrun [Hr' [Ht Hss]]]]]].
      exists e', (s :: ss), st'. split; [exact Hrun|].
      split; [exact Hr'|]. split.
      * rewrite Ht. cbn [trace]. unfold script. cbn [flat_map app rev].
        rewrite <- !app_assoc. reflexivity.
      * cbn [backoff]. constructor; [|exact Hss].
        unfold near, s.
        split; [nra | split; [nra | intros Hj; congruence]].
    + destruct (IH (attempt + 1)%Z (delay * exponential_base)%Q (Some e)
                   {| world := sleep delay w1;
                      trace := Slept delay :: Called :: trace st |} Hn' Hd')
        as [e' [ss [st' [Hrun [Hr' [Ht Hss]]]]]].
      exists e', (delay :: ss), st'. split; [exact Hrun|].
      split; [exact Hr'|]. split.
      * rewrite Ht. cbn [trace]. unfold script. cbn [flat_map app rev].
        rewrite <- !app_assoc. reflexivity.
      * cbn [backoff]. constructor; [|exact Hss].
        unfold near.
        split; [lra | split; [nra | reflexivity]].
Qed.

End AlwaysFailing.

(** With at least one attempt allowed, an error the wrapper raises comes
    from inside the loop: it carries the classifier's message for an error
    of the wrapped function, with nothing appended.  The statements after
    the loop are reached only when the loop has no turn at all. *)
Lemma attempts_raise_inside (n : nat) :
  forall attempt delay last_exception st x st',
    Z.of_nat (S n) = (max_retries - attempt)%Z ->
    attempts (S n) attempt delay last_exception st = (Raised x, st') ->
    exists e, x = UserFriendlyError (fst (parse_openai_error (str_of_exn e)))
                                    (str_of_exn e).
Proof.
  induction n as [|n IH]; intros attempt delay last_exception st x st' Hn Hrun.
  - cbn [Utils.attempts] in Hrun.
    destruct (func (world st)) as [[a|e] w1]; [discriminate|].
    replace (attempt <? max_retries - 1)%Z with false in Hrun
      by (symmetry; apply Z.ltb_ge; lia).
    rewrite andb_false_r in Hrun.
    destruct (parse_openai_error (str_of_exn e)) as [user_msg suggestion] eqn:Ep.
    inversion Hrun; subst. exists e. rewrite Ep. reflexivity.
  - remember (S n) as m eqn:Em. cbn [Utils.attempts] in Hrun.
    destruct (func (world st)) as [[a|e] w1]; [discriminate|].
    destruct (parse_openai_error (str_of_exn e)) as [user_msg suggestion] eqn:Ep.
    destruct (is_retryable (lower (str_of_exn e))
              && (attempt <? max_retries - 1)%Z).
    + subst m.
      destruct jitter.
      * destruct (uniform W random 0 (delay * (1 # 10)) w1) as [j w2].
        eapply IH; [|exact Hrun]. lia.
      * eapply IH; [|exact Hrun]. lia.
    + inversion Hrun; subst. exists e. rewrite Ep. reflexivity.
Qed.

(** The wrapper around a function that always fails with a retryable
    error. *)
Lemma wrapper_exhausts (w : W) :
  (1 <= max_retries)%Z -> (0 < initial_delay)%Q -> (1 < exponential_base)%Q ->
  (forall w0, (0 <= fst (random w0) <= 1)%Q) ->
  (forall w0, exists e w',
      func w0 = (Raised e, w')
      /\ is_retryable (lower (str_of_exn e)) = true) ->
  exists e ss st',
    result w
    = (Raised (UserFriendlyError (fst (parse_openai_error (str_of_exn e)))
                                 (str_of_exn e)), st')
    /\ is_retryable (lower (str_of_exn e)) = true
    /\ trace st' = rev (script ss)
    /\ Forall2 (near jitter) ss
               (backoff initial_delay exponential_base
                        (Z.to_nat (max_retries - 1))).
Proof.
  intros Hm Hd Hb Hr Hf. unfold Vocabulary.result, Utils.wrapper.
  replace (Z.to_nat max_retries) with (S (Z.to_nat (max_retries - 1))) by lia.
  destruct (attempts_exhaust Hb Hr Hf (Z.to_nat (max_retries - 1)) 0%Z
              initial_delay None {| world := w; trace := [] |})
    as [e [ss [st' [Hrun [Hre [Ht Hss]]]]]]; [lia | exact Hd |].
  exists e, ss, st'. rewrite Hrun. cbn [trace] in Ht.
  rewrite app_nil_r in Ht. auto.
Qed.

(** C1, amended: with [max_retries >= 1], [initial_delay > 0] and
    [exponential_base > 1] the wrapper invokes the function at most
    [max_retries] times, whatever the function does.  When every invocation
    raises a retryable error, it invokes the function exactly [max_retries]
    times, sleeps exactly [max_retries - 1] times and raises a classified
    error; the sleep of retry [k] lasts the delay of that retry, and with
    jitter up to a tenth of it more; the delays start at [initial_delay],
    grow strictly, and each is [exponential_base] times the one before. *)
Theorem retry_calls_and_sleeps (w : W) :
  (1 <= max_retries)%Z -> (0 < initial_delay)%Q -> (1 < exponential_base)%Q ->
  (forall w0, (0 <= fst (random w0) <= 1)%Q) ->
  (Z.of_nat (calls (trace (snd (result w)))) <= max_retries)%Z
  /\ ((forall w0, exists e w',
          func w0 = (Raised e, w')
          /\ is_retryable (lower (str_of_exn e)) = true) ->
      (exists user_message technical_message,
          fst (result w) = Raised (UserFriendly user_message technical_message))
      /\ Z.of_nat (calls (trace (snd (result w)))) = max_retries
      /\ Z.of_nat (List.length (sleeps (trace (snd (result w)))))
         = (max_retries - 1)%Z
      /\ Forall2 (near jitter) (sleeps (trace (snd (result w))))
                 (backoff initial_delay exponential_base
                          (Z.to_nat (max_retries - 1)))
      /\ (forall k d1 d2,
             nth_error (backoff initial_delay exponential_base
                                (Z.to_nat (max_retries - 1))) k = Some d1 ->
             nth_error (backoff initial_delay exponential_base
                                (Z.to_nat (max_retries - 1))) (S k) = Some d2 ->
             (d2 == d1 * exponential_base)%Q /\ (d1 < d2)%Q)).
Proof.
  intros Hm Hd Hb Hr. split.
  - pose proof (attempts_calls (Z.to_nat max_retries) 0%Z initial_delay None
                               {| world := w; trace := [] |}) as H.
    unfold Vocabulary.result, Utils.wrapper. cbn [trace] in H.
    change (calls []) with 0%nat in H. lia.
  - intros Hf.
    destruct (wrapper_exhausts w Hm Hd Hb Hr Hf)
      as [e [ss [st' [Hrun [_ [Ht Hss]]]]]].
    rewrite Hrun. cbn [fst snd]. rewrite Ht.
    assert (Hlen : List.length ss = Z.to_nat (max_retries - 1))
      by (apply Forall2_length in Hss; rewrite backoff_length in Hss;
          exact Hss).
    assert (Hsl : sleeps (rev (script ss)) = ss)
      by (rewrite <- (app_nil_r (rev (script ss))), sleeps_script;
          reflexivity).
    rewrite Hsl.
    split; [unfold UserFriendlyError; eauto|].
    split; [rewrite calls_rev, calls_script; lia|].
    split; [lia|].
    split; [exact Hss|].
    intros k d1 d2. apply backoff_step; assumption.
Qed.

End Wrapper.

Lemma retry_calls_and_sleeps_witness :
  Z.of_nat (calls (trace (snd jittered_run))) = 3%Z
  /\ Z.of_nat (List.length (sleeps (trace (snd jittered_run)))) = 2%Z.
Proof.
  destruct (retry_calls_and_sleeps nat str rate_limited uneven_random
              no_effect 3 1 2 true 0%nat) as [_ H];
    [ lia | reflexivity | reflexivity
    | intros [|w0]; unfold Qle; simpl; lia | ].
  destruct H as [_ [Hc [Hs _]]].
  - intros w0. exists (OtherException (lit "rate_limit exceeded")), w0.
    split; reflexivity.
  - split; assumption.
Defined.

(** C1, as stated, fails for the sleeps themselves: with jitter, which is
    on unless it is switched off, each sleep is its delay plus a random
    part, so two consecutive sleeps need not have the ratio
    [exponential_base].  Here they last 21/20 and 2 seconds. *)
Lemma sleep_ratio_counterexample :
  is_retryable (lower (lit "rate_limit exceeded")) = true
  /\ exists s0 s1,
      sleeps (trace (snd jittered_run)) = [s0; s1]
      /\ (s0 == 21 # 20)%Q /\ (s1 == 2)%Q /\ ~ (s1 == s0 * 2)%Q.
Proof.
  split; [reflexivity|].
  eexists. eexists. split; [vm_compute; reflexivity|].
  split; [reflexivity|]. split; [reflexivity|].
  intros H. vm_compute in H. discriminate H.
Qed.

(** C2 fails on the code: when all three attempts fail with a retryable
    error, the error raised is the one of the last turn of the loop, whose
    message is the classifier's message alone; the statements after the
    loop, which append the number of attempts, are not reached. *)
Theorem exhausted_message_without_count :
  fst jittered_run
  = Raised (UserFriendly (fst rate_limit_info) (lit "rate_limit exceeded"))
  /\ calls (trace (snd jittered_run)) = 3%nat
  /\ fst rate_limit_info
     <> fst rate_limit_info ++ lit " Sudah dicoba " ++ str_of_Z 3 ++ lit " kali.".
Proof.
  split; [vm_compute; reflexivity|]. split; [vm_compute; reflexivity|].
  vm_compute. discriminate.
Qed.

End Retry.

(** ** The composite pipeline *)

Module Pipeline.

Import Routes.

(** A value with a first element is true and has a positive length. *)
Lemma py_first_returned (v first : value) :
  py_first v = Returned first ->
  truthy v = true /\ exists n, py_len v = Returned n /\ (n >? 0)%Z = true.
Proof.
  destruct v as [| | |s|l|d]; try discriminate.
  - destruct s as [|c s]; [discriminate|]. intros _. split; [reflexivity|].
    eexists. split; [reflexivity|]. apply Z.gtb_lt. simpl List.length. lia.
  - destruct l as [|x l]; [discriminate|]. intros _. split; [reflexivity|].
    eexists. split; [reflexivity|]. apply Z.gtb_lt. simpl List.length. lia.
Qed.

Section Stages.

Variable W : Type.
Variable the_reasoner : reasoner W.
Variable str_of_value : value -> str.

Local Abbreviation complete := (complete W the_reasoner str_of_value).

Lemma bind_returned {A B : Type} (a : A) (k : A -> R W B) (st : state W) :
  bind W (lift W (Returned a)) k st = k a st.
Proof. reflexivity. Qed.

Lemma bind_ret {A B : Type} (a : A) (k : A -> R W B) (st : state W) :
  bind W (ret W a) k st = k a st.
Proof. reflexivity. Qed.

Lemma bind_bind {A B C : Type} (m : R W A) (f : A -> R W B) (g : B -> R W C)
    (st : state W) :
  bind W (bind W m f) g st = bind W m (fun x => bind W (f x) g) st.
Proof. unfold bind. destruct (m st) as [[a|e] st']; reflexivity. Qed.

(** One stage: the operation runs on the world and is recorded. *)
Lemma bind_call {B : Type} (op : operation) (f : W -> dict * W)
    (k : dict -> R W B) (st : state W) (d : dict) (w' : W) :
  f (rworld st) = (d, w') ->
  bind W (call W op f) k st
  = k d {| rworld := w'; invoked := op :: invoked st |}.
Proof. intros H. unfold bind, call. rewrite H. reflexivity. Qed.

(** C5: when the analysis and the insights succeed and the narrative stage
    returns an error, the response is a 500 that reports the narrative
    failure and the policy operation has not been invoked; when the three
    stages succeed and the policy stage, once invoked, returns an error,
    the response is the 200 success response with that error as its
    policy recommendations. *)
Theorem complete_stops_or_embeds
    (data : dict) (w w1 w2 w3 : W) (analysis insights narrative : dict) :
  truthy (request_text data) = true ->
  analyze_political_text the_reasoner (request_text data) w = (analysis, w1) ->
  dict_get (lit "error") analysis = None ->
  extract_key_insights the_reasoner analysis w1 = (insights, w2) ->
  dict_get (lit "error") insights = None ->
  generate_narrative the_reasoner analysis w2 = (narrative, w3) ->
  (forall e,
      dict_get (lit "error") narrative = Some e ->
      complete (VDict data) (fresh w)
      = ({| body := [(lit "error",
                      VStr (lit "Narrative generation failed: "
                                ++ format_value str_of_value e))];
            status_code := 500 |},
         {| rworld := w3;
            invoked := [GenerateNarrative; ExtractKeyInsights;
                        AnalyzePoliticalText] |}))
  /\ (forall first recommendations w4 e,
         dict_get (lit "error") narrative = None ->
         truthy (request_policy_context data) = true ->
         py_first (dict_get_default (lit "critical_issues") VNone insights)
         = Returned first ->
         generate_policy_recommendations the_reasoner
           (request_policy_context data) (main_issue first) w3
         = (recommendations, w4) ->
         dict_get (lit "error") recommendations = Some e ->
         complete (VDict data) (fresh w)
         = ({| body :=
                 [ (lit "complete_analysis",
                    VDict [ (lit "basic_analysis", VDict analysis);
                            (lit "key_insights", VDict insights);
                            (lit "narrative", VDict narrative);
                            (lit "policy_recommendations",
                             VDict [(lit "error", e)]) ]);
                   (lit "status", VStr (lit "success")) ];
               status_code := 200 |},
            {| rworld := w4;
               invoked := [GeneratePolicyRecommendations; GenerateNarrative;
                           ExtractKeyInsights; AnalyzePoliticalText] |})).
Proof.
  intros Htext Ha Hae Hi Hie Hn.
  assert (Hthree : forall k : value -> dict -> R W http_response,
             bind W (lift W (py_get (lit "text") (VDict data)))
               (fun text =>
                  bind W (lift W (py_get (lit "policy_context") (VDict data)))
                    (fun policy_context =>
                       if negb (truthy text)
                       then ret W (error_response 400 (lit "Text is required"))
                       else
                         bind W (call W AnalyzePoliticalText
                                   (analyze_political_text the_reasoner text))
                           (fun a => k policy_context a)))
               (fresh w)
             = k (request_policy_context data) analysis
                 {| rworld := w1; invoked := [AnalyzePoliticalText] |}).
  { intros k. cbn [py_get]. rewrite !bind_returned.
    fold (request_text data). fold (request_policy_context data).
    rewrite Htext. cbn [negb].
    rewrite (bind_call _ _ _ _ analysis w1) by exact Ha. reflexivity. }
  split.
  - intros e Hne. unfold Routes.complete, complete_body.
    rewrite (Hthree (fun policy_context a => _)).
    rewrite Hae.
    rewrite (bind_call _ _ _ _ insights w2) by exact Hi.
    rewrite Hie.
    rewrite (bind_call _ _ _ _ narrative w3) by exact Hn.
    rewrite Hne. reflexivity.
  - intros first recommendations w4 e Hne Hpc Hfirst Hp Hpe.
    destruct (py_first_returned _ _ Hfirst) as [Hci [n [Hlen Hpos]]].
    unfold Routes.complete, complete_body.
    rewrite (Hthree (fun policy_context a => _)).
    rewrite Hae.
    rewrite (bind_call _ _ _ _ insights w2) by exact Hi.
    rewrite Hie.
    rewrite (bind_call _ _ _ _ narrative w3) by exact Hn.
    rewrite Hne. unfold recommend. rewrite Hpc, Hci, Hlen.
    rewrite bind_bind, bind_returned. rewrite Hpos, Hfirst.
    rewrite bind_bind, bind_returned. fold (main_issue first).
    rewrite bind_bind.
    rewrite (bind_call _ _ _ _ recommendations w4) by exact Hp.
    rewrite Hpe. rewrite bind_ret. reflexivity.
Qed.

End Stages.

Lemma complete_stops_or_embeds_witness :
  Routes.complete nat failing_narrative (fun _ => []) (VDict sample_request)
                  (fresh 0%nat)
  = ({| body := [(lit "error",
                  VStr (lit "Narrative generation failed: narasi gagal"))];
        status_code := 500 |},
     {| rworld := 3%nat;
        invoked := [GenerateNarrative; ExtractKeyInsights;
                    AnalyzePoliticalText] |})
  /\ status_code
       (fst (Routes.complete nat failing_policy (fun _ => [])
                             (VDict sample_request) (fresh 0%nat)))
     = 200%Z.
Proof.
  split.
  - apply (proj1 (complete_stops_or_embeds nat failing_narrative (fun _ => [])
                    sample_request 0%nat 1%nat 2%nat 3%nat
                    [(lit "key_issues", VList [VStr (lit "harga beras")])]
                    [(lit "critical_issues", VList [VStr (lit "harga beras")])]
                    [(lit "error", VStr (lit "narasi gagal"));
                     (lit "status", VStr (lit "error"))]
                    eq_refl eq_refl eq_refl eq_refl eq_refl eq_refl)
                 (VStr (lit "narasi gagal"))).
    reflexivity.
  - rewrite (proj2 (complete_stops_or_embeds nat failing_policy (fun _ => [])
                      sample_request 0%nat 1%nat 2%nat 3%nat
                      [(lit "key_issues", VList [VStr (lit "harga beras")])]
                      [(lit "critical_issues", VList [VStr (lit "harga beras")])]
                      [(lit "narrative", VStr (lit "Harga beras menjadi isu utama."));
                       (lit "status", VStr (lit "success"))]
                      eq_refl eq_refl eq_refl eq_refl eq_refl eq_refl)
                   (VStr (lit "harga beras"))
                   [(lit "error", VStr (lit "rekomendasi gagal"));
                    (lit "status", VStr (lit "error"))]
                   4%nat (VStr (lit "rekomendasi gagal"))
                   eq_refl eq_refl eq_refl eq_refl eq_refl).
    reflexivity.
Defined.

End Pipeline.

(** ** The operations never raise *)

Module Totality.

Import Utils Reasoner PyFacts.

(** Looking up a key after it was set. *)
Lemma dict_get_set (k : str) (v : value) (d : dict) :
  dict_get k (dict_set k v d) = Some v.
Proof.
  induction d as [|[k' v'] d IH]; simpl.
  - rewrite str_eqb_refl. reflexivity.
  - destruct (str_eqb k' k) eqn:E; simpl; rewrite E; [reflexivity | exact IH].
Qed.

(** Looking up a key after another one was set. *)
Lemma dict_get_set_other (k k0 : str) (v : value) (d : dict) :
  k0 <> k -> dict_get k (dict_set k0 v d) = dict_get k d.
Proof.
  intros Hk. induction d as [|[k' v'] d IH]; simpl.
  - destruct (str_eqb k0 k) eqn:E; [|reflexivity].
    apply str_eqb_eq in E. contradiction.
  - destruct (str_eqb k' k0) eqn:E0; simpl.
    + apply str_eqb_eq in E0. subst k'.
      destruct (str_eqb k0 k) eqn:E; [|reflexivity].
      apply str_eqb_eq in E. contradiction.
    + destruct (str_eqb k' k); [reflexivity | exact IH].
Qed.

Lemma error_result_reports (message : str) :
  reports_error (error_result message).
Proof. split; [exists message; reflexivity | reflexivity]. Qed.

Lemma reports_error_means_failure (d : dict) :
  reports_error d -> error_means_failure d.
Proof. intros [_ H] _. exact H. Qed.

Section Operations.

Variable W : Type.
Variable create : list dict -> Q -> Z -> W -> outcome (option completion) * W.
Variable random : W -> Q * W.
Variable sleep : Q -> W -> W.
Variable clock : W -> Q.
Variable json_loads : str -> option value.
Variable json_dumps : value -> str.
Variable get_political_analysis_prompt : str -> str.
Variable get_narrative_generation_prompt : dict -> str.
Variable get_policy_recommendation_prompt : str -> str -> str.
Variable isupper : char -> bool.
Variable list_of_set : list str -> list str.

Local Abbreviation analyze_political_text_try :=
  (analyze_political_text_try W create random sleep clock json_loads
     get_political_analysis_prompt isupper list_of_set).
Local Abbreviation analyze_political_text :=
  (analyze_political_text W create random sleep clock json_loads
     get_political_analysis_prompt isupper list_of_set).
Local Abbreviation generate_narrative_try :=
  (generate_narrative_try W create random sleep
     get_narrative_generation_prompt).
Local Abbreviation generate_narrative :=
  (generate_narrative W create random sleep get_narrative_generation_prompt).
Local Abbreviation generate_policy_recommendations_try :=
  (generate_policy_recommendations_try W create random sleep json_loads
     get_policy_recommendation_prompt).
Local Abbreviation generate_policy_recommendations :=
  (generate_policy_recommendations W create random sleep json_loads
     get_policy_recommendation_prompt).
Local Abbreviation chat_response_try :=
  (chat_response_try W create random sleep json_dumps).
Local Abbreviation chat_response :=
  (chat_response W create random sleep json_dumps).

Lemma returns_ret {A : Type} (P : A -> Prop) (a : A) :
  P a -> returns P (ret W a).
Proof. intros H st. exact H. Qed.

Lemma returns_bind {A B : Type} (P : B -> Prop) (m : M W A) (k : A -> M W B) :
  (forall a, returns P (k a)) -> returns P (bind W m k).
Proof.
  intros H st. unfold bind. destruct (m st) as [[a|e] st'].
  - apply H.
  - exact I.
Qed.

Lemma analyze_handlers_report :
  (forall user_message,
      reports_error [ (lit "error", VStr user_message);
                      (lit "status", VStr (lit "error"));
                      (lit "error_type", VStr (lit "user_friendly")) ])
  /\ (forall message,
         reports_error
           [ (lit "error", VStr (pict 0x1F916 " Terjadi kesalahan tak terduga saat menganalisis teks. Silakan coba lagi."));
             (lit "status", VStr (lit "error"));
             (lit "error_type", VStr (lit "unexpected"));
             (lit "technical_error", VStr message) ]).
Proof.
  split; intros m; (split; [eexists; reflexivity | reflexivity]).
Qed.

Local Abbreviation _make_openai_request :=
  (_make_openai_request W create random sleep).

(** A block that raises gives an answer that reports the failure. *)
Lemma try_except_fails (block : M W dict)
    (on_user_friendly on_exception : str -> dict) (st st' : run W) (e : exn) :
  (forall message, reports_error (on_user_friendly message)) ->
  (forall message, reports_error (on_exception message)) ->
  block st = (Raised e, st') ->
  fails_at st' (try_except W block on_user_friendly on_exception st).
Proof.
  intros H1 H2 Hb. unfold fails_at, try_except. rewrite Hb.
  destruct e; split; cbn [fst snd]; auto.
Qed.

(** [not response or len(response.strip()) < n] *)
Lemma short_or_empty (response : str) (n : Z) :
  (0 < n)%Z ->
  negb (nonempty response) || (len (strip response) <? n)%Z
  = (len (strip response) <? n)%Z.
Proof.
  intros Hn. destruct response as [|c r]; [|reflexivity].
  symmetry. apply Z.ltb_lt. exact Hn.
Qed.

(** A text that is not empty passes the check of its field. *)
Lemma cleaned_is_filled_cons (field : str) (c0 : char) (t0 : str) :
  validate_input_data [(field, VStr (c0 :: t0))] [field] = Returned true.
Proof.
  unfold validate_input_data, is_missing. cbv zeta. cbn [filter dict_get].
  rewrite str_eqb_refl. reflexivity.
Qed.

(** A text that [clean_text] returns passes the check of its field. *)
Lemma cleaned_is_filled (field text cleaned : str) :
  clean_text text = Returned cleaned ->
  validate_input_data [(field, VStr text)] [field] = Returned true.
Proof.
  destruct text as [|c0 t0]; [discriminate|]. intros _.
  apply cleaned_is_filled_cons.
Qed.

(** The analysis, by what the cleaning and the request do. *)
Lemma analysis_cases (text : str) (st : run W) :
  (forall e, clean_text text = Raised e ->
             fails_at st (analyze_political_text text st))
  /\ (forall cleaned,
         clean_text text = Returned cleaned ->
         match _make_openai_request
                 (analysis_messages (get_political_analysis_prompt cleaned))
                 (7 # 10) 1500 st with
         | (Raised _, st') => fails_at st' (analyze_political_text text st)
         | (Returned _, st') =>
             snd (analyze_political_text text st) = st'
             /\ (reports_error (fst (analyze_political_text text st))
                 \/ dict_mem (lit "error")
                             (fst (analyze_political_text text st)) = false)
         end).
Proof.
  destruct analyze_handlers_report as [Hu Ho]. split.
  - intros e He. unfold Reasoner.analyze_political_text.
    destruct text as [|c0 t0].
    + eapply try_except_fails; [exact Hu | exact Ho | reflexivity].
    + eapply try_except_fails; [exact Hu | exact Ho |].
      unfold Reasoner.analyze_political_text_try.
      unfold bind at 1. unfold lift at 1.
      rewrite (cleaned_is_filled_cons (lit "text") c0 t0).
      unfold bind at 1. unfold lift at 1. rewrite He. reflexivity.
  - intros cleaned Hc.
    remember (analyze_political_text text st) as answer eqn:Ha.
    unfold Reasoner.analyze_political_text, try_except,
      Reasoner.analyze_political_text_try in Ha.
    unfold bind at 1 in Ha. unfold lift at 1 in Ha.
    rewrite (cleaned_is_filled (lit "text") text cleaned Hc) in Ha.
    unfold bind at 1 in Ha. unfold lift at 1 in Ha. rewrite Hc in Ha.
    unfold bind at 1 in Ha. unfold analysis_messages. revert Ha.
    destruct (_make_openai_request
                [chat_message (lit "system")
                   (lit "Anda adalah analis politik Indonesia yang ahli dan objektif.");
                 chat_message (lit "user")
                   (get_political_analysis_prompt cleaned)]
                (7 # 10) 1500 st) as [[response|e] st']; intros Ha.
    + unfold bind, time_time, ret in Ha.
      destruct (startswith (lit "{") (strip response));
        [destruct (json_loads response) as [parsed|]|]; subst answer;
        cbn [fst snd]; (split; [reflexivity|]).
      * unfold format_analysis_response.
        destruct (negb (truthy parsed)); [right; reflexivity|].
        destruct parsed; try (right; reflexivity);
          left; (split; [eexists; reflexivity | reflexivity]).
      * unfold _structure_response. destruct (strip response).
        -- left. split; [eexists; reflexivity | reflexivity].
        -- right. reflexivity.
      * unfold _structure_response. destruct (strip response).
        -- left. split; [eexists; reflexivity | reflexivity].
        -- right. reflexivity.
    + subst answer. destruct e; split; cbn [fst snd]; auto.
Qed.

(** The narrative, by what the request does. *)
Lemma narrative_cases (analysis_data : dict) (st : run W) :
  dict_get (lit "error") analysis_data = None ->
  match _make_openai_request
          (narrative_messages (get_narrative_generation_prompt analysis_data))
          (8 # 10) 800 st with
  | (Raised _, st') => fails_at st' (generate_narrative analysis_data st)
  | (Returned response, st') =>
      if (len (strip response) <? 50)%Z
      then fails_at st' (generate_narrative analysis_data st)
      else generate_narrative analysis_data st
           = ([ (lit "narrative", VStr response);
                (lit "status", VStr (lit "success")) ], st')
  end.
Proof.
  intros Hnone.
  remember (generate_narrative analysis_data st) as answer eqn:Ha.
  unfold Reasoner.generate_narrative, try_except,
    Reasoner.generate_narrative_try in Ha.
  rewrite Hnone in Ha. unfold bind at 1 in Ha. unfold narrative_messages.
  revert Ha.
  destruct (_make_openai_request
              [chat_message (lit "system")
                 (lit "Anda adalah jurnalis politik yang objektif dan berpengalaman.");
               chat_message (lit "user")
                 (get_narrative_generation_prompt analysis_data)]
              (8 # 10) 800 st) as [[response|e] st']; intros Ha.
  - rewrite short_or_empty in Ha by lia.
    destruct (len (strip response) <? 50)%Z; unfold ret in Ha; subst answer.
    + split; [apply error_result_reports | reflexivity].
    + reflexivity.
  - subst answer.
    destruct e; (split; [apply error_result_reports | reflexivity]).
Qed.

(** The recommendations, by what the cleaning and the request do. *)
Lemma policy_cases (context issue : str) (st : run W) :
  (forall e, clean_text context = Raised e \/ clean_text issue = Raised e ->
             fails_at st (generate_policy_recommendations context issue st))
  /\ (forall cleaned_context cleaned_issue,
         clean_text context = Returned cleaned_context ->
         clean_text issue = Returned cleaned_issue ->
         match _make_openai_request
                 (policy_messages
                    (get_policy_recommendation_prompt cleaned_context
                                                      cleaned_issue))
                 (7 # 10) 1200 st with
         | (Raised _, st') =>
             fails_at st' (generate_policy_recommendations context issue st)
         | (Returned response, st') =>
             snd (generate_policy_recommendations context issue st) = st'
             /\ (reports_error
                   (fst (generate_policy_recommendations context issue st))
                 \/ (dict_get (lit "status")
                       (fst (generate_policy_recommendations context issue st))
                     = Some (VStr (lit "success"))
                     /\ (dict_mem (lit "error")
                           (fst (generate_policy_recommendations context issue
                                                                 st)) = true ->
                         exists parsed,
                           json_loads response = Some (VDict parsed)
                           /\ dict_mem (lit "error") parsed = true)))
         end).
Proof.
  split.
  - intros e He. unfold Reasoner.generate_policy_recommendations.
    destruct context as [|c0 t0]; destruct issue as [|i0 u0];
      try (eapply try_except_fails;
           [intros; apply error_result_reports | intros; apply error_result_reports
           | reflexivity]).
    unfold Reasoner.generate_policy_recommendations_try.
    destruct (clean_text (c0 :: t0)) as [c|e1] eqn:Hc.
    + destruct (clean_text (i0 :: u0)) as [i|e2] eqn:Hi;
        [destruct He; discriminate|].
      eapply try_except_fails;
        [intros; apply error_result_reports | intros; apply error_result_reports |].
      unfold bind at 1. unfold lift at 1.
      change (validate_input_data
                [(lit "context", VStr (c0 :: t0));
                 (lit "issue", VStr (i0 :: u0))]
                [lit "context"; lit "issue"])
        with (Returned (A := bool) true).
      unfold bind at 1. unfold lift at 1.
      unfold bind at 1. unfold lift at 1. reflexivity.
    + eapply try_except_fails;
        [intros; apply error_result_reports | intros; apply error_result_reports |].
      unfold bind at 1. unfold lift at 1.
      change (validate_input_data
                [(lit "context", VStr (c0 :: t0));
                 (lit "issue", VStr (i0 :: u0))]
                [lit "context"; lit "issue"])
        with (Returned (A := bool) true).
      unfold bind at 1. unfold lift at 1. reflexivity.
  - intros c i Hc Hi.
    destruct context as [|c0 t0]; [discriminate|].
    destruct issue as [|i0 u0]; [discriminate|].
    remember (generate_policy_recommendations (c0 :: t0) (i0 :: u0) st)
      as answer eqn:Ha.
    unfold Reasoner.generate_policy_recommendations, try_except,
      Reasoner.generate_policy_recommendations_try in Ha.
    unfold bind at 1 in Ha. unfold lift at 1 in Ha.
    change (validate_input_data
              [(lit "context", VStr (c0 :: t0));
               (lit "issue", VStr (i0 :: u0))]
              [lit "context"; lit "issue"])
      with (Returned (A := bool) true) in Ha.
    unfold bind at 1 in Ha. unfold lift at 1 in Ha. rewrite Hc in Ha.
    unfold bind at 1 in Ha. unfold lift at 1 in Ha. rewrite Hi in Ha.
    unfold bind at 1 in Ha. unfold policy_messages. revert Ha.
    destruct (_make_openai_request
                [chat_message (lit "system")
                   (lit "Anda adalah konsultan kebijakan publik yang berpengalaman di Indonesia.");
                 chat_message (lit "user")
                   (get_policy_recommendation_prompt c i)]
                (7 # 10) 1200 st) as [[response|e] st']; intros Ha.
    + destruct (startswith (lit "{") (strip response));
        [destruct (json_loads response) as [parsed|]|];
        unfold ret, lift in Ha.
      * destruct parsed as [|b|q|s|l|d]; cbn [set_status_success] in Ha;
          subst answer; cbn [fst snd]; (split; [reflexivity|]);
          try (left; apply error_result_reports).
        right. split; [apply dict_get_set|].
        intros Hmem. exists d. split; [reflexivity|].
        unfold dict_mem in *. rewrite dict_get_set_other in Hmem;
          [exact Hmem | discriminate].
      * subst answer. split; [reflexivity|]. right.
        split; [reflexivity | discriminate].
      * subst answer. split; [reflexivity|]. right.
        split; [reflexivity | discriminate].
    + subst answer.
      destruct e; (split; [apply error_result_reports | reflexivity]).
Qed.

(** The answer to a question, by what the cleaning and the request do. *)
Lemma chat_cases (question : str) (context : option dict) (st : run W) :
  (forall e, clean_text question = Raised e ->
             fails_at st (chat_response question context st))
  /\ (forall cleaned,
         clean_text question = Returned cleaned ->
         match _make_openai_request (chat_messages json_dumps cleaned context)
                                    (7 # 10) 1000 st with
         | (Raised _, st') => fails_at st' (chat_response question context st)
         | (Returned response, st') =>
             if (len (strip response) <? 10)%Z
             then fails_at st' (chat_response question context st)
             else chat_response question context st
                  = ([ (lit "response", VStr response);
                       (lit "status", VStr (lit "success")) ], st')
         end).
Proof.
  split.
  - intros e He. unfold Reasoner.chat_response.
    destruct question as [|c0 t0].
    + eapply try_except_fails;
        [intros; apply error_result_reports | intros; apply error_result_reports
        | reflexivity].
    + eapply try_except_fails;
        [intros; apply error_result_reports | intros; apply error_result_reports |].
      unfold Reasoner.chat_response_try.
      unfold bind at 1. unfold lift at 1.
      rewrite (cleaned_is_filled_cons (lit "question") c0 t0).
      unfold bind at 1. unfold lift at 1. rewrite He. reflexivity.
  - intros cleaned Hc.
    remember (chat_response question context st) as answer eqn:Ha.
    unfold Reasoner.chat_response, try_except, Reasoner.chat_response_try
      in Ha.
    unfold bind at 1 in Ha. unfold lift at 1 in Ha.
    rewrite (cleaned_is_filled (lit "question") question cleaned Hc) in Ha.
    unfold bind at 1 in Ha. unfold lift at 1 in Ha. rewrite Hc in Ha.
    unfold bind at 1 in Ha.
    assert (Hm :
      (match context with
       | Some ((_ :: _) as c) =>
           if negb (truthy (dict_get_default (lit "error") VNone c))
           then [chat_message (lit "system")
                   (lit "Anda adalah asisten AI ahli politik Indonesia yang membantu menganalisis dan menjelaskan isu politik dengan objektif dan mudah dipahami.")]
                ++ [chat_message (lit "user")
                      (lit "Konteks analisis sebelumnya: "
                           ++ json_dumps (VDict c))]
           else [chat_message (lit "system")
                   (lit "Anda adalah asisten AI ahli politik Indonesia yang membantu menganalisis dan menjelaskan isu politik dengan objektif dan mudah dipahami.")]
       | _ => [chat_message (lit "system")
                 (lit "Anda adalah asisten AI ahli politik Indonesia yang membantu menganalisis dan menjelaskan isu politik dengan objektif dan mudah dipahami.")]
       end) ++ [chat_message (lit "user") cleaned]
      = chat_messages json_dumps cleaned context).
    { unfold chat_messages, context_messages.
      destruct context as [[|kv c]|]; try reflexivity.
      destruct (truthy (dict_get_default (lit "error") VNone (kv :: c)));
        reflexivity. }
    rewrite Hm in Ha. revert Ha.
    destruct (_make_openai_request (chat_messages json_dumps cleaned context)
                                   (7 # 10) 1000 st) as [[response|e] st'];
      intros Ha.
    + rewrite short_or_empty in Ha by lia.
      destruct (len (strip response) <? 10)%Z; unfold ret in Ha; subst answer.
      * split; [apply error_result_reports | reflexivity].
      * reflexivity.
    + subst answer.
      destruct e; (split; [apply error_result_reports | reflexivity]).
Qed.

(** C9, amended: each of the four operations is a function from its input
    and the run to a dictionary and the run after it, so no exception
    leaves it; and each way in which one of its steps fails gives a
    dictionary with a message under [error] and [status] equal to [error].
    A text, context, issue or question that the cleaning refuses fails
    before anything is requested.  A request that raises fails when the
    request ends.  A request that returns gives, for the narrative and the
    chat, a failure when the text returned has fewer than 50, respectively
    10, code points once stripped, and the text with [status] equal to
    [success] otherwise; for the analysis a dictionary that reports a
    failure or has no [error] key.  Analysis data with an [error] key fail
    the narrative with that error.  So every dictionary with an [error]
    key that the analysis, the narrative or the chat returns has [status]
    equal to [error].  For the recommendations, a request that returns
    gives a dictionary that reports a failure or has [status] equal to
    [success]; the latter has an [error] key only when the text returned
    is a JSON object with an [error] key of its own. *)
Theorem operations_never_raise (st : run W) :
  (forall text,
      (forall e, clean_text text = Raised e ->
                 fails_at st (analyze_political_text text st))
      /\ (forall cleaned,
             clean_text text = Returned cleaned ->
             match _make_openai_request
                     (analysis_messages (get_political_analysis_prompt cleaned))
                     (7 # 10) 1500 st with
             | (Raised _, st') => fails_at st' (analyze_political_text text st)
             | (Returned _, st') =>
                 snd (analyze_political_text text st) = st'
                 /\ (reports_error (fst (analyze_political_text text st))
                     \/ dict_mem (lit "error")
                                 (fst (analyze_political_text text st)) = false)
             end)
      /\ error_means_failure (fst (analyze_political_text text st)))
  /\ (forall analysis_data,
         (forall e, dict_get (lit "error") analysis_data = Some e ->
                    generate_narrative analysis_data st
                    = ([(lit "error", e); (lit "status", VStr (lit "error"))],
                       st))
         /\ (dict_get (lit "error") analysis_data = None ->
             match _make_openai_request
                     (narrative_messages
                        (get_narrative_generation_prompt analysis_data))
                     (8 # 10) 800 st with
             | (Raised _, st') =>
                 fails_at st' (generate_narrative analysis_data st)
             | (Returned response, st') =>
                 if (len (strip response) <? 50)%Z
                 then fails_at st' (generate_narrative analysis_data st)
                 else generate_narrative analysis_data st
                      = ([ (lit "narrative", VStr response);
                           (lit "status", VStr (lit "success")) ], st')
             end)
         /\ error_means_failure (fst (generate_narrative analysis_data st)))
  /\ (forall context issue,
         (forall e,
             clean_text context = Raised e \/ clean_text issue = Raised e ->
             fails_at st (generate_policy_recommendations context issue st))
         /\ (forall cleaned_context cleaned_issue,
                clean_text context = Returned cleaned_context ->
                clean_text issue = Returned cleaned_issue ->
                match _make_openai_request
                        (policy_messages
                           (get_policy_recommendation_prompt cleaned_context
                                                             cleaned_issue))
                        (7 # 10) 1200 st with
                | (Raised _, st') =>
                    fails_at st'
                             (generate_policy_recommendations context issue st)
                | (Returned response, st') =>
                    snd (generate_policy_recommendations context issue st)
                    = st'
                    /\ (reports_error
                          (fst (generate_policy_recommendations context issue
                                                                st))
                        \/ (dict_get (lit "status")
                              (fst (generate_policy_recommendations context
                                                                    issue st))
                            = Some (VStr (lit "success"))
                            /\ (dict_mem (lit "error")
                                  (fst (generate_policy_recommendations
                                          context issue st)) = true ->
                                exists parsed,
                                  json_loads response = Some (VDict parsed)
                                  /\ dict_mem (lit "error") parsed = true)))
                end))
  /\ (forall question context,
         (forall e, clean_text question = Raised e ->
                    fails_at st (chat_response question context st))
         /\ (forall cleaned,
                clean_text question = Returned cleaned ->
                match _make_openai_request
                        (chat_messages json_dumps cleaned context)
                        (7 # 10) 1000 st with
                | (Raised _, st') =>
                    fails_at st' (chat_response question context st)
                | (Returned response, st') =>
                    if (len (strip response) <? 10)%Z
                    then fails_at st' (chat_response question context st)
                    else chat_response question context st
                         = ([ (lit "response", VStr response);
                              (lit "status", VStr (lit "success")) ], st')
                end)
         /\ error_means_failure (fst (chat_response question context st))).
Proof.
  split; [|split; [|split]].
  - intros text.
    destruct (analysis_cases text st) as [Hrefused Hasked].
    split; [exact Hrefused|]. split; [exact Hasked|].
    destruct (clean_text text) as [cleaned|e] eqn:Hc.
    + specialize (Hasked cleaned eq_refl).
      destruct (_make_openai_request
                  (analysis_messages (get_political_analysis_prompt cleaned))
                  (7 # 10) 1500 st) as [[response|e] st'].
      * destruct Hasked as [_ [H | H]].
        -- apply reports_error_means_failure. exact H.
        -- intros Hmem. congruence.
      * apply reports_error_means_failure. apply Hasked.
    + apply reports_error_means_failure. apply (Hrefused e eq_refl).
  - intros analysis_data.
    assert (Herr : forall e,
               dict_get (lit "error") analysis_data = Some e ->
               generate_narrative analysis_data st
               = ([(lit "error", e); (lit "status", VStr (lit "error"))], st)).
    { intros e He. unfold Reasoner.generate_narrative, try_except,
        Reasoner.generate_narrative_try.
      rewrite He. reflexivity. }
    split; [exact Herr|]. split; [apply narrative_cases|].
    destruct (dict_get (lit "error") analysis_data) as [e|] eqn:He.
    + rewrite (Herr e eq_refl). intros _. reflexivity.
    + pose proof (narrative_cases analysis_data st He) as H.
      destruct (_make_openai_request
                  (narrative_messages
                     (get_narrative_generation_prompt analysis_data))
                  (8 # 10) 800 st) as [[response|e] st'].
      * destruct (len (strip response) <? 50)%Z.
        -- apply reports_error_means_failure. apply H.
        -- rewrite H. intros Hmem. discriminate Hmem.
      * apply reports_error_means_failure. apply H.
  - intros context issue. apply policy_cases.
  - intros question context.
    destruct (chat_cases question context st) as [Hrefused Hasked].
    split; [exact Hrefused|]. split; [exact Hasked|].
    destruct (clean_text question) as [cleaned|e] eqn:Hc.
    + specialize (Hasked cleaned eq_refl).
      destruct (_make_openai_request
                  (chat_messages json_dumps cleaned context)
                  (7 # 10) 1000 st) as [[response|e] st'].
      * destruct (len (strip response) <? 10)%Z.
        -- apply reports_error_means_failure. apply Hasked.
        -- rewrite Hasked. intros Hmem. discriminate Hmem.
      * apply reports_error_means_failure. apply Hasked.
    + apply reports_error_means_failure. apply (Hrefused e eq_refl).
Qed.

End Operations.

(** While the service is down the analysis reports the time-out after three
    attempts; a narrative of a few words is reported as a failure. *)
Lemma operations_never_raise_witness :
  (reports_error (fst analysis_while_down)
   /\ dict_get (lit "error") (fst analysis_while_down)
      = Some (VStr (fst timeout_info))
   /\ calls (trace (snd analysis_while_down)) = 3%nat)
  /\ reports_error (fst terse_narrative).
Proof.
  pose proof (operations_never_raise unit service_down steady_random
                (fun _ w => w) (fun _ => 0%Q) (fun _ => None)
                (fun _ => []) (fun text => text) (fun _ => [])
                (fun _ _ => []) (fun _ => false) (fun l => l) start)
    as [Hdown _].
  pose proof (operations_never_raise unit terse_service steady_random
                (fun _ w => w) (fun _ => 0%Q) (fun _ => None)
                (fun _ => []) (fun text => text) (fun _ => [])
                (fun _ _ => []) (fun _ => false) (fun l => l) start)
    as [_ [Hterse _]].
  split; [split; [|split; reflexivity]|].
  - destruct (Hdown (lit "Harga beras naik menjelang pemilu")) as [_ [H _]].
    specialize (H (lit "Harga beras naik menjelang pemilu") eq_refl).
    destruct (Reasoner._make_openai_request unit service_down steady_random
                (fun _ w => w)
                (analysis_messages (lit "Harga beras naik menjelang pemilu"))
                (7 # 10) 1500 start) as [[response|e] st'] eqn:Hreq.
    + vm_compute in Hreq. discriminate Hreq.
    + destruct H as [H _]. exact H.
  - destruct (Hterse [(lit "topics", VList [VStr (lit "ekonomi")])])
      as [_ [H _]].
    specialize (H eq_refl).
    destruct (Reasoner._make_openai_request unit terse_service steady_random
                (fun _ w => w) (narrative_messages []) (8 # 10) 800 start)
      as [[response|e] st'] eqn:Hreq.
    + vm_compute in Hreq. injection Hreq as <- <-.
      destruct H as [H _]. exact H.
    + destruct H as [H _]. exact H.
Defined.

(** C9, as stated, fails for the recommendations: when the model answers
    with a JSON object that has an [error] key, the operation returns that
    object with [status] set to [success].  The policy handler takes the
    answer for a failure, as it has an [error] key, and responds 500; the
    dictionary does not have [status] equal to [error]. *)
Lemma policy_error_counterexample :
  dict_get (lit "error") (fst refused_recommendations)
  = Some (VStr (lit "Konteks tidak memadai"))
  /\ dict_get (lit "status") (fst refused_recommendations)
     = Some (VStr (lit "success"))
  /\ dict_get (lit "status") (fst refused_recommendations)
     <> Some (VStr (lit "error"))
  /\ fst (Handlers.policy (run unit) refused_reasoner policy_request
                          (fresh start))
     = Handlers.failed (VStr (lit "Konteks tidak memadai")).
Proof.
  split; [vm_compute; reflexivity|]. split; [vm_compute; reflexivity|].
  split; [vm_compute; discriminate|]. vm_compute. reflexivity.
Qed.

End Totality.

(* ================================================================== *)
(** * Part IV: further properties of the code *)
(* ================================================================== *)

(** ** Responses and input data *)

Module Validation.

Import Utils PyFacts.

(** The cases in which nothing is returned and the error is classified. *)
Ltac refuse :=
  split;
  [ split; [discriminate | intros [H _]; discriminate]
  | intros e H; inversion H; unfold UserFriendlyError; eauto ].

(** X1: [validate_openai_response] returns a text exactly when the first
    choice of the response has a message whose content is that text and the
    text is not blank; the text comes back as it is, not stripped.  In every
    other case it raises a [UserFriendlyError], never another exception. *)
Theorem validate_openai_response_returns
    (response : option completion) (text : str) :
  (validate_openai_response response = Returned text
   <-> first_content response = Some text /\ strip text <> [])
  /\ (forall e, validate_openai_response response = Raised e ->
                exists user_message technical_message,
                  e = UserFriendly user_message technical_message).
Proof.
  unfold validate_openai_response, first_content.
  destruct response as [r|]; [|refuse].
  destruct r as [chs]. cbn [choices].
  destruct chs as [l|]; [|refuse].
  destruct l as [|ch cs]; [refuse|].
  destruct ch as [m]. cbn [message].
  destruct m as [m|]; [|refuse].
  destruct m as [co]. cbn [content].
  destruct co as [t|]; [|refuse].
  destruct t as [|c0 c].
  { split.
    - split; [discriminate|]. intros [H Hne]. inversion H; subst.
      exfalso. apply Hne. reflexivity.
    - intros e H. inversion H. unfold UserFriendlyError. eauto. }
  destruct (strip (c0 :: c)) eqn:Es.
  - split.
    + split; [discriminate|]. intros [H Hne]. inversion H; subst.
      rewrite Es in Hne. congruence.
    + intros e H. inversion H. unfold UserFriendlyError. eauto.
  - split.
    + split.
      * intros H. inversion H; subst. split; [reflexivity|].
        rewrite Es. discriminate.
      * intros [H _]. inversion H. reflexivity.
    + intros e H. discriminate.
Qed.

Lemma is_missing_filled (data : dict) (field : str) :
  is_missing data field = false <-> filled data field.
Proof.
  unfold is_missing, filled. destruct (dict_get field data) as [v|].
  - split.
    + intros H. exists v. split; [reflexivity|].
      destruct (truthy v); [reflexivity | discriminate].
    + intros [v' [H Ht]]. inversion H; subst. rewrite Ht. reflexivity.
  - split; [discriminate | intros [v [H _]]; discriminate].
Qed.

(** X2: [validate_input_data] returns [True] exactly when the data are not
    empty and every required field is present with a true value; it never
    returns [False], and what it raises is a [UserFriendlyError]. *)
Theorem validate_input_data_accepts (data : dict) (required_fields : list str) :
  (validate_input_data data required_fields = Returned true
   <-> data <> [] /\ forall field, In field required_fields -> filled data field)
  /\ validate_input_data data required_fields <> Returned false
  /\ (forall e, validate_input_data data required_fields = Raised e ->
                exists user_message technical_message,
                  e = UserFriendly user_message technical_message).
Proof.
  unfold validate_input_data.
  destruct data as [|kv data'].
  - split; [|split].
    + split; [discriminate | intros [H _]; congruence].
    + discriminate.
    + intros e H. inversion H. unfold UserFriendlyError. eauto.
  - set (data := kv :: data').
    destruct (filter (is_missing data) required_fields) as [|f fs] eqn:Ef.
    + split; [|split].
      * split; [|reflexivity]. intros _. split; [discriminate|].
        intros field Hin. apply is_missing_filled.
        destruct (is_missing data field) eqn:Em; [|reflexivity].
        assert (Hf : In field (filter (is_missing data) required_fields))
          by (apply filter_In; auto).
        rewrite Ef in Hf. destruct Hf.
      * discriminate.
      * discriminate.
    + split; [|split].
      * split; [discriminate|]. intros [_ H].
        assert (Hf : In f (filter (is_missing data) required_fields))
          by (rewrite Ef; left; reflexivity).
        apply filter_In in Hf. destruct Hf as [Hin Hm].
        apply H in Hin. apply is_missing_filled in Hin. congruence.
      * discriminate.
      * intros e H. inversion H. unfold UserFriendlyError. eauto.
Qed.

End Validation.

(** ** Transient errors *)

Module Transient.

Import Utils PyFacts Classifier.

Lemma contains_trans (p q s : str) :
  contains p q = true -> contains q s = true -> contains p s = true.
Proof.
  rewrite !contains_spec. intros [u [v ->]] [u' [v' ->]].
  exists (u' ++ u), (v ++ v'). rewrite <- !app_assoc. reflexivity.
Qed.

Lemma retryable_of (err error_msg : str) :
  In err retryable_errors -> contains err error_msg = true ->
  is_retryable error_msg = true.
Proof.
  intros Hin Hc. unfold is_retryable. apply existsb_exists. eauto.
Qed.

(** The answer of the classifier together with what it found. *)
Lemma parse_openai_error_cases (error_str : str) :
  (exists pattern info,
      In (pattern, info) error_patterns
      /\ contains pattern (lower error_str) = true
      /\ parse_openai_error error_str = info)
  \/ (contains (lit "429") error_str = true
      /\ parse_openai_error error_str = rate_limit_info)
  \/ ((contains (lit "500") error_str || contains (lit "502") error_str
       || contains (lit "503") error_str) = true
      /\ parse_openai_error error_str = server_error_info)
  \/ parse_openai_error error_str = invalid_api_key_info
  \/ parse_openai_error error_str = fallback_info.
Proof.
  unfold parse_openai_error.
  assert (Hscan : forall table,
             (exists pattern info,
                 In (pattern, info) table
                 /\ contains pattern (lower error_str) = true
                 /\ scan_patterns (lower error_str) table = Some info)
             \/ scan_patterns (lower error_str) table = None).
  { induction table as [|[p i] table IH]; [right; reflexivity|].
    cbn [scan_patterns]. destruct (contains p (lower error_str)) eqn:E.
    - left. exists p, i. repeat split; [left; reflexivity | exact E].
    - cbn [orb]. destruct IH as [[p' [i' [Hin [Hc Hs]]]] | Hn].
      + left. exists p', i'. repeat split; [right; exact Hin | exact Hc | exact Hs].
      + right. exact Hn. }
  destruct (Hscan error_patterns) as [[p [i [Hin [Hc Hs]]]] | Hn].
  - left. exists p, i. rewrite Hs. auto.
  - rewrite Hn. right.
    destruct (contains (lit "429") error_str) eqn:E1; [left; auto|].
    right.
    destruct (contains (lit "500") error_str || contains (lit "502") error_str
              || contains (lit "503") error_str) eqn:E2; [left; auto|].
    right.
    destruct (contains (lit "401") error_str || contains (lit "403") error_str);
      auto.
Qed.

(** X3: whenever the classifier answers with the quota, rate-limit,
    server-error or timeout message, the retry wrapper's check finds the
    error retryable: these four classes are always retried, the quota
    errors included. *)
Theorem transient_classes_are_retried (error_str : str) :
  In (parse_openai_error error_str) transient_infos ->
  is_retryable (lower error_str) = true.
Proof.
  intros Hin.
  destruct (parse_openai_error_cases error_str)
    as [[p [i [Htab [Hc Hp]]]] | [[Hc Hp] | [[Hc Hp] | [Hp | Hp]]]].
  - rewrite Hp in Hin. unfold error_patterns in Htab. cbn [In] in Htab.
    destruct Htab as [E|[E|[E|[E|[E|[E|[E|[E|[]]]]]]]]];
      injection E as <- <-.
    + apply (retryable_of (lit "quota")); [simpl; tauto|].
      eapply contains_trans; [|exact Hc]. reflexivity.
    + apply (retryable_of (lit "rate_limit")); [simpl; tauto | exact Hc].
    + exfalso. vm_compute in Hin. intuition discriminate.
    + exfalso. vm_compute in Hin. intuition discriminate.
    + exfalso. vm_compute in Hin. intuition discriminate.
    + apply (retryable_of (lit "server_error")); [simpl; tauto | exact Hc].
    + apply (retryable_of (lit "timeout")); [simpl; tauto | exact Hc].
    + exfalso. vm_compute in Hin. intuition discriminate.
  - apply (retryable_of (lit "429")); [simpl; tauto|].
    apply contains_lower; [reflexivity | exact Hc].
  - apply orb_true_iff in Hc. destruct Hc as [Hc | Hc];
      [apply orb_true_iff in Hc; destruct Hc as [Hc | Hc]|].
    + apply (retryable_of (lit "500")); [simpl; tauto|].
      apply contains_lower; [reflexivity | exact Hc].
    + apply (retryable_of (lit "502")); [simpl; tauto|].
      apply contains_lower; [reflexivity | exact Hc].
    + apply (retryable_of (lit "503")); [simpl; tauto|].
      apply contains_lower; [reflexivity | exact Hc].
  - exfalso. rewrite Hp in Hin. vm_compute in Hin. intuition discriminate.
  - exfalso. rewrite Hp in Hin. vm_compute in Hin. intuition discriminate.
Qed.

Lemma transient_classes_are_retried_witness :
  is_retryable (lower quota_error) = true.
Proof.
  apply transient_classes_are_retried. left. reflexivity.
Defined.

End Transient.

(** ** More on the retry wrapper *)

Module Attempts.

Import Utils PyFacts Retry.

Section Wrapper.

Variables W A : Type.
Variable func : W -> outcome A * W.
Variable random : W -> Q * W.
Variable sleep : Q -> W -> W.
Variable max_retries : Z.
Variable initial_delay : Q.
Variable exponential_base : Q.
Variable jitter : bool.

Local Abbreviation attempts :=
  (attempts W A func random sleep max_retries exponential_base jitter).
Local Abbreviation result :=
  (result W A func random sleep max_retries initial_delay exponential_base
          jitter).

(** X4: an error that is not retryable ends the run at once: when the
    first invocation raises such an error, the function has been invoked
    once, nothing has been slept, and the error raised carries the
    classifier's message for it and its text as the technical message. *)
Theorem non_retryable_raised_at_once (w w1 : W) (e : exn) :
  (1 <= max_retries)%Z ->
  func w = (Raised e, w1) ->
  is_retryable (lower (str_of_exn e)) = false ->
  result w
  = (Raised (UserFriendlyError (fst (parse_openai_error (str_of_exn e)))
                               (str_of_exn e)),
     {| world := w1; trace := [Called] |}).
Proof.
  intros Hm Hf Hr. unfold Vocabulary.result, wrapper.
  replace (Z.to_nat max_retries) with (S (Z.to_nat (max_retries - 1))) by lia.
  cbn [Utils.attempts world trace]. rewrite Hf, Hr.
  destruct (parse_openai_error (str_of_exn e)). reflexivity.
Qed.

(** Whatever the function does, the loop with [S n] turns left records a
    call and a sleep per retry and then one call; what it returns is what
    the function returned at that last call. *)
Lemma attempts_script (n : nat) :
  forall attempt delay last_exception st r st',
    Z.of_nat (S n) = (max_retries - attempt)%Z ->
    attempts (S n) attempt delay last_exception st = (r, st') ->
    exists ss,
      trace st' = rev (script ss) ++ trace st
      /\ (List.length ss <= n)%nat
      /\ (forall a, r = Returned a ->
                    exists w0, func w0 = (Returned a, world st')).
Proof.
  induction n as [|n IH]; intros attempt delay last_exception st r st' Hn Hrun.
  - cbn [Utils.attempts] in Hrun.
    destruct (func (world st)) as [[a|e] w1] eqn:Hf.
    + inversion Hrun; subst. exists []. repeat split; auto.
      intros a0 Ha. inversion Ha; subst. exists (world st). exact Hf.
    + replace (attempt <? max_retries - 1)%Z with false in Hrun
        by (symmetry; apply Z.ltb_ge; lia).
      rewrite andb_false_r in Hrun.
      destruct (parse_openai_error (str_of_exn e)).
      inversion Hrun; subst. exists []. repeat split; auto.
      intros a Ha. discriminate.
  - remember (S n) as m eqn:Em. cbn [Utils.attempts] in Hrun.
    destruct (func (world st)) as [[a|e] w1] eqn:Hf.
    + inversion Hrun; subst. exists []. repeat split; [simpl; lia|].
      intros a0 Ha. inversion Ha; subst. exists (world st). exact Hf.
    + destruct (parse_openai_error (str_of_exn e)) as [user_msg suggestion].
      destruct (is_retryable (lower (str_of_exn e))
                && (attempt <? max_retries - 1)%Z).
      * subst m.
        assert (Hn' : Z.of_nat (S n) = (max_retries - (attempt + 1))%Z) by lia.
        destruct jitter.
        -- destruct (uniform W random 0 (delay * (1 # 10)) w1) as [j w2].
           destruct (IH _ _ _ _ _ _ Hn' Hrun) as [ss [Ht [Hl Hret]]].
           exists ((delay + j)%Q :: ss). cbn [trace] in Ht.
           repeat split; [|simpl; lia|exact Hret].
           rewrite Ht. unfold script. cbn [flat_map app rev].
           rewrite <- !app_assoc. reflexivity.
        -- destruct (IH _ _ _ _ _ _ Hn' Hrun) as [ss [Ht [Hl Hret]]].
           exists (delay :: ss). cbn [trace] in Ht.
           repeat split; [|simpl; lia|exact Hret].
           rewrite Ht. unfold script. cbn [flat_map app rev].
           rewrite <- !app_assoc. reflexivity.
      * inversion Hrun; subst. exists []. repeat split; [simpl; lia|].
        intros a Ha. discriminate.
Qed.

(** X5: with at least one attempt allowed and whatever the wrapped function
    does, the wrapper sleeps only between two invocations: the sleeps are
    one fewer than the invocations, at most [max_retries - 1], and no sleep
    follows the last invocation.  A result the wrapper returns is the
    result the function returned at its last invocation. *)
Theorem sleeps_between_calls (w : W) :
  (1 <= max_retries)%Z ->
  (exists ss,
      rev (trace (snd (result w))) = script ss
      /\ (Z.of_nat (List.length ss) <= max_retries - 1)%Z)
  /\ S (List.length (sleeps (trace (snd (result w)))))
     = calls (trace (snd (result w)))
  /\ (forall a, fst (result w) = Returned a ->
                exists w0, func w0 = (Returned a, world (snd (result w)))).
Proof.
  intros Hm. unfold Vocabulary.result, wrapper.
  replace (Z.to_nat max_retries) with (S (Z.to_nat (max_retries - 1))) by lia.
  destruct (attempts (S (Z.to_nat (max_retries - 1))) 0%Z initial_delay None
                     {| world := w; trace := [] |}) as [r st'] eqn:Hrun.
  assert (Hn : Z.of_nat (S (Z.to_nat (max_retries - 1)))
               = (max_retries - 0)%Z) by lia.
  destruct (attempts_script _ _ _ _ _ _ _ Hn Hrun) as [ss [Ht [Hl Hret]]].
  cbn [trace] in Ht. rewrite app_nil_r in Ht. cbn [fst snd].
  split; [|split].
  - exists ss. rewrite Ht, rev_involutive. split; [reflexivity | lia].
  - rewrite Ht, calls_rev, calls_script.
    rewrite <- (app_nil_r (rev (script ss))), sleeps_script. reflexivity.
  - exact Hret.
Qed.

(** X6: when [max_retries] is zero or negative the loop has no turn: the
    function is not invoked at all, and the wrapper raises the general
    message with the number of attempts appended and [None] as the
    technical message. *)
Theorem no_attempt_allowed (w : W) :
  (max_retries <= 0)%Z ->
  result w
  = (Raised (UserFriendly
               (fst fallback_info ++ lit " Sudah dicoba "
                    ++ str_of_Z max_retries ++ lit " kali.")
               (lit "None")),
     {| world := w; trace := [] |}).
Proof.
  intros Hm. unfold Vocabulary.result, wrapper.
  replace (Z.to_nat max_retries) with 0%nat by lia. reflexivity.
Qed.

End Wrapper.

Lemma non_retryable_raised_at_once_witness :
  result nat str bad_key uneven_random no_effect 3 1 2 true 0%nat
  = (Raised (UserFriendly (fst invalid_api_key_info)
               (lit "Incorrect API key provided: invalid_api_key")),
     {| world := 1%nat; trace := [Called] |}).
Proof.
  apply (non_retryable_raised_at_once nat str bad_key uneven_random no_effect
           3 1 2 true 0%nat 1%nat
           (OtherException (lit "Incorrect API key provided: invalid_api_key")));
    [lia | reflexivity | reflexivity].
Defined.

Lemma sleeps_between_calls_witness :
  S (List.length (sleeps (trace (snd jittered_run))))
  = calls (trace (snd jittered_run)).
Proof.
  apply (sleeps_between_calls nat str rate_limited uneven_random no_effect
           3 1 2 true 0%nat).
  lia.
Defined.

Lemma no_attempt_allowed_witness :
  fst (result nat str rate_limited uneven_random no_effect 0 1 2 true 0%nat)
  = Raised (UserFriendly
              (fst fallback_info ++ lit " Sudah dicoba 0 kali.") (lit "None")).
Proof.
  rewrite (no_attempt_allowed nat str rate_limited uneven_random no_effect
             0 1 2 true 0%nat); [reflexivity | lia].
Defined.

End Attempts.

(** ** The cleaned text *)

Module Normalised.

Import Utils PyFacts Cleaning.

Lemma rev_no_space (w : str) : no_space (rev w) = no_space w.
Proof.
  unfold no_space. induction w as [|c w IH]; [reflexivity|].
  simpl. rewrite forallb_app, IH. simpl.
  destruct (isspace c); simpl; [apply andb_false_r | apply andb_true_r].
Qed.

Lemma rev_cons_not_nil (x : char) (w : str) : rev (x :: w) <> [].
Proof.
  intros E. apply (f_equal (@List.length char)) in E.
  rewrite length_rev in E. discriminate.
Qed.

(** [split] yields words. *)
Lemma split_from_solid (s w : str) :
  no_space w = true -> Forall solid (split_from w s).
Proof.
  revert w; induction s as [|c s IH]; intros w Hw.
  - destruct w as [|x w]; cbn [split_from]; [constructor|].
    constructor; [|constructor]. split.
    + apply rev_cons_not_nil.
    + rewrite rev_no_space. exact Hw.
  - cbn [split_from]. destruct (isspace c) eqn:Hc.
    + destruct w as [|x w]; [apply IH; reflexivity|].
      constructor; [|apply IH; reflexivity]. split.
      * apply rev_cons_not_nil.
      * rewrite rev_no_space. exact Hw.
    + apply IH. simpl. rewrite Hc. exact Hw.
Qed.

(** Reading a word moves it to the run in progress. *)
Lemma split_from_word (w acc rest : str) :
  no_space w = true ->
  split_from acc (w ++ rest) = split_from (rev w ++ acc) rest.
Proof.
  revert acc; induction w as [|c w IH]; intros acc Hw; [reflexivity|].
  simpl in Hw. apply andb_true_iff in Hw. destruct Hw as [Hc Hw].
  simpl. destruct (isspace c); [discriminate|].
  rewrite IH by exact Hw. rewrite <- app_assoc. reflexivity.
Qed.

(** Splitting words joined by single spaces gives the words back. *)
Lemma split_join (ws : list str) :
  Forall solid ws -> split (join (lit " ") ws) = ws.
Proof.
  unfold split. induction ws as [|x ws IH]; intros H; [reflexivity|].
  inversion H as [|? ? [Hne Hns] Hrest]; subst.
  destruct ws as [|y ws].
  - simpl join. rewrite <- (app_nil_r x) at 1.
    rewrite split_from_word by exact Hns. rewrite app_nil_r.
    destruct (rev x) as [|c r] eqn:E.
    + apply (f_equal (@rev char)) in E. rewrite rev_involutive in E.
      simpl in E. congruence.
    + cbn [split_from]. rewrite <- E, rev_involutive. reflexivity.
  - change (join (lit " ") (x :: y :: ws))
      with (x ++ lit " " ++ join (lit " ") (y :: ws)).
    rewrite split_from_word by exact Hns. rewrite app_nil_r.
    destruct (rev x) as [|c r] eqn:E.
    + apply (f_equal (@rev char)) in E. rewrite rev_involutive in E.
      simpl in E. congruence.
    + change (lit " " ++ join (lit " ") (y :: ws))
        with (0x20%N :: join (lit " ") (y :: ws)).
      cbn [split_from]. change (isspace 0x20) with true. cbv iota.
      rewrite <- E, rev_involutive. f_equal. apply IH. exact Hrest.
Qed.

(** Collapsing white space a second time changes nothing. *)
Lemma collapse_idempotent (text : str) : collapse (collapse text) = collapse text.
Proof.
  unfold collapse. rewrite split_join; [reflexivity|].
  apply split_from_solid. reflexivity.
Qed.

(** Joined words end with a code point that is not white space. *)
Lemma join_last (ws : list str) :
  Forall solid ws -> ws <> [] ->
  exists pre d, join (lit " ") ws = pre ++ [d] /\ isspace d = false.
Proof.
  induction ws as [|x ws IH]; intros H Hne; [congruence|].
  inversion H as [|? ? [Hx Hns] Hrest]; subst.
  destruct ws as [|y ws].
  - simpl. destruct (rev x) as [|d r] eqn:E.
    + apply (f_equal (@rev char)) in E. rewrite rev_involutive in E.
      simpl in E. congruence.
    + exists (rev r), d. split.
      * rewrite <- (rev_involutive x), E. reflexivity.
      * unfold no_space in Hns. rewrite forallb_forall in Hns.
        assert (Hin : In d x) by (apply in_rev; rewrite E; left; reflexivity).
        apply Hns in Hin. destruct (isspace d); [discriminate | reflexivity].
  - destruct (IH Hrest ltac:(discriminate)) as [pre [d [Hj Hd]]].
    exists (x ++ lit " " ++ pre), d. split; [|exact Hd].
    change (join (lit " ") (x :: y :: ws))
      with (x ++ lit " " ++ join (lit " ") (y :: ws)).
    rewrite Hj, <- !app_assoc. reflexivity.
Qed.

(** A collapsed text has no white space at its ends. *)
Lemma strip_collapse (text : str) : strip (collapse text) = collapse text.
Proof.
  pose proof (split_from_solid text [] eq_refl) as Hs.
  fold (split text) in Hs.
  destruct (collapse text) as [|c rest] eqn:E; [reflexivity|].
  assert (Hc : isspace c = false) by (eapply collapse_head; exact E).
  assert (Hne : split text <> []).
  { intros Hn. unfold collapse in E. rewrite Hn in E. discriminate. }
  destruct (join_last (split text) Hs Hne) as [pre [d [Hj Hd]]].
  fold (collapse text) in Hj. rewrite E in Hj.
  unfold strip. rewrite lstrip_no_space by exact Hc.
  rewrite Hj, rev_app_distr. change (rev [d]) with [d]. cbn [app].
  rewrite lstrip_no_space by exact Hd.
  change (d :: rev pre) with ([d] ++ rev pre).
  rewrite rev_app_distr, rev_involutive. reflexivity.
Qed.

(** X7: [clean_text] refuses a text exactly when its collapsed form (runs
    of white space replaced by one space, none at the ends) has fewer than
    10 code points: such a text raises a [UserFriendlyError], and no other
    text raises.  A collapsed form of 10 to 10000 code points is returned
    as it is, a longer one is cut to its first 10000 code points, followed
    by three full stops.  Every text returned has between 10 and 10003 code
    points and no white space at its ends, and cleaning a returned text of
    at most 10000 code points again returns it unchanged. *)
Theorem clean_text_normalises (text : str) :
  ((len (collapse text) < 10)%Z ->
   exists user_message technical_message,
     clean_text text = Raised (UserFriendly user_message technical_message))
  /\ ((10 <= len (collapse text) <= 10000)%Z ->
      clean_text text = Returned (collapse text))
  /\ (forall t, clean_text text = Returned t ->
                (10 <= len t <= 10003)%Z
                /\ strip t = t
                /\ ((len t <= 10000)%Z -> clean_text t = Returned t))
  /\ ((10000 < len (collapse text))%Z ->
      clean_text text = Returned (prefix 10000 (collapse text) ++ lit "..."))
  /\ (forall e, clean_text text = Raised e -> (len (collapse text) < 10)%Z).
Proof.
  assert (Hmid : forall s, (10 <= len (collapse s) <= 10000)%Z ->
                           clean_text s = Returned (collapse s)).
  { intros s Hlen. unfold clean_text. fold (collapse s).
    destruct s as [|c0 s0] eqn:Es.
    - exfalso. unfold len, collapse in Hlen. simpl in Hlen. lia.
    - rewrite <- Es in *.
      replace (len (collapse s) <? 10)%Z with false
        by (symmetry; apply Z.ltb_ge; lia).
      replace (len (collapse s) >? 10000)%Z with false
        by (rewrite Z.gtb_ltb; symmetry; apply Z.ltb_ge; lia).
      rewrite strip_collapse. reflexivity. }
  split; [|split; [|split; [|split]]].
  - intros Hlen. unfold clean_text. fold (collapse text).
    destruct text as [|c0 s0] eqn:Es.
    + unfold UserFriendlyError. eauto.
    + rewrite <- Es in *.
      replace (len (collapse text) <? 10)%Z with true
        by (symmetry; apply Z.ltb_lt; lia).
      unfold UserFriendlyError. eauto.
  - apply Hmid.
  - intros t Ht.
    destruct (Z_lt_dec (len (collapse text)) 10) as [Hlt|Hge].
    + exfalso. unfold clean_text in Ht. fold (collapse text) in Ht.
      destruct text as [|c0 s0] eqn:Es; [discriminate|].
      rewrite <- Es in *.
      replace (len (collapse text) <? 10)%Z with true in Ht
        by (symmetry; apply Z.ltb_lt; lia).
      discriminate.
    + destruct (Z_le_dec (len (collapse text)) 10000) as [Hle|Hgt].
      * rewrite Hmid in Ht by lia. inversion Ht; subst.
        split; [lia|]. split; [apply strip_collapse|].
        intros _. rewrite <- (collapse_idempotent text) at 2.
        apply Hmid. rewrite collapse_idempotent. lia.
      * rewrite clean_text_truncates in Ht by lia. inversion Ht; subst.
        assert (Hlen : len (prefix 10000 (collapse text) ++ lit "...")
                       = 10003%Z).
        { unfold len, prefix in *. rewrite length_app, length_firstn.
          simpl List.length. lia. }
        split; [lia|]. split; [|lia].
        pose proof (clean_text_truncates text ltac:(lia)) as Hrun.
        unfold clean_text in Hrun. fold (collapse text) in Hrun.
        destruct text as [|c0 s0] eqn:Es; [discriminate|].
        rewrite <- Es in *.
        replace (len (collapse text) <? 10)%Z with false in Hrun
          by (symmetry; apply Z.ltb_ge; lia).
        replace (len (collapse text) >? 10000)%Z with true in Hrun
          by (symmetry; apply Z.gtb_lt; lia).
        inversion Hrun as [Hstrip]. rewrite Hstrip. exact Hstrip.
  - intros Hlen. apply clean_text_truncates. lia.
  - intros e He.
    destruct (Z_lt_dec (len (collapse text)) 10) as [Hlt|Hge]; [exact Hlt|].
    exfalso.
    destruct (Z_le_dec (len (collapse text)) 10000) as [Hle|Hgt].
    + rewrite Hmid in He by lia. discriminate.
    + rewrite clean_text_truncates in He by lia. discriminate.
Qed.

Lemma clean_text_normalises_witness :
  clean_text spaced_text = Returned (lit "Harga beras naik menjelang pemilu")
  /\ clean_text (lit "Harga beras naik menjelang pemilu")
     = Returned (lit "Harga beras naik menjelang pemilu").
Proof.
  assert (H : clean_text spaced_text
              = Returned (lit "Harga beras naik menjelang pemilu")).
  { apply (proj1 (proj2 (clean_text_normalises spaced_text))).
    vm_compute. split; discriminate. }
  split; [exact H|].
  apply (proj1 (proj2 (proj2 (clean_text_normalises spaced_text))) _ H).
  vm_compute. discriminate.
Defined.

End Normalised.

(** ** Issues and entities *)

Module Extraction.

Import Utils Reasoner PyFacts.

Lemma lstrip_incl (s : str) (c : char) : In c (lstrip s) -> In c s.
Proof.
  induction s as [|x s IH]; simpl; [tauto|].
  destruct (isspace x); simpl; auto.
Qed.

(** A stripped text holds only code points of the text. *)
Lemma strip_incl (s : str) (c : char) : In c (strip s) -> In c s.
Proof.
  unfold strip. intros H. apply in_rev in H. apply lstrip_incl in H.
  apply in_rev in H. apply lstrip_incl in H. exact H.
Qed.

(** No piece of a text split at a separator holds the separator. *)
Lemma split_on_from_pieces (sep : char) (s w : str) :
  ~ In sep w -> Forall (fun piece => ~ In sep piece) (split_on_from sep w s).
Proof.
  revert w; induction s as [|c s IH]; intros w Hw; simpl.
  - constructor; [|constructor]. intros H. apply in_rev in H. auto.
  - destruct (N.eqb c sep) eqn:E.
    + constructor; [|apply IH; simpl; tauto].
      intros H. apply in_rev in H. auto.
    + apply IH. simpl. intros [H | H]; [|auto].
      subst. rewrite N.eqb_refl in E. discriminate.
Qed.

Lemma firstn_In {A : Type} (n : nat) (l : list A) (x : A) :
  In x (firstn n l) -> In x l.
Proof.
  revert l; induction n as [|n IH]; intros [|y l]; simpl; try tauto.
  intros [H | H]; auto.
Qed.

(** X8: the issues drawn from a text are at most five; each is longer than
    20 code points, has one of the issue keywords in its lowercased form,
    and holds no full stop. *)
Theorem issues_are_keyword_sentences (text : str) :
  (List.length (_extract_issues_from_text text) <= 5)%nat
  /\ Forall issue_like (_extract_issues_from_text text).
Proof.
  unfold _extract_issues_from_text. split; [apply firstn_le_length|].
  apply Forall_forall. intros x Hx. apply firstn_In in Hx.
  apply filter_In in Hx. destruct Hx as [Hx Hp].
  apply andb_true_iff in Hp. destruct Hp as [Hk Hl].
  apply in_map_iff in Hx. destruct Hx as [piece [<- Hpiece]].
  apply filter_In in Hpiece. destruct Hpiece as [Hpiece _].
  unfold issue_like. split; [apply Z.gtb_lt in Hl; lia|]. split; [exact Hk|].
  intros Hdot. apply strip_incl in Hdot.
  pose proof (split_on_from_pieces 0x2E text [] (fun H => H)) as Hall.
  rewrite Forall_forall in Hall. exact (Hall piece Hpiece Hdot).
Qed.

Section Entities.

Variable isupper : char -> bool.
Variable list_of_set : list str -> list str.

(** What the loop over the words appends. *)
Lemma scan_entities_heads (words : list str) (entity : str) :
  In entity (scan_entities isupper words) ->
  exists word,
    In word words /\ entity_head isupper word
    /\ (entity = word
        \/ exists next, In next words /\ first_isupper isupper next = true
                        /\ entity = word ++ lit " " ++ next).
Proof.
  induction words as [|word rest IH]; [intros []|].
  cbn [scan_entities]. intros H. apply in_app_or in H. destruct H as [H | H].
  - destruct ((len word >? 2)%Z && first_isupper isupper word
              && negb (existsb (str_eqb word) skip_words)) eqn:E;
      [|destruct H].
    apply andb_true_iff in E. destruct E as [E Hskip].
    apply andb_true_iff in E. destruct E as [Hlen Hup].
    assert (Hhead : entity_head isupper word).
    { split; [apply Z.gtb_lt in Hlen; lia|]. split; [exact Hup|].
      intros Hin. apply negb_true_iff in Hskip.
      assert (Hex : existsb (str_eqb word) skip_words = true)
        by (apply existsb_exists; exists word; split;
            [exact Hin | apply str_eqb_refl]).
      congruence. }
    exists word. split; [left; reflexivity|]. split; [exact Hhead|].
    destruct rest as [|next rest'].
    + destruct H as [<- | []]. left. reflexivity.
    + destruct (first_isupper isupper next) eqn:En.
      * destruct H as [<- | []]. right. exists next.
        split; [right; left; reflexivity|]. split; [exact En | reflexivity].
      * destruct H as [<- | []]. left. reflexivity.
  - destruct (IH H) as [w [Hin [Hhead Hshape]]].
    exists w. split; [right; exact Hin|]. split; [exact Hhead|].
    destruct Hshape as [-> | [next [Hn [Hu ->]]]]; [left; reflexivity|].
    right. exists next. split; [right; exact Hn|]. auto.
Qed.

(** X9: when the list made from a set holds only elements of the set, the
    entities drawn from a text are at most ten, and each is a word of the
    text that is longer than two code points, starts with a capital and is
    no stop word, alone or followed by a space and another word of the text
    that starts with a capital. *)
Theorem entities_start_with_names (text : str) :
  (forall l x, In x (list_of_set l) -> In x l) ->
  (List.length (_extract_entities_from_text isupper list_of_set text) <= 10)%nat
  /\ Forall (fun entity =>
               exists word,
                 In word (split text) /\ entity_head isupper word
                 /\ (entity = word
                     \/ exists next,
                         In next (split text)
                         /\ first_isupper isupper next = true
                         /\ entity = word ++ lit " " ++ next))
            (_extract_entities_from_text isupper list_of_set text).
Proof.
  intros Hset. unfold _extract_entities_from_text.
  destruct (scan_entities isupper (split text)) as [|e es] eqn:E.
  - split; [simpl; lia | constructor].
  - split; [apply firstn_le_length|].
    apply Forall_forall. intros x Hx. apply firstn_In in Hx.
    apply Hset in Hx. rewrite <- E in Hx.
    apply scan_entities_heads. exact Hx.
Qed.

End Entities.

Lemma entities_start_with_names_witness :
  _extract_entities_from_text ascii_isupper (fun l => l)
    (lit "Presiden Joko Widodo bertemu menteri di Jakarta")
  = [lit "Presiden Joko"; lit "Joko Widodo"; lit "Widodo"; lit "Jakarta"]
  /\ (List.length
        (_extract_entities_from_text ascii_isupper (fun l => l)
           (lit "Presiden Joko Widodo bertemu menteri di Jakarta")) <= 10)%nat.
Proof.
  split; [reflexivity|].
  apply (entities_start_with_names ascii_isupper (fun l => l)).
  intros l x H. exact H.
Defined.

End Extraction.

(** ** Insights *)

Module Insights.

Import Utils Reasoner PyFacts.

Lemma slice_to_sliced (n : nat) (v : value) :
  slice_to n v = if sliceable v then Returned (sliced n v) else Raised type_error.
Proof. destruct v; reflexivity. Qed.

Section Clock.

Variable W : Type.
Variable clock : W -> Q.

Local Abbreviation extract_key_insights := (extract_key_insights W clock).

(** X10: [extract_key_insights] leaves the run as it is.  An analysis
    with an [error] key gives that error, as it is, with status [error].
    Otherwise it succeeds exactly when topics, entities and key_issues are
    each absent, a list or a string: the insights then hold the first 3
    topics, the first 5 entities and the first 3 issues; when one of them
    is anything else, the answer is the general failure message. *)
Theorem insights_of_analysis (analysis : dict) (st : run W) :
  snd (extract_key_insights analysis st) = st
  /\ (forall e, dict_get (lit "error") analysis = Some e ->
                fst (extract_key_insights analysis st)
                = [(lit "error", e); (lit "status", VStr (lit "error"))])
  /\ (dict_get (lit "error") analysis = None ->
      sliceable (topics_of analysis) && sliceable (entities_of analysis)
      && sliceable (key_issues_of analysis) = true ->
      dict_get (lit "status") (fst (extract_key_insights analysis st))
      = Some (VStr (lit "success"))
      /\ dict_get (lit "error") (fst (extract_key_insights analysis st)) = None
      /\ dict_get (lit "main_topics") (fst (extract_key_insights analysis st))
         = Some (sliced 3 (topics_of analysis))
      /\ dict_get (lit "political_entities")
                  (fst (extract_key_insights analysis st))
         = Some (sliced 5 (entities_of analysis))
      /\ dict_get (lit "critical_issues")
                  (fst (extract_key_insights analysis st))
         = Some (sliced 3 (key_issues_of analysis)))
  /\ (dict_get (lit "error") analysis = None ->
      sliceable (topics_of analysis) && sliceable (entities_of analysis)
      && sliceable (key_issues_of analysis) = false ->
      fst (extract_key_insights analysis st) = insights_failed).
Proof.
  unfold Reasoner.extract_key_insights, try_except, extract_key_insights_try.
  fold (topics_of analysis). fold (entities_of analysis).
  fold (key_issues_of analysis).
  destruct (dict_get (lit "error") analysis) as [e|] eqn:He.
  - repeat split; try discriminate. intros e0 H. inversion H. reflexivity.
  - unfold bind, lift, time_time, ret. rewrite !slice_to_sliced.
    destruct (sliceable (topics_of analysis));
      destruct (sliceable (entities_of analysis));
      destruct (sliceable (key_issues_of analysis)); cbn [andb fst snd];
      repeat split; try discriminate; try reflexivity.
Qed.

End Clock.

Lemma insights_of_analysis_witness :
  fst (Reasoner.extract_key_insights unit (fun _ => 0%Q) odd_analysis
         {| world := tt; trace := [] |})
  = insights_failed.
Proof.
  apply (proj2 (proj2 (proj2 (insights_of_analysis unit (fun _ => 0%Q)
                                odd_analysis {| world := tt; trace := [] |}))));
    reflexivity.
Defined.

Section Structured.

Variable W : Type.
Variable clock : W -> Q.
Variable isupper : char -> bool.
Variable list_of_set : list str -> list str.

(** X11: the insights of a structured response never fail: for every
    response that is not blank, [extract_key_insights] applied to
    [_structure_response] has status [success], between one and three main
    topics, which are the first topics found in the response, and the
    timestamp of the structured response. *)
Theorem insights_of_structured_response (now : Q) (response : str) (st : run W) :
  strip response <> [] ->
  dict_get (lit "status")
    (fst (extract_key_insights W clock
            (_structure_response isupper list_of_set now response) st))
  = Some (VStr (lit "success"))
  /\ dict_get (lit "main_topics")
       (fst (extract_key_insights W clock
               (_structure_response isupper list_of_set now response) st))
     = Some (VList (map VStr (firstn 3 (_extract_topics_from_text response))))
  /\ (1 <= List.length (firstn 3 (_extract_topics_from_text response)) <= 3)%nat
  /\ dict_get (lit "timestamp")
       (fst (extract_key_insights W clock
               (_structure_response isupper list_of_set now response) st))
     = Some (VNum now).
Proof.
  intros Hne.
  set (analysis := _structure_response isupper list_of_set now response).
  assert (Hfields :
            dict_get (lit "error") analysis = None
            /\ dict_get (lit "topics") analysis
               = Some (VList (map VStr (_extract_topics_from_text response)))
            /\ sliceable (entities_of analysis) = true
            /\ sliceable (key_issues_of analysis) = true
            /\ dict_get (lit "timestamp") analysis = Some (VNum now)).
  { unfold analysis, entities_of, key_issues_of, _structure_response.
    destruct (strip response) as [|c r]; [congruence|].
    repeat split; reflexivity. }
  destruct Hfields as [He [Ht [Hen [Hk Hts]]]].
  unfold Reasoner.extract_key_insights, try_except, extract_key_insights_try.
  rewrite He. unfold bind, lift, time_time, ret.
  fold (entities_of analysis). fold (key_issues_of analysis).
  rewrite !slice_to_sliced, Hen, Hk.
  unfold dict_get_default. rewrite Ht, Hts. cbn [sliceable sliced fst].
  split; [reflexivity|]. split; [rewrite firstn_map; reflexivity|].
  split; [|reflexivity].
  split; [|apply firstn_le_length].
  unfold _extract_topics_from_text.
  destruct (found_in (lower response) political_keywords); simpl; lia.
Qed.

End Structured.

Lemma insights_of_structured_response_witness :
  dict_get (lit "main_topics")
    (fst (Reasoner.extract_key_insights unit (fun _ => 0%Q)
            (_structure_response ascii_isupper (fun l => l) 0
               (lit "Ekonomi dan pajak menjadi sorotan"))
            {| world := tt; trace := [] |}))
  = Some (VList [VStr (lit "ekonomi")]).
Proof.
  apply (proj1 (proj2 (insights_of_structured_response unit (fun _ => 0%Q)
                         ascii_isupper (fun l => l) 0
                         (lit "Ekonomi dan pajak menjadi sorotan")
                         {| world := tt; trace := [] |} ltac:(discriminate)))).
Defined.

End Insights.

(** ** Requests to the completion service *)

Module Requests.

Import Utils Reasoner PyFacts.


Lemma validate_raises_rejection (response : option completion) (e : exn) :
  validate_openai_response response = Raised e -> In e rejections.
Proof.
  unfold validate_openai_response, rejections.
  destruct response as [r|]; [|intros H; inversion H; simpl; tauto].
  destruct r as [chs]. cbn [choices].
  destruct chs as [l|]; [|intros H; inversion H; simpl; tauto].
  destruct l as [|ch cs]; [intros H; inversion H; simpl; tauto|].
  destruct ch as [m]. cbn [message].
  destruct m as [m|]; [|intros H; inversion H; simpl; tauto].
  destruct m as [co]. cbn [content].
  destruct co as [t|]; [|intros H; inversion H; simpl; tauto].
  destruct t as [|c0 c]; [intros H; inversion H; simpl; tauto|].
  destruct (strip (c0 :: c)); [|discriminate].
  intros H; inversion H; simpl; tauto.
Qed.

(** A rejection is not retried, and the classifier has only its general
    answer for it. *)
Lemma rejection_is_final (e : exn) :
  In e rejections ->
  classify e = e
  /\ is_retryable (lower (str_of_exn e)) = false
  /\ parse_openai_error (str_of_exn e) = fallback_info
  /\ str_of_exn e <> []
  /\ (forall user_message technical_message,
         e = UserFriendly user_message technical_message ->
         user_message <> fst fallback_info).
Proof.
  unfold rejections. intros H.
  repeat (destruct H as [<- | H];
          [ repeat split; try reflexivity; try discriminate;
            intros um tm E; inversion E; vm_compute; discriminate | ]).
  destruct H.
Qed.

Section Wrapped.

Variables W A : Type.
Variable func : W -> outcome A * W.
Variable random : W -> Q * W.
Variable sleep : Q -> W -> W.
Variable max_retries : Z.
Variable exponential_base : Q.
Variable jitter : bool.


End Wrapped.

Section Service.

Variable W : Type.
Variable create : list dict -> Q -> Z -> W -> outcome (option completion) * W.
Variable random : W -> Q * W.
Variable sleep : Q -> W -> W.

Local Abbreviation request := (request W create).
Local Abbreviation _make_openai_request :=
  (_make_openai_request W create random sleep).



(** X13: when the service answers and [validate_openai_response] rejects
    the answer, the request ends after that one call, and the error it
    raises carries the classifier's general message, not the message the
    validation raised; the technical message is kept. *)
Theorem rejected_response_gets_general_message
    (messages : list dict) (temperature : Q) (max_tokens : Z) (w w1 : W)
    (response : option completion) (e : exn) :
  messages <> [] ->
  create messages temperature max_tokens w = (Returned response, w1) ->
  validate_openai_response response = Raised e ->
  _make_openai_request messages temperature max_tokens
                       {| world := w; trace := [] |}
  = (Raised (UserFriendly (fst fallback_info) (str_of_exn e)),
     {| world := w1; trace := [Called] |})
  /\ (forall user_message technical_message,
         e = UserFriendly user_message technical_message ->
         user_message <> fst fallback_info).
Proof.
  intros Hm Hc Hv.
  destruct (rejection_is_final e (validate_raises_rejection _ _ Hv))
    as [Hcl [Hr [Hp [Hne Hmsg]]]].
  split; [|exact Hmsg].
  unfold Reasoner._make_openai_request, wrapper.
  change (Z.to_nat 3) with 3%nat. cbn [attempts world trace].
  unfold Reasoner.request. destruct messages as [|m ms]; [congruence|].
  rewrite Hc, Hv, Hcl, Hr, Hp. cbn [andb fst].
  unfold UserFriendlyError. destruct (str_of_exn e); [congruence | reflexivity].
Qed.

End Service.

Lemma rejected_response_gets_general_message_witness :
  fst (Reasoner._make_openai_request unit blank_service steady_random
         (fun _ w => w) [chat_message (lit "user") (lit "Halo")] (7 # 10) 100
         start)
  = Raised (UserFriendly (fst fallback_info)
              (lit "Empty content in OpenAI response")).
Proof.
  unfold start.
  rewrite (proj1 (rejected_response_gets_general_message unit blank_service
                    steady_random (fun _ w => w)
                    [chat_message (lit "user") (lit "Halo")] (7 # 10) 100
                    tt tt (response_with (lit "   "))
                    (UserFriendly (pict 0x1F916 " AI memberikan respons kosong. Silakan coba lagi dengan teks yang berbeda.")
                                  (lit "Empty content in OpenAI response"))
                    ltac:(discriminate) eq_refl eq_refl)).
  reflexivity.
Defined.

End Requests.

(** ** The answers of the operations *)

Module Answers.

Import Utils Reasoner PyFacts Totality.

Section Operations.

Variable W : Type.
Variable create : list dict -> Q -> Z -> W -> outcome (option completion) * W.
Variable random : W -> Q * W.
Variable sleep : Q -> W -> W.
Variable json_loads : str -> option value.
Variable json_dumps : value -> str.
Variable get_narrative_generation_prompt : dict -> str.
Variable get_policy_recommendation_prompt : str -> str -> str.

Local Abbreviation generate_narrative :=
  (generate_narrative W create random sleep get_narrative_generation_prompt).
Local Abbreviation generate_policy_recommendations :=
  (generate_policy_recommendations W create random sleep json_loads
     get_policy_recommendation_prompt).
Local Abbreviation chat_response :=
  (chat_response W create random sleep json_dumps).
Local Abbreviation _make_openai_request :=
  (_make_openai_request W create random sleep).

Lemma returns_lift {A : Type} (P : A -> Prop) (o : outcome A) :
  (forall a, o = Returned a -> P a) -> returns P (lift W o).
Proof. intros H st. unfold lift. simpl. destruct o; auto. Qed.

(** What holds of every [return] of the block and of both handlers holds
    of the answer. *)
Lemma try_except_returns (P : dict -> Prop) (block : M W dict)
    (on_user_friendly on_exception : str -> dict) (st : run W) :
  returns P block ->
  (forall message, P (on_user_friendly message)) ->
  (forall message, P (on_exception message)) ->
  P (fst (try_except W block on_user_friendly on_exception st)).
Proof.
  intros Hb H1 H2. unfold try_except. specialize (Hb st).
  destruct (block st) as [[d|[user_message technical_message|message]] st'];
    simpl in *; auto.
Qed.

Lemma reports_error_answer (d : dict) : reports_error d -> error_answer d.
Proof.
  intros [[message Hm] Hs]. split; [|exact Hs].
  unfold dict_mem. rewrite Hm. reflexivity.
Qed.

(** X14: an answer that is too short is refused.  Every answer of
    [generate_narrative] is a failure, with an [error] key and [status]
    equal to [error], or it is the text the request returned, unchanged,
    under [narrative] with [status] equal to [success], and then that text
    has at least 50 code points once stripped.  The same holds of
    [chat_response], with the key [response] and at least 10 code
    points.  Which of the two it is, once the request has returned a text,
    is decided by the length of the stripped text alone. *)
Theorem short_answers_are_refused (st : run W) :
  (forall analysis_data response st',
      dict_get (lit "error") analysis_data = None ->
      _make_openai_request
        (narrative_messages (get_narrative_generation_prompt analysis_data))
        (8 # 10) 800 st
      = (Returned response, st') ->
      ((len (strip response) < 50)%Z ->
       error_answer (fst (generate_narrative analysis_data st)))
      /\ ((50 <= len (strip response))%Z ->
          generate_narrative analysis_data st
          = ([ (lit "narrative", VStr response);
               (lit "status", VStr (lit "success")) ], st')))
  /\ (forall question cleaned context response st',
         clean_text question = Returned cleaned ->
         _make_openai_request (chat_messages json_dumps cleaned context)
                              (7 # 10) 1000 st
         = (Returned response, st') ->
         ((len (strip response) < 10)%Z ->
          error_answer (fst (chat_response question context st)))
         /\ ((10 <= len (strip response))%Z ->
             chat_response question context st
             = ([ (lit "response", VStr response);
                  (lit "status", VStr (lit "success")) ], st')))
  /\ (forall analysis_data,
      error_answer (fst (generate_narrative analysis_data st))
      \/ exists response,
          fst (generate_narrative analysis_data st)
          = [ (lit "narrative", VStr response);
              (lit "status", VStr (lit "success")) ]
          /\ (50 <= len (strip response))%Z
          /\ fst (_make_openai_request
                    (narrative_messages
                       (get_narrative_generation_prompt analysis_data))
                    (8 # 10) 800 st)
             = Returned response)
  /\ (forall question context,
         error_answer (fst (chat_response question context st))
         \/ exists cleaned response,
             clean_text question = Returned cleaned
             /\ fst (chat_response question context st)
                = [ (lit "response", VStr response);
                    (lit "status", VStr (lit "success")) ]
             /\ (10 <= len (strip response))%Z
             /\ fst (_make_openai_request
                       (chat_messages json_dumps cleaned context)
                       (7 # 10) 1000 st)
                = Returned response).
Proof.
  split; [|split; [|split]].
  - intros analysis_data response st' He Hreq.
    pose proof (narrative_cases W create random sleep
                  get_narrative_generation_prompt analysis_data st He) as H.
    rewrite Hreq in H.
    destruct (len (strip response) <? 50)%Z eqn:E.
    + apply Z.ltb_lt in E. split; [|lia].
      intros _. apply reports_error_answer. apply H.
    + apply Z.ltb_ge in E. split; [lia|]. intros _. exact H.
  - intros question cleaned context response st' Hc Hreq.
    destruct (chat_cases W create random sleep json_dumps question context st)
      as [_ H].
    specialize (H cleaned Hc). rewrite Hreq in H.
    destruct (len (strip response) <? 10)%Z eqn:E.
    + apply Z.ltb_lt in E. split; [|lia].
      intros _. apply reports_error_answer. apply H.
    + apply Z.ltb_ge in E. split; [lia|]. intros _. exact H.
  - intros analysis_data.
    destruct (dict_get (lit "error") analysis_data) as [e|] eqn:He.
    + left. unfold Reasoner.generate_narrative, try_except,
        Reasoner.generate_narrative_try.
      rewrite He. split; reflexivity.
    + pose proof (narrative_cases W create random sleep
                    get_narrative_generation_prompt analysis_data st He) as H.
      destruct (_make_openai_request
                  (narrative_messages
                     (get_narrative_generation_prompt analysis_data))
                  (8 # 10) 800 st) as [[response|e] st'].
      * destruct (len (strip response) <? 50)%Z eqn:E.
        -- left. apply reports_error_answer. apply H.
        -- right. exists response. rewrite H. cbn [fst].
           apply Z.ltb_ge in E. auto.
      * left. apply reports_error_answer. apply H.
  - intros question context.
    destruct (chat_cases W create random sleep json_dumps question context st)
      as [Hrefused Hasked].
    destruct (clean_text question) as [cleaned|e] eqn:Hc.
    + specialize (Hasked cleaned eq_refl).
      destruct (_make_openai_request
                  (chat_messages json_dumps cleaned context)
                  (7 # 10) 1000 st) as [[response|e] st'] eqn:Hreq.
      * destruct (len (strip response) <? 10)%Z eqn:E.
        -- left. apply reports_error_answer. apply Hasked.
        -- right. exists cleaned, response. rewrite Hasked, Hreq. cbn [fst].
           apply Z.ltb_ge in E. auto.
      * left. apply reports_error_answer. apply Hasked.
    + left. apply reports_error_answer. apply (Hrefused e eq_refl).
Qed.

(** X15: every answer of [generate_policy_recommendations] has a status,
    and it is [success] or [error]: a JSON object of the model gets the
    status [success] in place of any status of its own. *)
Theorem policy_answer_has_status (context issue : str) (st : run W) :
  has_status (fst (generate_policy_recommendations context issue st)).
Proof.
  unfold Reasoner.generate_policy_recommendations.
  apply (try_except_returns has_status); try (intros m; right; reflexivity).
  unfold generate_policy_recommendations_try.
  repeat (apply returns_bind; intros ?).
  destruct (startswith _ _); [destruct (json_loads _) as [parsed|]|].
  - apply returns_lift. intros d Hd. left.
    destruct parsed; try discriminate. inversion Hd; subst.
    apply dict_get_set.
  - apply returns_ret. left. reflexivity.
  - apply returns_ret. left. reflexivity.
Qed.

End Operations.

Lemma short_answers_are_refused_witness : error_answer (fst terse_narrative).
Proof.
  refine (proj1 (proj1 (short_answers_are_refused unit terse_service
                          steady_random (fun _ w => w) (fun _ => [])
                          (fun _ => []) start)
                       [(lit "topics", VList [VStr (lit "ekonomi")])]
                       (lit "Harga naik.")
                       {| world := tt; trace := [Called] |} eq_refl _) _).
  - vm_compute. reflexivity.
  - vm_compute. reflexivity.
Defined.

End Answers.

(** ** The handlers *)

Module Handling.

Import Routes Handlers.

(** One more case of the handler under study. *)
Ltac split_case :=
  match goal with
  | |- context [match ?x with _ => _ end] =>
      lazymatch x with
      | context [match _ with _ => _ end] => fail
      | _ => destruct x eqn:?
      end
  end;
  cbn [fst snd status_code invoked rworld error_response failed body] in *.

(** The three answers a handler can close a case with. *)
Ltac close_case :=
  first
    [ left; split; [reflexivity | simpl; tauto]
    | right; left; split; [reflexivity | simpl; tauto]
    | right; right; split; [reflexivity | simpl; tauto] ].

Section Handlers.

Variable W : Type.
Variable the_reasoner : reasoner W.
Variable str_of_value : value -> str.

Local Abbreviation complete := (complete W the_reasoner str_of_value).
Local Abbreviation analyze := (analyze W the_reasoner).
Local Abbreviation policy := (policy W the_reasoner).


(** X17: for every request, [analyze] answers 400 without invoking
    anything, or 500 after at most the analysis and the insights, or 200
    after exactly the analysis and then the insights. *)
Theorem analyze_runs_in_order (data : value) (w : W) :
  (status_code (fst (analyze data (fresh w))) = 400%Z
   /\ In (invoked (snd (analyze data (fresh w)))) [[]])
  \/ (status_code (fst (analyze data (fresh w))) = 500%Z
      /\ In (invoked (snd (analyze data (fresh w))))
            [ [];
              [AnalyzePoliticalText];
              [ExtractKeyInsights; AnalyzePoliticalText] ])
  \/ (status_code (fst (analyze data (fresh w))) = 200%Z
      /\ In (invoked (snd (analyze data (fresh w))))
            [ [ExtractKeyInsights; AnalyzePoliticalText] ]).
Proof.
  unfold Handlers.analyze, guarded, analyze_body, bind, lift, call, ret,
    fresh, py_get.
  repeat split_case; close_case.
Qed.

(** X18: a failure of a stage reaches the caller of [analyze] as it is:
    when the analysis has an [error] key, the response is a 500 whose
    [error] is that value, and the insights are not invoked; when the
    analysis has none and the insights have one, the response is a 500
    whose [error] is the value of the insights. *)
Theorem analyze_passes_errors (data : dict) (w w1 : W) (analysis : dict) :
  truthy (request_text data) = true ->
  analyze_political_text the_reasoner (request_text data) w = (analysis, w1) ->
  (forall e, dict_get (lit "error") analysis = Some e ->
             analyze (VDict data) (fresh w)
             = (failed e,
                {| rworld := w1; invoked := [AnalyzePoliticalText] |}))
  /\ (forall insights w2 e,
         dict_get (lit "error") analysis = None ->
         extract_key_insights the_reasoner analysis w1 = (insights, w2) ->
         dict_get (lit "error") insights = Some e ->
         analyze (VDict data) (fresh w)
         = (failed e,
            {| rworld := w2;
               invoked := [ExtractKeyInsights; AnalyzePoliticalText] |})).
Proof.
  intros Ht Ha.
  unfold Handlers.analyze, guarded, analyze_body, bind, lift, call, ret,
    fresh, py_get.
  fold (request_text data). rewrite Ht. cbn [negb rworld invoked].
  rewrite Ha. split.
  - intros e He. rewrite He. reflexivity.
  - intros insights w2 e He Hi Hie. rewrite He. cbn [rworld invoked].
    rewrite Hi, Hie. reflexivity.
Qed.

(** X19: for a request whose body is a JSON object, [policy] invokes the
    policy recommendations, once, exactly when context and issue are both
    present with a true value; it answers 400 and invokes nothing
    otherwise.  An answer of the operation with an [error] key gives a 500
    with that error, any other a 200 with the answer under
    [recommendations]. *)
Theorem policy_needs_context_and_issue (data : dict) (w : W) :
  (truthy (dict_get_default (lit "context") (VStr []) data)
   && truthy (dict_get_default (lit "issue") (VStr []) data) = false ->
   policy (VDict data) (fresh w)
   = (error_response 400 (lit "Context and issue are required"), fresh w))
  /\ (truthy (dict_get_default (lit "context") (VStr []) data)
      && truthy (dict_get_default (lit "issue") (VStr []) data) = true ->
      invoked (snd (policy (VDict data) (fresh w)))
      = [GeneratePolicyRecommendations]
      /\ (forall result w1,
             generate_policy_recommendations the_reasoner
               (dict_get_default (lit "context") (VStr []) data)
               (dict_get_default (lit "issue") (VStr []) data) w
             = (result, w1) ->
             fst (policy (VDict data) (fresh w))
             = match dict_get (lit "error") result with
               | Some e => failed e
               | None => {| body := [(lit "recommendations", VDict result)];
                            status_code := 200 |}
               end)).
Proof.
  unfold Handlers.policy, guarded, policy_body, bind, lift, call, ret, fresh,
    py_get_default.
  destruct (truthy (dict_get_default (lit "context") (VStr []) data));
    destruct (truthy (dict_get_default (lit "issue") (VStr []) data));
    cbn [andb negb orb]; (split; [try discriminate; reflexivity|]);
    try discriminate.
  intros _. cbn [rworld invoked].
  destruct (generate_policy_recommendations the_reasoner _ _ w) as [r w1].
  split; [destruct (dict_get (lit "error") r); reflexivity|].
  intros result w2 H. inversion H; subst.
  destruct (dict_get (lit "error") result); reflexivity.
Qed.

End Handlers.

Lemma analyze_passes_errors_witness :
  fst (Handlers.analyze nat failing_narrative (VDict sample_request) (fresh 0%nat))
  = {| body := [ (lit "analysis",
                  VDict [(lit "key_issues", VList [VStr (lit "harga beras")])]);
                 (lit "key_insights",
                  VDict [(lit "critical_issues",
                          VList [VStr (lit "harga beras")])]);
                 (lit "status", VStr (lit "success")) ];
       status_code := 200 |}
  /\ fst (Handlers.analyze nat refusing (VDict sample_request) (fresh 0%nat))
     = failed (VStr (lit "teks ditolak")).
Proof.
  split; [reflexivity|].
  rewrite (proj1 (analyze_passes_errors nat refusing sample_request 0%nat 1%nat
                    [(lit "error", VStr (lit "teks ditolak"))]
                    eq_refl eq_refl)
                 (VStr (lit "teks ditolak")) eq_refl).
  reflexivity.
Defined.

Lemma policy_needs_context_and_issue_witness :
  Handlers.policy nat refusing (VDict [(lit "context", VStr (lit "pangan"))])
                  (fresh 0%nat)
  = (error_response 400 (lit "Context and issue are required"), fresh 0%nat).
Proof.
  apply (proj1 (policy_needs_context_and_issue nat refusing
                  [(lit "context", VStr (lit "pangan"))] 0%nat)).
  reflexivity.
Defined.

End Handling.

(** ** When the service is contacted *)

Module Contact.

Import Utils Reasoner PyFacts Cleaning.

Section Operations.

Variable W : Type.
Variable create : list dict -> Q -> Z -> W -> outcome (option completion) * W.
Variable random : W -> Q * W.
Variable sleep : Q -> W -> W.
Variable clock : W -> Q.
Variable json_loads : str -> option value.
Variable get_political_analysis_prompt : str -> str.
Variable isupper : char -> bool.
Variable list_of_set : list str -> list str.

Local Abbreviation analyze_political_text :=
  (analyze_political_text W create random sleep clock json_loads
     get_political_analysis_prompt isupper list_of_set).

(** One request records between one and three calls. *)
Lemma request_calls (messages : list dict) (temperature : Q) (max_tokens : Z)
    (st : run W) :
  exists k,
    (1 <= k <= 3)%nat
    /\ calls (trace (snd (_make_openai_request W create random sleep messages
                            temperature max_tokens st)))
       = (calls (trace st) + k)%nat.
Proof.
  unfold _make_openai_request, wrapper. change (Z.to_nat 3) with 3%nat.
  destruct (attempts W str (request W create messages temperature max_tokens)
                     random sleep 3 2 true 3 0%Z 1 None st) as [r st'] eqn:Hrun.
  destruct (Attempts.attempts_script W str
              (request W create messages temperature max_tokens) random sleep
              3 2 true 2 0%Z 1 None st r st' eq_refl Hrun)
    as [ss [Ht [Hl _]]].
  exists (S (List.length ss)). split; [lia|].
  cbn [snd]. rewrite Ht, Retry.calls_app, Retry.calls_rev, Retry.calls_script.
  lia.
Qed.

(** X20: [analyze_political_text] contacts the completion service exactly
    when the collapsed text has at least 10 code points.  A shorter text
    gives an error answer of type [user_friendly] and leaves the run as it
    is: nothing is called and nothing is slept; the message is the one for
    a missing field when the text is empty and the one for a short text
    otherwise.  A text of 10 code points or more costs between one and
    three calls. *)
Theorem analyze_contacts_service (text : str) (st : run W) :
  ((len (collapse text) < 10)%Z ->
   analyze_political_text text st
   = ([ (lit "error",
         VStr (match text with
               | [] => pict 0x1F4CB " Field berikut harus diisi: Teks untuk analisis"
               | _ :: _ => too_short_message
               end));
        (lit "status", VStr (lit "error"));
        (lit "error_type", VStr (lit "user_friendly")) ], st))
  /\ ((10 <= len (collapse text))%Z ->
      exists k,
        (1 <= k <= 3)%nat
        /\ calls (trace (snd (analyze_political_text text st)))
           = (calls (trace st) + k)%nat).
Proof.
  unfold Reasoner.analyze_political_text, try_except,
    analyze_political_text_try.
  split.
  - intros Hlen. destruct text as [|c0 t0]; [reflexivity|].
    unfold bind at 1. unfold lift at 1.
    change (validate_input_data [(lit "text", VStr (c0 :: t0))] [lit "text"])
      with (Returned (A := bool) true).
    unfold bind at 1. unfold lift at 1. unfold clean_text. cbv beta iota.
    fold (collapse (c0 :: t0)).
    replace (len (collapse (c0 :: t0)) <? 10)%Z with true
      by (symmetry; apply Z.ltb_lt; lia).
    reflexivity.
  - intros Hlen.
    assert (Hne : text <> []).
    { intros ->. apply Hlen. reflexivity. }
    assert (Hc : exists t, clean_text text = Returned t).
    { unfold clean_text. fold (collapse text).
      destruct text as [|c0 t0]; [congruence|]. cbv beta iota.
      replace (len (collapse (c0 :: t0)) <? 10)%Z with false
        by (symmetry; apply Z.ltb_ge; lia).
      eauto. }
    destruct Hc as [t Hc].
    unfold bind at 1. unfold lift at 1.
    replace (validate_input_data [(lit "text", VStr text)] [lit "text"])
      with (Returned (A := bool) true)
      by (destruct text; [congruence | reflexivity]).
    unfold bind at 1. unfold lift at 1. rewrite Hc.
    unfold bind at 1.
    set (messages := [chat_message (lit "system") _; chat_message (lit "user") _]).
    destruct (request_calls messages (7 # 10) 1500 st) as [k [Hk Hcalls]].
    exists k. split; [exact Hk|].
    destruct (_make_openai_request W create random sleep messages (7 # 10)
                                   1500 st) as [[response|e] st'].
    + cbn [snd] in Hcalls. unfold bind, time_time, ret.
      destruct (startswith (lit "{") (strip response));
        [destruct (json_loads response)|]; cbn [snd]; exact Hcalls.
    + cbn [snd] in Hcalls. destruct e; cbn [snd]; exact Hcalls.
Qed.

End Operations.

Lemma analyze_contacts_service_witness :
  Reasoner.analyze_political_text unit service_down steady_random
    (fun _ w => w) (fun _ => 0%Q) (fun _ => None) (fun text => text)
    (fun _ => false) (fun l => l) (lit "  pajak  ") start
  = ([ (lit "error", VStr too_short_message);
       (lit "status", VStr (lit "error"));
       (lit "error_type", VStr (lit "user_friendly")) ], start).
Proof.
  apply (proj1 (analyze_contacts_service unit service_down steady_random
                  (fun _ w => w) (fun _ => 0%Q) (fun _ => None)
                  (fun text => text) (fun _ => false) (fun l => l)
                  (lit "  pajak  ") start)).
  vm_compute. reflexivity.
Defined.

End Contact.

(** ** A retry that succeeds, and requests that are not sent *)

Module Recovery.

Import Utils Reasoner PyFacts Cleaning.

Section Wrapper.

Variables W A : Type.
Variable func : W -> outcome A * W.
Variable random : W -> Q * W.
Variable sleep : Q -> W -> W.
Variable max_retries : Z.
Variable initial_delay : Q.
Variable exponential_base : Q.

(** X21: without jitter, when the first invocation raises a retryable
    error and the second one, made in the world that a sleep of
    [initial_delay] leaves, returns, the wrapper returns that result after
    two invocations and that one sleep, provided two attempts are
    allowed. *)
Theorem retry_then_success (w w1 w2 : W) (e : exn) (a : A) :
  (2 <= max_retries)%Z ->
  func w = (Raised e, w1) ->
  is_retryable (lower (str_of_exn e)) = true ->
  func (sleep initial_delay w1) = (Returned a, w2) ->
  result W A func random sleep max_retries initial_delay exponential_base
         false w
  = (Returned a,
     {| world := w2; trace := [Called; Slept initial_delay; Called] |}).
Proof.
  intros Hm Hf He Hs. unfold result, wrapper.
  replace (Z.to_nat max_retries) with (S (S (Z.to_nat (max_retries - 2))))
    by lia.
  cbn [attempts world trace]. rewrite Hf, He.
  replace (0 <? max_retries - 1)%Z with true
    by (symmetry; apply Z.ltb_lt; lia).
  destruct (parse_openai_error (str_of_exn e)).
  cbn [andb world trace]. rewrite Hs. reflexivity.
Qed.

End Wrapper.

Lemma retry_then_success_witness :
  result nat str recovering uneven_random (fun _ w => S w) 3 1 2 false 0%nat
  = (Returned (lit "baik"),
     {| world := 2%nat; trace := [Called; Slept 1; Called] |}).
Proof.
  apply (retry_then_success nat str recovering uneven_random (fun _ w => S w)
           3 1 2 0%nat 0%nat 2%nat
           (OtherException (lit "HTTP 503 Service Unavailable")) (lit "baik"));
    [lia | reflexivity | reflexivity | reflexivity].
Defined.

Section Operations.

Variable W : Type.
Variable create : list dict -> Q -> Z -> W -> outcome (option completion) * W.
Variable random : W -> Q * W.
Variable sleep : Q -> W -> W.
Variable json_loads : str -> option value.
Variable get_policy_recommendation_prompt : str -> str -> str.

Local Abbreviation generate_policy_recommendations :=
  (generate_policy_recommendations W create random sleep json_loads
     get_policy_recommendation_prompt).

(** X22: [generate_policy_recommendations] does not contact the
    completion service when the context or the issue has fewer than 10
    code points once collapsed: nothing is called and nothing is slept,
    and the answer is an error answer.  Its message names the missing
    fields, context first, when one of the two is empty, and is the one
    for a short text otherwise. *)
Theorem policy_needs_long_inputs (context issue : str) (st : run W) :
  (len (collapse context) < 10)%Z \/ (len (collapse issue) < 10)%Z ->
  generate_policy_recommendations context issue st
  = (error_result
       (match context, issue with
        | [], [] => pict 0x1F4CB " Field berikut harus diisi: Konteks, Isu politik"
        | [], _ :: _ => pict 0x1F4CB " Field berikut harus diisi: Konteks"
        | _ :: _, [] => pict 0x1F4CB " Field berikut harus diisi: Isu politik"
        | _ :: _, _ :: _ => too_short_message
        end), st).
Proof.
  intros Hshort.
  unfold Reasoner.generate_policy_recommendations, try_except,
    generate_policy_recommendations_try.
  destruct context as [|c0 t0]; destruct issue as [|i0 u0];
    [reflexivity | reflexivity | reflexivity |].
  unfold bind at 1. unfold lift at 1.
  change (validate_input_data
            [(lit "context", VStr (c0 :: t0)); (lit "issue", VStr (i0 :: u0))]
            [lit "context"; lit "issue"])
    with (Returned (A := bool) true).
  unfold bind at 1. unfold lift at 1. unfold clean_text at 1. cbv beta iota.
  fold (collapse (c0 :: t0)).
  destruct (len (collapse (c0 :: t0)) <? 10)%Z eqn:Hc; [reflexivity|].
  unfold bind at 1. unfold lift at 1. unfold clean_text at 1. cbv beta iota.
  fold (collapse (i0 :: u0)).
  replace (len (collapse (i0 :: u0)) <? 10)%Z with true; [reflexivity|].
  symmetry. apply Z.ltb_lt. apply Z.ltb_ge in Hc.
  destruct Hshort as [H | H]; [lia | exact H].
Qed.

End Operations.

Lemma policy_needs_long_inputs_witness :
  Reasoner.generate_policy_recommendations unit service_down steady_random
    (fun _ w => w) (fun _ => None) (fun context issue => context)
    (lit "Ketahanan pangan nasional") (lit "beras") start
  = (error_result too_short_message, start).
Proof.
  apply (policy_needs_long_inputs unit service_down steady_random
           (fun _ w => w) (fun _ => None) (fun context issue => context)
           (lit "Ketahanan pangan nasional") (lit "beras") start).
  right. vm_compute. reflexivity.
Defined.

End Recovery.
